(** * Tool server of mcp-data-analytics-server: handlers and response envelopes

    A shallow embedding of [src/server.py].  Every tool handler is a
    function in a state-and-exception monad over a [World] (file system,
    log, trace of calls to the wrapped libraries); the wrapped libraries
    (pandas, plotly, PyPDF2, httpx, BeautifulSoup) are the fields of an
    environment record [Env], each returning either a value or a raised
    [Exception].  Python [str] is [string], Python [int] is [Z], a dict
    literal is an association list in insertion order.  The upload and
    cleanup blocks of [src/app.py] run in the same monad (module [App]). *)

From Stdlib Require Import ZArith String Ascii.
From stdpp Require Import gmap strings list pretty.

Open Scope string_scope.
Open Scope Z_scope.

(** ** Python strings *)

Module PyStr.

Fixpoint take (n : nat) (s : string) : string :=
  match n, s with
  | S n', String c s' => String c (take n' s')
  | _, _ => ""
  end.

Fixpoint drop (n : nat) (s : string) : string :=
  match n, s with
  | S n', String _ s' => drop n' s'
  | _, _ => s
  end.

(** [len(s)] *)
Definition len (s : string) : Z := Z.of_nat (String.length s).

(** [s[:k]] with Python's reading of a negative bound. *)
Definition slice_to (s : string) (k : Z) : string :=
  if 0 <=? k then take (Z.to_nat k) s
  else take (Z.to_nat (Z.max 0 (len s + k))) s.

(** [s[i:]] for [0 <= i]. *)
Definition slice_from (s : string) (i : nat) : string := drop i s.

Definition lower_ascii (c : ascii) : ascii :=
  let n := nat_of_ascii c in
  if ((65 <=? n) && (n <=? 90))%nat then ascii_of_nat (n + 32) else c.

(** [s.lower()] on the ASCII range. *)
Fixpoint lower (s : string) : string :=
  match s with
  | "" => ""
  | String c s' => String (lower_ascii c) (lower s')
  end.

(** [c in s] for a one-character [c]. *)
Fixpoint mem (c : ascii) (s : string) : bool :=
  match s with
  | "" => false
  | String d s' => if decide (c = d) then true else mem c s'
  end.

(** [s.rfind(c)]: the last index of [c] in [s], [None] for [-1]. *)
Fixpoint rfind (c : ascii) (s : string) : option nat :=
  match s with
  | "" => None
  | String d s' =>
      match rfind c s' with
      | Some i => Some (S i)
      | None => if decide (c = d) then Some 0%nat else None
      end
  end.

(** [s.startswith(c)] for a one-character [c]. *)
Definition startswith (c : ascii) (s : string) : bool :=
  match s with
  | String d _ => bool_decide (c = d)
  | "" => false
  end.

(** [sep.join(l)] *)
Fixpoint join (sep : string) (l : list string) : string :=
  match l with
  | [] => ""
  | [x] => x
  | x :: rest => x +:+ sep +:+ join sep rest
  end.

(** [needle in s] as a proposition: [s] mentions [needle]. *)
Definition mentions (s needle : string) : Prop :=
  ∃ pre post, s = pre +:+ needle +:+ post.

End PyStr.

(** ** Python numbers as [_format_file_size] meets them

    An [int] is exact.  A [float] is kept as the dyadic rational
    [fl_num / 2 ^ fl_exp]; the only float operations of the program are
    the conversion of an [int], division by [1024], comparison with
    [1024] and rendering with [.1f], all of which are exact on dyadics
    apart from the rounding to 53 significant bits on conversion. *)

Inductive pynum :=
| PyInt (n : Z)
| PyFloat (fl_num : Z) (fl_exp : Z).

(** Round [a / b] ([0 < b]) to the nearest integer, ties to even. *)
Definition round_half_even (a b : Z) : Z :=
  let q := a / b in
  let r := a mod b in
  if 2 * r <? b then q
  else if b <? 2 * r then q + 1
  else if Z.even q then q else q + 1.

(** [float(n)] for [0 <= n]: nearest binary64 value, ties to even (the
    result is an integer again). *)
Definition float_of_int (n : Z) : Z :=
  let bits := Z.log2 n + 1 in
  if bits <=? 53 then n
  else let sh := bits - 53 in round_half_even n (2 ^ sh) * 2 ^ sh.

(** [m / 2 ^ e] lies beyond the binary64 range, where the conversion of
    an [int] and the division of an [int] raise [OverflowError]. *)
Definition float_overflows (m e : Z) : bool := 2 ^ (1024 + e) <=? m.

(** ** Exceptions and values *)

Inductive ExcClass :=
| FileNotFoundError | FileExistsError | IsADirectoryError | NotADirectoryError
| ValueError | TypeError | KeyError | IndexError | AttributeError
| OverflowError | UnicodeError
| OtherException (name : string).

(** An instance of a subclass of Python's [Exception]; [exc_msg] is what
    [str(e)] gives.  [KeyboardInterrupt], [SystemExit] and task
    cancellation derive from [BaseException] only, are not raised by an
    input, and are outside this model. *)
Record Exception := mkExc { exc_class : ExcClass; exc_msg : string }.

#[warnings="-register-all"]
Inductive PyVal :=
| VNone
| VBool (b : bool)
| VInt (n : Z)
| VFloat (x : pynum)
| VStr (s : string)
| VList (l : list PyVal)
| VDict (d : list (string * PyVal))
| VObj (descr : string).

Abbreviation Dict := (list (string * PyVal)).

(** [d.get(k)] / [k in d] on a dict literal kept in insertion order. *)
Fixpoint dict_get (k : string) (d : Dict) : option PyVal :=
  match d with
  | [] => None
  | (k', v) :: rest => if decide (k = k') then Some v else dict_get k rest
  end.

(** [d[k] = v]: replaces in place, or appends a new key at the end. *)
Fixpoint dict_set (k : string) (v : PyVal) (d : Dict) : Dict :=
  match d with
  | [] => [(k, v)]
  | (k', v') :: rest =>
      if decide (k = k') then (k, v) :: rest else (k', v') :: dict_set k v rest
  end.

(** [{**a, **b}] *)
Definition dict_merge (a b : Dict) : Dict :=
  fold_left (λ acc kv, dict_set kv.1 kv.2 acc) b a.

Definition dict_keys (d : Dict) : list string := d.*1.

(** ** Paths ([pathlib.PurePosixPath])

    A path is kept parsed, as pathlib keeps it: whether it is anchored at
    the root, and its components. *)

Record Path := mkPath { anchored : bool; parts : list string }.

Global Instance Path_eq_dec : EqDecision Path.
Proof. solve_decision. Defined.

(** [str(path)] *)
Definition path_str (p : Path) : string :=
  if anchored p then "/" +:+ PyStr.join "/" (parts p)
  else match parts p with
       | [] => "."
       | _ => PyStr.join "/" (parts p)
       end.

(** [path.name] *)
Definition path_name (p : Path) : string := default "" (last (parts p)).

(** [path.parent] *)
Definition path_parent (p : Path) : Path :=
  mkPath (anchored p) (removelast (parts p)).

(** The suffix of a file name: from its last dot, unless that dot is its
    first or last character. *)
Definition name_suffix (name : string) : string :=
  match PyStr.rfind "."%char name with
  | Some i =>
      if ((0 <? i) && (i <? String.length name - 1))%nat
      then PyStr.slice_from name i else ""
  | None => ""
  end.

(** [path.suffix] *)
Definition path_suffix (p : Path) : string := name_suffix (path_name p).

Definition replace_last (name : string) (l : list string) : list string :=
  removelast l ++ [name].

(** [path.with_suffix(suffix)]; [repr] is Python's [repr] on strings,
    used in the messages only. *)
Definition with_suffix (repr : string → string) (p : Path) (suffix : string)
  : Exception + Path :=
  if PyStr.mem "/"%char suffix
  then inl (mkExc ValueError ("Invalid suffix " +:+ repr suffix))
  else if (bool_decide (suffix ≠ "") && negb (PyStr.startswith "."%char suffix))
          || bool_decide (suffix = ".")
  then inl (mkExc ValueError ("Invalid suffix " +:+ repr suffix))
  else
    let name := path_name p in
    if bool_decide (name = "")
    then inl (mkExc ValueError
                ("PosixPath(" +:+ repr (path_str p) +:+ ") has an empty name"))
    else
      let old_suffix := path_suffix p in
      let name' :=
        if bool_decide (old_suffix = "") then name +:+ suffix
        else PyStr.take (String.length name - String.length old_suffix) name
             +:+ suffix in
      inr (mkPath (anchored p) (replace_last name' (parts p))).

(** ** The world a handler runs in *)

(** A file holds bytes (a [string] read as a byte sequence). *)
Inductive Node :=
| File (content : string)
| Dir.

(** A call into a wrapped library, with its principal argument. *)
Record Event := Call { ev_fn : string; ev_arg : string }.

Record World := mkWorld {
  fs : gmap string Node;      (* keyed by [str(path)] *)
  clock : Z;                  (* what [datetime.now()] reads *)
  log : list string;          (* [logger.error] lines, oldest first *)
  trace : list Event          (* library calls, oldest first *)
}.

Definition set_fs (f : gmap string Node) (w : World) : World :=
  mkWorld f (clock w) (log w) (trace w).
Definition add_log (line : string) (w : World) : World :=
  mkWorld (fs w) (clock w) (log w ++ [line]) (trace w).
Definition add_event (e : Event) (w : World) : World :=
  mkWorld (fs w) (clock w) (log w) (trace w ++ [e]).

(** ** The handler monad: state over [World], exceptions on the side *)

Definition M (A : Type) : Type := World → (Exception + A) * World.

Global Instance M_ret : MRet M := λ A (x : A) w, (inr x, w).
Global Instance M_bind : MBind M := λ A B (f : A → M B) (m : M A) w,
  match m w with
  | (inr x, w') => f x w'
  | (inl e, w') => (inl e, w')
  end.

(** [raise e] *)
Definition raise {A} (e : Exception) : M A := λ w, (inl e, w).

(** [try: body / except Exception as e: handler(e)] *)
Definition try_except {A} (body : M A) (handler : Exception → M A) : M A :=
  λ w, match body w with
       | (inr x, w') => (inr x, w')
       | (inl e, w') => handler e w'
       end.

(** A pure computation that may raise. *)
Definition lift {A} (r : Exception + A) : M A := λ w, (r, w).

Definition get_world : M World := λ w, (inr w, w).
Definition modify (f : World → World) : M unit := λ w, (inr tt, f w).

(** [logger.error(line)] *)
Definition logger_error (line : string) : M unit := modify (add_log line).

(** Pure code that may raise: [Exception + A]. *)
Global Instance Result_ret : MRet (sum Exception) := λ A (x : A), inr x.
Global Instance Result_bind : MBind (sum Exception) :=
  λ A B (f : A → Exception + B) (r : Exception + A),
    match r with
    | inr x => f x
    | inl e => inl e
    end.

(** ** [_format_file_size] *)

(** [float(n)] for any [int]. *)
Definition float_of_pyint (n : Z) : Z := Z.sgn n * float_of_int (Z.abs n).

(** [x < 1024] *)
Definition lt_1024 (x : pynum) : bool :=
  match x with
  | PyInt n => n <? 1024
  | PyFloat m e => m <? 1024 * 2 ^ e
  end.

(** [x / 1024]: exact on a float (a step of the binary exponent); on an
    [int] the correctly rounded quotient. *)
Definition truediv_1024 (x : pynum) : Exception + pynum :=
  match x with
  | PyInt n =>
      let m := float_of_pyint n in
      if float_overflows (Z.abs m) 10
      then inl (mkExc OverflowError
                  "integer division result too large for a float")
      else inr (PyFloat m 10)
  | PyFloat m e => inr (PyFloat m (e + 10))
  end.

(** The decimal rendering of [m / 2 ^ e] with one digit after the point:
    correctly rounded, ties to even. *)
Definition render_1f (m e : Z) : string :=
  let t := round_half_even (10 * Z.abs m) (2 ^ e) in
  (if m <? 0 then "-" else "") +:+ pretty (t / 10) +:+ "." +:+ pretty (t mod 10).

(** [f"{x:.1f}"] *)
Definition format_1f (x : pynum) : Exception + string :=
  match x with
  | PyInt n =>
      let m := float_of_pyint n in
      if float_overflows (Z.abs m) 0
      then inl (mkExc OverflowError "int too large to convert to float")
      else inr (render_1f m 0)
  | PyFloat m e => inr (render_1f m e)
  end.

(** The [for unit in [...]] loop, then the fall-through to TB. *)
Fixpoint format_units (units : list string) (size_bytes : pynum)
  : Exception + string :=
  match units with
  | [] => s ← format_1f size_bytes; mret (s +:+ " TB")
  | unit :: rest =>
      if lt_1024 size_bytes
      then s ← format_1f size_bytes; mret (s +:+ " " +:+ unit)
      else size_bytes' ← truediv_1024 size_bytes; format_units rest size_bytes'
  end.

Definition _format_file_size (size_bytes : Z) : Exception + string :=
  format_units ["B"; "KB"; "MB"; "GB"] (PyInt size_bytes).

(** ** The wrapped libraries and the operating system *)

Record DataFrame := mkDF {
  df_columns : list string;
  df_rows : list (list PyVal)
}.

(** The result of [DataFrame.pivot_table]. *)
Record Pivot := mkPivot {
  pv_to_dict : PyVal;                         (* [pivot.to_dict()] *)
  pv_getitem : string → Exception + PyVal;    (* [pivot[func].to_dict()] *)
  pv_shape : PyVal                            (* [pivot.shape] *)
}.

(** A plotly figure: what was plotted, and its layout. *)
Record Figure := mkFigure { fig_plot : PyVal; fig_layout : Dict }.

(** An [httpx.Response]. *)
Record Response := mkResponse {
  resp_raise_for_status : option Exception;
  resp_content : string;                      (* bytes *)
  resp_text : string;
  resp_header : string → option string;
  resp_json : Exception + PyVal
}.

(** A parsed [BeautifulSoup] document. *)
Record Soup := mkSoup {
  soup_select : string → Exception + list string; (* stripped text of each match *)
  soup_get_text : string;                     (* [soup.get_text(strip=True)] *)
  soup_title : option PyVal                   (* [soup.title.string], if a title *)
}.

Inductive OsOp := OsStat | OsRead | OsWrite | OsMkdir.

(** What a pandas writer ([df.to_csv(path, ...)] and the like) does, given
    that its output file can be opened: it writes the frame, or it raises
    before opening the file (a rejected argument, a missing engine), or it
    raises once the file is open, which is then left with what had been
    written so far (nothing, when the failure comes first). *)
Inductive Writing :=
| Written (bytes : string)
| Refused (e : Exception)
| Aborted (partial : string) (e : Exception).

Class Env := mkEnv {
  py_repr : PyVal → string;                   (* [repr(v)], as f-strings use it *)
  isoformat : Z → string;                     (* [datetime.isoformat()] *)
  os_fault : OsOp → string → option Exception; (* permissions, I/O errors *)
  st_ctime : string → Z;
  st_mtime : string → Z;
  dir_size : string → Z;
  decode : string → string → Exception + string; (* [bytes.decode(encoding)] *)
  encode : string → string → Exception + string; (* [str.encode(encoding)] *)
  pdf_pages : string → Exception + list string;  (* text of each PDF page *)
  pd_read : string → string → Exception + DataFrame; (* parser, bytes *)
  df_query : string → DataFrame → Exception + PyVal;
  df_select_number : DataFrame → Exception + DataFrame;
  pivot_table :
    DataFrame → list string → list string → string → list string →
    option pynum → Exception + Pivot;
  px : string → DataFrame → Dict → Exception + Figure;
  update_layout : Figure → PyVal → PyVal → Exception + Figure;
  fig_to_html : Figure → Exception + string;
  df_write : string → DataFrame → Dict → Writing;
  http_get : string → Dict → Exception + Response;
  soup_parse : string → Soup
}.

Definition repr_str `{Env} (s : string) : string := py_repr (VStr s).

(** ** [pathlib.Path] against the file system *)

Section Os.
Context `{Env}.

(** The root and the working directory always exist. *)
Definition fs_lookup (w : World) (p : Path) : option Node :=
  match parts p with
  | [] => Some Dir
  | _ => fs w !! path_str p
  end.

Definition os_check (op : OsOp) (p : Path) : M unit :=
  match os_fault op (path_str p) with
  | Some e => raise e
  | None => mret tt
  end.

Definition no_such_file (p : Path) : Exception :=
  mkExc FileNotFoundError
    ("[Errno 2] No such file or directory: " +:+ repr_str (path_str p)).
Definition is_a_directory (p : Path) : Exception :=
  mkExc IsADirectoryError
    ("[Errno 21] Is a directory: " +:+ repr_str (path_str p)).
Definition not_a_directory (p : Path) : Exception :=
  mkExc NotADirectoryError
    ("[Errno 20] Not a directory: " +:+ repr_str (path_str p)).
Definition file_exists (p : Path) : Exception :=
  mkExc FileExistsError
    ("[Errno 17] File exists: " +:+ repr_str (path_str p)).

(** [path.exists()] *)
Definition path_exists (p : Path) : M bool :=
  w ← get_world; mret (bool_decide (is_Some (fs_lookup w p))).

(** [path.is_file()] *)
Definition path_is_file (p : Path) : M bool :=
  w ← get_world;
  mret (match fs_lookup w p with Some (File _) => true | _ => false end).

(** [path.is_dir()] *)
Definition path_is_dir (p : Path) : M bool :=
  w ← get_world;
  mret (match fs_lookup w p with Some Dir => true | _ => false end).

Record Stat := mkStat { st_size : Z; stat_ctime : Z; stat_mtime : Z }.

(** [path.stat()] *)
Definition path_stat (p : Path) : M Stat :=
  os_check OsStat p;;
  w ← get_world;
  match fs_lookup w p with
  | None => raise (no_such_file p)
  | Some (File c) =>
      mret (mkStat (PyStr.len c) (st_ctime (path_str p)) (st_mtime (path_str p)))
  | Some Dir =>
      mret (mkStat (dir_size (path_str p)) (st_ctime (path_str p))
              (st_mtime (path_str p)))
  end.

(** [path.read_bytes()] / [open(path, "rb").read()] *)
Definition read_bytes (p : Path) : M string :=
  os_check OsRead p;;
  w ← get_world;
  match fs_lookup w p with
  | None => raise (no_such_file p)
  | Some Dir => raise (is_a_directory p)
  | Some (File c) => mret c
  end.

(** [path.read_text(encoding=...)] *)
Definition read_text (p : Path) (encoding : string) : M string :=
  b ← read_bytes p; lift (decode encoding b).

(** [path.write_bytes(content)]: creates or replaces the file; its
    directory has to exist. *)
Definition write_bytes (p : Path) (content : string) : M unit :=
  os_check OsWrite p;;
  w ← get_world;
  match fs_lookup w p with
  | Some Dir => raise (is_a_directory p)
  | _ =>
      match fs_lookup w (path_parent p) with
      | None => raise (no_such_file p)
      | Some (File _) => raise (not_a_directory p)
      | Some Dir => modify (set_fs (<[path_str p := File content]> (fs w)))
      end
  end.

(** [path.write_text(data, encoding=...)]: the file is opened (and
    emptied) before the text is encoded. *)
Definition write_text (p : Path) (data encoding : string) : M unit :=
  write_bytes p "";;
  b ← lift (encode encoding data);
  write_bytes p b.

(** The ancestors of a path and the path itself, outermost first. *)
Definition path_chain (p : Path) : list Path :=
  (λ n, mkPath (anchored p) (List.firstn n (parts p))) <$> seq 1 (length (parts p)).

Fixpoint mkdir_chain (target : Path) (chain : list Path) : M unit :=
  match chain with
  | [] => mret tt
  | q :: rest =>
      w ← get_world;
      match fs_lookup w q with
      | Some Dir => mkdir_chain target rest
      | Some (File _) =>
          raise (if decide (q = target) then file_exists q
                 else not_a_directory q)
      | None =>
          modify (set_fs (<[path_str q := Dir]> (fs w)));;
          mkdir_chain target rest
      end
  end.

(** [path.mkdir(parents=True, exist_ok=True)] *)
Definition mkdir_parents (p : Path) : M unit :=
  os_check OsMkdir p;;
  mkdir_chain p (path_chain p).

End Os.

(** ** Python's dynamic operations on values *)

Definition type_name (v : PyVal) : string :=
  match v with
  | VNone => "NoneType"
  | VBool _ => "bool"
  | VInt _ => "int"
  | VFloat _ => "float"
  | VStr _ => "str"
  | VList _ => "list"
  | VDict _ => "dict"
  | VObj d => d
  end.

Fixpoint chars (s : string) : list string :=
  match s with
  | "" => []
  | String c s' => String c "" :: chars s'
  end.

(** [for x in v] *)
Definition py_iter (v : PyVal) : Exception + list PyVal :=
  match v with
  | VList l => inr l
  | VStr s => inr (VStr <$> chars s)
  | VDict d => inr (VStr <$> dict_keys d)
  | _ => inl (mkExc TypeError
                ("'" +:+ type_name v +:+ "' object is not iterable"))
  end.

(** [len(v)] *)
Definition py_len (v : PyVal) : Exception + Z :=
  match v with
  | VList l => inr (Z.of_nat (length l))
  | VStr s => inr (PyStr.len s)
  | VDict d => inr (Z.of_nat (length d))
  | _ => inl (mkExc TypeError
                ("object of type '" +:+ type_name v +:+ "' has no len()"))
  end.

(** [v[i]] for a literal index [i]. *)
Definition py_index `{Env} (v : PyVal) (i : nat) : Exception + PyVal :=
  match v with
  | VList l =>
      match l !! i with
      | Some x => inr x
      | None => inl (mkExc IndexError "list index out of range")
      end
  | VStr s =>
      match chars s !! i with
      | Some c => inr (VStr c)
      | None => inl (mkExc IndexError "string index out of range")
      end
  | VDict _ => inl (mkExc KeyError (pretty i))
  | _ => inl (mkExc TypeError
                ("'" +:+ type_name v +:+ "' object is not subscriptable"))
  end.

(** [v[k]] for a string key [k]. *)
Definition py_item `{Env} (v : PyVal) (k : string) : Exception + PyVal :=
  match v with
  | VDict d =>
      match dict_get k d with
      | Some x => inr x
      | None => inl (mkExc KeyError (repr_str k))
      end
  | VList _ | VStr _ =>
      inl (mkExc TypeError
             (type_name v +:+ " indices must be integers"))
  | _ => inl (mkExc TypeError
                ("'" +:+ type_name v +:+ "' object is not subscriptable"))
  end.

(** [v.get(k, dflt)] *)
Definition py_get (v : PyVal) (k : string) (dflt : PyVal) : Exception + PyVal :=
  match v with
  | VDict d => inr (default dflt (dict_get k d))
  | _ => inl (mkExc AttributeError
                ("'" +:+ type_name v +:+ "' object has no attribute 'get'"))
  end.

(** [sep.join(l)] on values: every item has to be a [str]. *)
Definition py_join (sep : string) (l : list PyVal) : Exception + string :=
  strs ← mapM (λ v, match v with
                    | VStr s => inr s
                    | _ => inl (mkExc TypeError
                                  ("sequence item: expected str instance, "
                                   +:+ type_name v +:+ " found"))
                    end) l;
  inr (PyStr.join sep strs).

(** Keyword arguments [base] followed by an unpacked [extra]: [extra]
    has to be a mapping and must not repeat a keyword. *)
Definition call_kwargs (base : Dict) (extra : PyVal) : Exception + Dict :=
  match extra with
  | VDict d =>
      match filter (λ k, k ∈ dict_keys base) (dict_keys d) with
      | [] => inr (base ++ d)%list
      | k :: _ => inl (mkExc TypeError
                         ("got multiple values for keyword argument '"
                          +:+ k +:+ "'"))
      end
  | _ => inl (mkExc TypeError
                ("argument after ** must be a mapping, not "
                 +:+ type_name extra))
  end.

(** A library call is noted in the trace before it runs. *)
Definition note (fn arg : string) : M unit := modify (add_event (Call fn arg)).

(** ** [FileHandler] *)

Module FileHandler.
Section FileHandler.
Context `{Env}.

(** [FileHandler.validate_file_exists] *)
Definition validate_file_exists (path : Path) : M unit :=
  ex ← path_exists path;
  if negb ex
  then raise (mkExc FileNotFoundError
                ("El archivo " +:+ path_str path +:+ " no existe"))
  else (mret tt : M unit).

(** [pd.read_csv(path)], [pd.read_excel(path)], [pd.read_json(path)] *)
Definition pd_read_file (parser : string) (path : Path) : M DataFrame :=
  note ("pd.read_" +:+ parser) (path_str path);;
  b ← read_bytes path;
  lift (pd_read parser b).

(** [FileHandler.read_dataframe] *)
Definition read_dataframe (path : Path) : M DataFrame :=
  validate_file_exists path;;
  if bool_decide (PyStr.lower (path_suffix path) = ".csv")
  then pd_read_file "csv" path
  else if bool_decide (PyStr.lower (path_suffix path) ∈ [".xlsx"; ".xls"])
  then pd_read_file "excel" path
  else if bool_decide (PyStr.lower (path_suffix path) = ".json")
  then pd_read_file "json" path
  else raise (mkExc ValueError
                ("Formato no soportado: " +:+ path_suffix path)).

(** [col in df.columns] *)
Definition in_columns (df : DataFrame) (col : PyVal) : Exception + bool :=
  match col with
  | VStr s => inr (bool_decide (s ∈ df_columns df))
  | VList _ | VDict _ =>
      inl (mkExc TypeError ("unhashable type: '" +:+ type_name col +:+ "'"))
  | _ => inr false
  end.

(** [[col for col in columns if col not in df.columns]] *)
Fixpoint missing_columns (df : DataFrame) (columns : list PyVal)
  : Exception + list PyVal :=
  match columns with
  | [] => inr []
  | col :: rest =>
      present ← in_columns df col;
      missing ← missing_columns df rest;
      inr (if (present : bool) then missing else col :: missing)
  end.

(** [FileHandler.validate_columns] *)
Definition validate_columns (df : DataFrame) (columns : PyVal) : M unit :=
  cols ← lift (py_iter columns);
  missing_cols ← lift (missing_columns df cols);
  match missing_cols with
  | [] => mret tt
  | _ =>
      joined ← lift (py_join ", " missing_cols);
      raise (mkExc ValueError ("Columnas no encontradas: " +:+ joined))
  end.

End FileHandler.
End FileHandler.

(** ** [ResponseFormatter] *)

Module ResponseFormatter.
Section ResponseFormatter.
Context `{Env}.

(** [datetime.now().isoformat()] *)
Definition now_isoformat : M string :=
  w ← get_world; mret (isoformat (clock w)).

(** [ResponseFormatter.success(data, message)] *)
Definition success (data : PyVal) (message : string) : M Dict :=
  ts ← now_isoformat;
  mret [("success", VBool true); ("data", data);
        ("message", VStr message); ("timestamp", VStr ts)].

(** [ResponseFormatter.error(error, details)] *)
Definition error (error details : string) : M Dict :=
  ts ← now_isoformat;
  mret [("success", VBool false); ("error", VStr error);
        ("details", VStr details); ("timestamp", VStr ts)].

(** The default of [details]. *)
Definition details_default : string := "".

End ResponseFormatter.
End ResponseFormatter.

(** ** The tool handlers *)

Inductive StrOrList :=
| OneStr (s : string)
| StrList (l : list string).

(** [if isinstance(x, str): x = [x]] *)
Definition as_list (x : StrOrList) : list string :=
  match x with
  | OneStr s => [s]
  | StrList l => l
  end.

Definition newline : string := String (ascii_of_nat 10) "".

Section Handlers.
Context `{Env}.

(** The [except Exception as e:] clause every handler ends with:
    [logger.error(f"<what>: {e}")], then [ResponseFormatter.error(str(e))]
    with [details] left to its default. *)
Definition on_exception (what : string) (e : Exception) : M Dict :=
  logger_error (what +:+ ": " +:+ exc_msg e);;
  ResponseFormatter.error (exc_msg e) ResponseFormatter.details_default.

(** [_extract_pdf_text] *)
Definition _extract_pdf_text (path : Path) : M string :=
  b ← read_bytes path;
  note "PyPDF2.PdfReader" (path_str path);;
  pages ← lift (pdf_pages b);
  mret (PyStr.join " " pages).

(** [analizar_archivo] *)
Definition analizar_archivo (archivo : Path) : M Dict :=
  try_except
    (FileHandler.validate_file_exists archivo;;
     let path := archivo in
     '(mkStat size ctime mtime) ← path_stat path;
     legible ← lift (_format_file_size size);
     es_archivo ← path_is_file path;
     es_directorio ← path_is_dir path;
     let data : Dict :=
       [("nombre", VStr (path_name path));
        ("extension", VStr (path_suffix path));
        ("tamaño_bytes", VInt size);
        ("tamaño_legible", VStr legible);
        ("fecha_creacion", VStr (isoformat ctime));
        ("fecha_modificacion", VStr (isoformat mtime));
        ("es_archivo", VBool es_archivo);
        ("es_directorio", VBool es_directorio)] in
     data' ←
       (if (es_archivo : bool)
           && bool_decide (PyStr.lower (path_suffix path)
                             ∈ [".txt"; ".md"; ".py"; ".json"])
           && (size <? 10000)
        then try_except
               (txt ← read_text path "utf-8";
                mret (dict_set "contenido_preview"
                        (VStr (PyStr.slice_to txt 1000)) data))
               (λ _, mret (dict_set "contenido_preview"
                             (VStr "No se pudo leer el contenido") data))
        else mret data);
     ResponseFormatter.success (VDict data')
       ("Archivo " +:+ path_name path +:+ " analizado exitosamente"))
    (on_exception "Error analizando archivo").

(** [crear_archivo] *)
Definition crear_archivo (ruta : Path) (contenido encoding : string) : M Dict :=
  try_except
    (let path := ruta in
     mkdir_parents (path_parent path);;
     write_text path contenido encoding;;
     encoded ← lift (encode encoding contenido);
     ResponseFormatter.success
       (VDict [("ruta", VStr (path_str path));
               ("tamaño", VInt (PyStr.len encoded))])
       ("Archivo " +:+ path_name path +:+ " creado exitosamente"))
    (on_exception "Error creando archivo").

(** [leer_documento] *)
Definition leer_documento (ruta : Path) (limite_caracteres : Z) : M Dict :=
  try_except
    (let path := ruta in
     FileHandler.validate_file_exists path;;
     contenido ←
       (if bool_decide (PyStr.lower (path_suffix path) = ".pdf")
        then _extract_pdf_text path
        else if bool_decide (PyStr.lower (path_suffix path)
                               ∈ [".txt"; ".md"; ".csv"; ".json"; ".py"])
        then read_text path "utf-8"
        else raise (mkExc ValueError
                      ("Formato no soportado: " +:+ path_suffix path)));
     let contenido_limitado := PyStr.slice_to contenido limite_caracteres in
     let fue_truncado := limite_caracteres <? PyStr.len contenido in
     let data : Dict :=
       [("contenido", VStr contenido_limitado);
        ("longitud_total", VInt (PyStr.len contenido));
        ("longitud_retornada", VInt (PyStr.len contenido_limitado));
        ("fue_truncado", VBool fue_truncado)] in
     ResponseFormatter.success (VDict data)
       ("Documento " +:+ path_name path +:+ " leído exitosamente"))
    (on_exception "Error leyendo documento").

(** [df.head().to_dict('records')] and [df.tail().to_dict('records')]:
    a row as a dict from column name to cell. *)
Definition to_records (df : DataFrame) (rows : list (list PyVal)) : PyVal :=
  VList ((λ row, VDict (zip (df_columns df) row)) <$> rows).
Definition head_records (df : DataFrame) : PyVal :=
  to_records df (List.firstn 5 (df_rows df)).
Definition tail_records (df : DataFrame) : PyVal :=
  to_records df (List.skipn (length (df_rows df) - 5) (df_rows df)).

(** [df.empty] *)
Definition df_empty (df : DataFrame) : bool :=
  bool_decide (df_columns df = []) || bool_decide (length (df_rows df) = 0%nat).

(** [analizar_datos] *)
Definition analizar_datos (ruta_archivo : Path) (incluir_muestra : bool)
  : M Dict :=
  try_except
    (df ← FileHandler.read_dataframe ruta_archivo;
     tipos ← lift (df_query "dtypes.to_dict" df);
     let info_basica : Dict :=
       [("filas", VInt (Z.of_nat (length (df_rows df))));
        ("columnas", VInt (Z.of_nat (length (df_columns df))));
        ("lista_columnas", VList (VStr <$> df_columns df));
        ("tipos_datos", tipos)] in
     numericas ← lift (df_select_number df);
     estadisticas ←
       (if negb (df_empty numericas)
        then lift (df_query "describe.to_dict" numericas)
        else mret (VDict []));
     valores_faltantes ← lift (df_query "isnull.sum.to_dict" df);
     let muestra : Dict :=
       if incluir_muestra
       then [("primeras_5_filas", head_records df);
             ("ultimas_5_filas", tail_records df)]
       else [] in
     let data : Dict :=
       [("info_basica", VDict info_basica);
        ("estadisticas_numericas", estadisticas);
        ("valores_faltantes", valores_faltantes);
        ("muestra_datos", VDict muestra)] in
     ResponseFormatter.success (VDict data)
       ("Análisis de " +:+ path_name ruta_archivo +:+ " completado"))
    (on_exception "Error analizando datos").

Definition funciones_validas : list string :=
  ["mean"; "sum"; "min"; "max"; "count"; "std"; "var"; "median"].

(** [{func: pivot_table[func].to_dict() for func in aggfunc}] *)
Fixpoint pivot_by_func (pivot : Pivot) (aggfunc : list string) (acc : Dict)
  : Exception + Dict :=
  match aggfunc with
  | [] => inr acc
  | func :: rest =>
      v ← pv_getitem pivot func;
      pivot_by_func pivot rest (dict_set func v acc)
  end.

(** [tabla_dinamica_avanzada] *)
Definition tabla_dinamica_avanzada
    (ruta_archivo : Path) (index_cols columns_cols : StrOrList)
    (values_col : string) (aggfunc : StrOrList) (fill_value : option pynum)
  : M Dict :=
  try_except
    (df ← FileHandler.read_dataframe ruta_archivo;
     let index_cols := as_list index_cols in
     let columns_cols := as_list columns_cols in
     let aggfunc := as_list aggfunc in
     let todas_columnas := (index_cols ++ columns_cols ++ [values_col])%list in
     FileHandler.validate_columns df (VList (VStr <$> todas_columnas));;
     let funciones_invalidas :=
       filter (λ f, f ∉ funciones_validas) aggfunc in
     (match funciones_invalidas with
      | [] => mret tt
      | _ => raise (mkExc ValueError
                      ("Funciones no válidas: "
                       +:+ py_repr (VList (VStr <$> funciones_invalidas))
                       +:+ ". Use: "
                       +:+ py_repr (VList (VStr <$> funciones_validas))))
      end);;
     note "DataFrame.pivot_table" (path_str ruta_archivo);;
     pivot ← lift (pivot_table df index_cols columns_cols values_col
                     aggfunc fill_value);
     resultado ←
       (if bool_decide (length aggfunc = 1%nat)
        then mret (pv_to_dict pivot)
        else d ← lift (pivot_by_func pivot aggfunc []); mret (VDict d));
     let data : Dict :=
       [("tabla_dinamica", resultado);
        ("metadata",
         VDict [("index_columnas", VList (VStr <$> index_cols));
                ("columnas_pivote", VList (VStr <$> columns_cols));
                ("columna_valores", VStr values_col);
                ("funciones_agregacion", VList (VStr <$> aggfunc));
                ("dimensiones", pv_shape pivot)])] in
     ResponseFormatter.success (VDict data) "Tabla dinámica creada exitosamente")
    (on_exception "Error creando tabla dinámica").

Definition tipos_soportados : list string :=
  ["bar"; "line"; "scatter"; "pie"; "histogram"; "box"].

(** [px.<tipo>(df, **kwargs)] *)
Definition px_call (tipo : string) (df : DataFrame) (kwargs : Exception + Dict)
  : M Figure :=
  kw ← lift kwargs;
  note ("px." +:+ tipo) "";;
  lift (px tipo df kw).

(** [_create_plotly_figure] *)
Definition _create_plotly_figure (df : DataFrame) (tipo : string) (config : Dict)
  : M Figure :=
  columnas ← lift (py_item (VDict config) "columnas");
  let extra_params := default (VDict []) (dict_get "extra_params" config) in
  let xy (kx ky : string) : Exception + Dict :=
    c0 ← py_index columnas 0;
    c1 ← py_index columnas 1;
    call_kwargs [(kx, c0); (ky, c1)] extra_params in
  if bool_decide (tipo = "bar") then px_call "bar" df (xy "x" "y")
  else if bool_decide (tipo = "line") then px_call "line" df (xy "x" "y")
  else if bool_decide (tipo = "scatter") then px_call "scatter" df (xy "x" "y")
  else if bool_decide (tipo = "pie") then px_call "pie" df (xy "names" "values")
  else if bool_decide (tipo = "histogram")
  then px_call "histogram" df
         (c0 ← py_index columnas 0; call_kwargs [("x", c0)] extra_params)
  else if bool_decide (tipo = "box")
  then px_call "box" df
         (c0 ← py_index columnas 0;
          n ← py_len columnas;
          c1 ← (if 1 <? (n : Z) then py_index columnas 1 else inr VNone);
          call_kwargs [("x", c0); ("y", c1)] extra_params)
  else raise (mkExc ValueError
                ("Tipo '" +:+ tipo +:+ "' no soportado. Use: "
                 +:+ py_repr (VList (VStr <$> tipos_soportados)))).

(** [fig.write_html(path)]: the document is rendered, then written. *)
Definition write_html (fig : Figure) (path : Path) : M unit :=
  note "Figure.write_html" (path_str path);;
  html ← lift (fig_to_html fig);
  write_bytes path html.

(** [crear_visualizacion] *)
Definition crear_visualizacion
    (ruta_archivo : Path) (tipo_grafico : string) (configuracion : Dict)
  : M Dict :=
  try_except
    (df ← FileHandler.read_dataframe ruta_archivo;
     columnas ←
       match dict_get "columnas" configuracion with
       | None => raise (mkExc ValueError
                          "Debe especificar 'columnas' en la configuración")
       | Some columnas => mret columnas
       end;
     FileHandler.validate_columns df columnas;;
     fig ← _create_plotly_figure df tipo_grafico configuracion;
     let titulo :=
       default (VStr ("Gráfico " +:+ tipo_grafico))
         (dict_get "titulo" configuracion) in
     let template :=
       default (VStr "plotly") (dict_get "template" configuracion) in
     fig' ← lift (update_layout fig titulo template);
     ruta_salida ← lift (with_suffix repr_str ruta_archivo ".html");
     write_html fig' ruta_salida;;
     let data : Dict :=
       [("archivo_salida", VStr (path_str ruta_salida));
        ("tipo_grafico", VStr tipo_grafico);
        ("columnas_utilizadas", columnas)] in
     ResponseFormatter.success (VDict data)
       ("Visualización " +:+ tipo_grafico +:+ " creada exitosamente"))
    (on_exception "Error creando visualización").

(** [client.get(url, params=params)] followed by
    [response.raise_for_status()] *)
Definition client_get (url : string) (params : Dict) : M Response :=
  note "httpx.AsyncClient.get" url;;
  response ← lift (http_get url params);
  match resp_raise_for_status response with
  | Some e => raise e
  | None => mret response
  end.

(** One entry of [repositorios], from one item of the search result. *)
Definition repo_entry (repo : PyVal) : Exception + PyVal :=
  nombre_completo ← py_item repo "full_name";
  descripcion ← py_get repo "description" (VStr "Sin descripción");
  url ← py_item repo "html_url";
  estrellas ← py_item repo "stargazers_count";
  forks ← py_item repo "forks_count";
  lenguaje ← py_get repo "language" (VStr "No especificado");
  actualizado ← py_item repo "updated_at";
  temas ← py_get repo "topics" (VList []);
  inr (VDict [("nombre_completo", nombre_completo);
              ("descripcion", descripcion);
              ("url", url);
              ("estrellas", estrellas);
              ("forks", forks);
              ("lenguaje", lenguaje);
              ("actualizado", actualizado);
              ("temas", temas)]).

(** [buscar_repositorios_github] *)
Definition buscar_repositorios_github
    (query sort order : string) (per_page : Z) : M Dict :=
  try_except
    (let url := "https://api.github.com/search/repositories" in
     let params : Dict :=
       [("q", VStr query); ("sort", VStr sort); ("order", VStr order);
        ("per_page", VInt (Z.min per_page 100))] in
     response ← client_get url params;
     data_json ← lift (resp_json response);
     items ← lift (py_get data_json "items" (VList []));
     repos ← lift (py_iter items);
     repositorios ← lift (mapM repo_entry repos);
     total ← lift (py_item data_json "total_count");
     let data : Dict :=
       [("repositorios", VList repositorios);
        ("total_encontrados", total);
        ("query_utilizada", VStr query)] in
     ResponseFormatter.success (VDict data)
       ("Se encontraron " +:+ pretty (length repositorios) +:+ " repositorios"))
    (on_exception "Error buscando repositorios").

Definition opt_str (o : option string) : PyVal :=
  match o with
  | Some s => VStr s
  | None => VNone
  end.

(** [extraer_contenido_web] *)
Definition extraer_contenido_web (url : string) (selector_css : option string)
  : M Dict :=
  try_except
    (response ← client_get url [];
     note "BeautifulSoup" url;;
     let soup := soup_parse (resp_text response) in
     contenido ←
       match selector_css with
       | Some sel =>
           if bool_decide (sel ≠ "")
           then elementos ← lift (soup_select soup sel);
                mret (PyStr.join newline elementos)
           else mret (soup_get_text soup)
       | None => mret (soup_get_text soup)
       end;
     let data : Dict :=
       [("url", VStr url);
        ("contenido", VStr (PyStr.slice_to contenido 10000));
        ("longitud_total", VInt (PyStr.len contenido));
        ("titulo", default (VStr "Sin título") (soup_title soup));
        ("selector_usado", opt_str selector_css)] in
     ResponseFormatter.success (VDict data) "Contenido web extraído exitosamente")
    (on_exception "Error extrayendo contenido web").

(** [descargar_archivo_web] *)
Definition descargar_archivo_web
    (url : string) (ruta_destino : Path) (sobrescribir : bool) : M Dict :=
  try_except
    (let path := ruta_destino in
     ex ← path_exists path;
     (if (ex : bool) && negb sobrescribir
      then raise (mkExc FileExistsError
                    ("El archivo " +:+ path_str path
                     +:+ " ya existe. Use sobrescribir=True para reemplazarlo"))
      else mret tt);;
     response ← client_get url [];
     mkdir_parents (path_parent path);;
     write_bytes path (resp_content response);;
     legible ← lift (_format_file_size (PyStr.len (resp_content response)));
     let data : Dict :=
       [("url", VStr url);
        ("archivo_destino", VStr (path_str path));
        ("tamaño_bytes", VInt (PyStr.len (resp_content response)));
        ("tamaño_legible", VStr legible);
        ("tipo_contenido",
         VStr (default "desconocido" (resp_header response "content-type")))] in
     ResponseFormatter.success (VDict data) "Archivo descargado exitosamente")
    (on_exception "Error descargando archivo").

Definition formatos_soportados : list string := ["json"; "csv"; "xlsx"; "parquet"].

Definition opciones_defecto : Dict :=
  [("json", VDict [("orient", VStr "records"); ("indent", VInt 2)]);
   ("csv", VDict [("index", VBool false); ("encoding", VStr "utf-8")]);
   ("xlsx", VDict [("index", VBool false)]);
   ("parquet", VDict [("index", VBool false)])].

(** [opciones_defecto.get(formato, {})] *)
Definition opciones_para (formato : string) : Dict :=
  match dict_get formato opciones_defecto with
  | Some (VDict d) => d
  | _ => []
  end.

(** [df.to_json(path, **opts)], [df.to_csv(...)], [df.to_excel(...)],
    [df.to_parquet(...)]: a writer that raises before it opens the file
    leaves the file alone; one that raises later has created or emptied
    the file already, and leaves in it what it had written. *)
Definition df_to (formato : string) (df : DataFrame) (path : Path) (opts : Dict)
  : M unit :=
  note ("DataFrame.to_" +:+ formato) (path_str path);;
  match df_write formato df opts with
  | Written b => write_bytes path b
  | Refused e => raise e
  | Aborted partial e => write_bytes path partial;; raise e
  end.

(** [convertir_formato_datos] *)
Definition convertir_formato_datos
    (archivo_entrada : Path) (formato_salida : string) (opciones : option Dict)
  : M Dict :=
  try_except
    (let opciones := default [] opciones in
     df ← FileHandler.read_dataframe archivo_entrada;
     archivo_salida ←
       lift (with_suffix repr_str archivo_entrada ("." +:+ formato_salida));
     let opts_finales :=
       dict_merge (opciones_para formato_salida) opciones in
     (if bool_decide (formato_salida = "json")
      then df_to "json" df archivo_salida opts_finales
      else if bool_decide (formato_salida = "csv")
      then df_to "csv" df archivo_salida opts_finales
      else if bool_decide (formato_salida = "xlsx")
      then df_to "excel" df archivo_salida opts_finales
      else if bool_decide (formato_salida = "parquet")
      then df_to "parquet" df archivo_salida opts_finales
      else raise (mkExc ValueError
                    ("Formato '" +:+ formato_salida +:+ "' no soportado. Use: "
                     +:+ py_repr (VList (VStr <$> formatos_soportados)))));;
     let data : Dict :=
       [("archivo_entrada", VStr (path_str archivo_entrada));
        ("archivo_salida", VStr (path_str archivo_salida));
        ("formato_origen", VStr (path_suffix archivo_entrada));
        ("formato_destino", VStr ("." +:+ formato_salida));
        ("filas_procesadas", VInt (Z.of_nat (length (df_rows df))))] in
     ResponseFormatter.success (VDict data)
       ("Conversión a " +:+ formato_salida +:+ " completada"))
    (on_exception "Error en conversión").

End Handlers.

(** ** Tool invocations

    A call of one of the ten registered tools, with the arguments its
    signature takes; an argument with a default is optional. *)

Inductive ToolCall :=
| AnalizarArchivo (archivo : Path)
| CrearArchivo (ruta : Path) (contenido : string) (encoding : option string)
| LeerDocumento (ruta : Path) (limite_caracteres : option Z)
| AnalizarDatos (ruta_archivo : Path) (incluir_muestra : option bool)
| TablaDinamicaAvanzada (ruta_archivo : Path) (index_cols columns_cols : StrOrList)
    (values_col : string) (aggfunc : option StrOrList) (fill_value : option pynum)
| CrearVisualizacion (ruta_archivo : Path) (tipo_grafico : string)
    (configuracion : Dict)
| BuscarRepositoriosGithub (query : string) (sort order : option string)
    (per_page : option Z)
| ExtraerContenidoWeb (url : string) (selector_css : option string)
| DescargarArchivoWeb (url : string) (ruta_destino : Path)
    (sobrescribir : option bool)
| ConvertirFormatoDatos (archivo_entrada : Path) (formato_salida : string)
    (opciones : option Dict).

Definition invoke `{Env} (c : ToolCall) : M Dict :=
  match c with
  | AnalizarArchivo archivo => analizar_archivo archivo
  | CrearArchivo ruta contenido encoding =>
      crear_archivo ruta contenido (default "utf-8" encoding)
  | LeerDocumento ruta limite =>
      leer_documento ruta (default 10000 limite)
  | AnalizarDatos ruta incluir_muestra =>
      analizar_datos ruta (default true incluir_muestra)
  | TablaDinamicaAvanzada ruta index_cols columns_cols values_col aggfunc fill =>
      tabla_dinamica_avanzada ruta index_cols columns_cols values_col
        (default (OneStr "mean") aggfunc) fill
  | CrearVisualizacion ruta tipo configuracion =>
      crear_visualizacion ruta tipo configuracion
  | BuscarRepositoriosGithub query sort order per_page =>
      buscar_repositorios_github query (default "stars" sort)
        (default "desc" order) (default 10 per_page)
  | ExtraerContenidoWeb url selector_css => extraer_contenido_web url selector_css
  | DescargarArchivoWeb url ruta sobrescribir =>
      descargar_archivo_web url ruta (default false sobrescribir)
  | ConvertirFormatoDatos entrada formato opciones =>
      convertir_formato_datos entrada formato opciones
  end.

(** The input path of the handlers that take one. *)
Definition input_path (c : ToolCall) : option Path :=
  match c with
  | AnalizarArchivo p | LeerDocumento p _ | AnalizarDatos p _
  | TablaDinamicaAvanzada p _ _ _ _ _ | CrearVisualizacion p _ _
  | ConvertirFormatoDatos p _ _ => Some p
  | _ => None
  end.

(** ** Response envelopes *)

(** The Success record: exactly the four keys, [success] true. *)
Definition is_Success (r : Dict) : Prop :=
  ∃ data message timestamp,
    r = [("success", VBool true); ("data", data);
         ("message", VStr message); ("timestamp", VStr timestamp)].

(** The Failure record: exactly the four keys, [success] false. *)
Definition is_Failure (r : Dict) : Prop :=
  ∃ error details timestamp,
    r = [("success", VBool false); ("error", VStr error);
         ("details", VStr details); ("timestamp", VStr timestamp)].

(** The Failure record a handler builds for the exception [e] in the
    world [w]. *)
Definition failure_of `{Env} (e : Exception) (w : World) : Dict :=
  [("success", VBool false); ("error", VStr (exc_msg e));
   ("details", VStr ""); ("timestamp", VStr (isoformat (clock w)))].

Definition success_of `{Env} (data : PyVal) (message : string) (w : World) : Dict :=
  [("success", VBool true); ("data", data);
   ("message", VStr message); ("timestamp", VStr (isoformat (clock w)))].

(** ** A concrete environment, for running the handlers *)

Module Demo.

Definition repr (v : PyVal) : string :=
  let quoted x := match x with
                  | VStr s => "'" +:+ s +:+ "'"
                  | _ => "<" +:+ type_name x +:+ ">"
                  end in
  match v with
  | VList l => "[" +:+ PyStr.join ", " (quoted <$> l) +:+ "]"
  | _ => quoted v
  end.

Definition str_repr (s : string) : string := repr (VStr s).

Definition ventas : DataFrame :=
  mkDF ["region"; "producto"; "ventas"]
       [[VStr "norte"; VStr "cafe"; VInt 10];
        [VStr "sur"; VStr "te"; VInt 7]].

Definition pagina_de (text : string) : Response :=
  mkResponse None text text
    (λ k, if decide (k = "content-type") then Some "text/html" else None)
    (inr (VDict [("total_count", VInt 0); ("items", VList [])])).

Fixpoint replicate_str (n : nat) (c : ascii) : string :=
  match n with
  | O => ""
  | S n' => String c (replicate_str n' c)
  end.

(** A text of 10,001 characters, served at [url_larga]. *)
Definition texto_largo : string := replicate_str (Z.to_nat 10001) "a"%char.
Definition url_larga : string := "http://ejemplo.test/larga".

Global Instance env : Env := {|
  py_repr := repr;
  isoformat := λ t, "T" +:+ pretty t;
  os_fault := λ _ _, None;
  st_ctime := λ _, 0;
  st_mtime := λ _, 0;
  dir_size := λ _, 4096;
  decode := λ _ b, inr b;
  encode := λ _ s, inr s;
  pdf_pages := λ b, inr [b];
  pd_read := λ _ _, inr ventas;
  df_query := λ q _, inr (VObj q);
  df_select_number := λ df, inr df;
  pivot_table := λ _ _ _ _ _ _,
    inr (mkPivot (VDict []) (λ _, inr (VDict [])) (VList [VInt 2; VInt 2]));
  px := λ tipo _ kw, inr (mkFigure (VStr tipo) kw);
  update_layout := λ fig titulo template,
    inr (mkFigure (fig_plot fig) [("title", titulo); ("template", template)]);
  fig_to_html := λ _, inr "<html>figura</html>";
  df_write := λ formato _ _, Written ("datos en " +:+ formato);
  http_get := λ url _,
    inr (pagina_de (if decide (url = url_larga) then texto_largo else "hola"));
  soup_parse := λ text, mkSoup (λ _, inr [text]) text None
|}.

(** The same environment with the network down. *)
Definition offline : Env := {|
  py_repr := py_repr; isoformat := isoformat; os_fault := os_fault;
  st_ctime := st_ctime; st_mtime := st_mtime; dir_size := dir_size;
  decode := decode; encode := encode; pdf_pages := pdf_pages;
  pd_read := pd_read; df_query := df_query;
  df_select_number := df_select_number; pivot_table := pivot_table;
  px := px; update_layout := update_layout; fig_to_html := fig_to_html;
  df_write := df_write;
  http_get := λ _ _, inl (mkExc (OtherException "ConnectError")
                            "All connection attempts failed");
  soup_parse := soup_parse
|}.

(** The same environment where no bytes decode as text. *)
Definition undecodable : Env := {|
  py_repr := py_repr; isoformat := isoformat; os_fault := os_fault;
  st_ctime := st_ctime; st_mtime := st_mtime; dir_size := dir_size;
  decode := λ _ _, inl (mkExc UnicodeError "'utf-8' codec can't decode byte");
  encode := encode; pdf_pages := pdf_pages;
  pd_read := pd_read; df_query := df_query;
  df_select_number := df_select_number; pivot_table := pivot_table;
  px := px; update_layout := update_layout; fig_to_html := fig_to_html;
  df_write := df_write; http_get := http_get;
  soup_parse := soup_parse
|}.

(** The same environment where the writers fail once the output file is
    open, before anything is written (as [to_csv] does for a separator of
    two characters). *)
Definition escritor_abortado : Env := {|
  py_repr := py_repr; isoformat := isoformat; os_fault := os_fault;
  st_ctime := st_ctime; st_mtime := st_mtime; dir_size := dir_size;
  decode := decode; encode := encode; pdf_pages := pdf_pages;
  pd_read := pd_read; df_query := df_query;
  df_select_number := df_select_number; pivot_table := pivot_table;
  px := px; update_layout := update_layout; fig_to_html := fig_to_html;
  df_write := λ _ _ _,
    Aborted "" (mkExc TypeError "delimiter must be a 1-character string");
  http_get := http_get; soup_parse := soup_parse
|}.

Definition datos_csv : Path := mkPath true ["datos"; "ventas.csv"].
Definition notas_txt : Path := mkPath true ["datos"; "notas.txt"].
Definition ausente : Path := mkPath true ["datos"; "ausente.csv"].

(** A file system with [/datos/ventas.csv] and [/datos/notas.txt]. *)
Definition world : World :=
  mkWorld (<["/datos" := Dir]>
           (<["/datos/ventas.csv" := File "region,producto,ventas"]>
           (<["/datos/notas.txt" := File "hola mundo"]> ∅)))
          1700000000 [] [].

End Demo.

(** ** Vocabulary of the properties *)

Section Vocabulary.
Context `{Env}.

(** Exactly one of the two variants. *)
Definition exactly_one_envelope (r : Dict) : Prop :=
  (is_Success r ∨ is_Failure r) ∧ ¬ (is_Success r ∧ is_Failure r).

(** A computation whose every normal return satisfies [Q]. *)
Definition returns {A} (Q : A → Prop) (m : M A) : Prop :=
  ∀ w x w', m w = (inr x, w') → Q x.

(** What leaves the [try]/[except] of a handler. *)
Definition handler_outcome (r : Dict) (w' : World) : Prop :=
  is_Success r ∨ ∃ e, r = failure_of e w'.

End Vocabulary.

(** The unit after [k] divisions by 1024. *)
Definition unit_name (k : Z) : string :=
  nth (Z.to_nat k) ["B"; "KB"; "MB"; "GB"] "TB".

(** [t] tenths, written with one digit after the point, then the unit. *)
Definition rendering (t : Z) (unit : string) : string :=
  pretty (t / 10) +:+ "." +:+ pretty (t mod 10) +:+ " " +:+ unit.

(** What a computation leaves unchanged, for an observation [obs] of the
    world (its files, its trace, ...). *)
Section Frame.
Context {X : Type} (obs : World → X).

Definition keeps {A} (m : M A) : Prop := ∀ w, obs (m w).2 = obs w.

Definition fails_keeping {A} (m : M A) : Prop :=
  ∀ w, ∃ e, (m w).1 = inl e ∧ obs (m w).2 = obs w.

End Frame.

(** The calls of [DataFrame.pivot_table] made so far. *)
Definition pivot_calls (w : World) : list Event :=
  filter (λ ev, ev_fn ev = "DataFrame.pivot_table") (trace w).

(** The aggregation argument names a function outside the allow-list. *)
Definition has_invalid_function (aggfunc : StrOrList) : Prop :=
  ∃ f, f ∈ as_list aggfunc ∧ f ∉ funciones_validas.

Section Writable.
Context `{Env}.

(** The download of [url] answers with [resp] and a success status. *)
Definition download_succeeds (url : string) (resp : Response) : Prop :=
  http_get url [] = inr resp ∧ resp_raise_for_status resp = None.

(** Nothing stands in the way of writing the file [p]: no fault from the
    operating system, its directory is there, and [p] is no directory. *)
Definition can_write_file (w : World) (p : Path) : Prop :=
  os_fault OsWrite (path_str p) = None
  ∧ fs_lookup w (path_parent p) = Some Dir
  ∧ fs_lookup w p ≠ Some Dir.

(** The directory [q] and all above it are directories already. *)
Definition dirs_ready (w : World) (q : Path) : Prop :=
  os_fault OsMkdir (path_str q) = None
  ∧ Forall (λ a, fs_lookup w a = Some Dir) (path_chain q).

End Writable.

Section Documents.
Context `{Env}.

(** The plain-text extensions of [leer_documento]. *)
Definition text_extensions : list string :=
  [".txt"; ".md"; ".csv"; ".json"; ".py"].

(** The path has one of the supported extensions (compared in lower
    case, as the handler does). *)
Definition supported_document (p : Path) : Prop :=
  PyStr.lower (path_suffix p) = ".pdf"
  ∨ PyStr.lower (path_suffix p) ∈ text_extensions.

(** The text of an existing, readable document with a supported
    extension: the UTF-8 decoding of a plain-text file, or the page texts
    of a PDF joined by spaces. *)
Inductive document_text (w : World) (p : Path) : string → Prop :=
| plain_text (bytes contenido : string) :
    PyStr.lower (path_suffix p) ∈ text_extensions →
    fs_lookup w p = Some (File bytes) →
    os_fault OsRead (path_str p) = None →
    decode "utf-8" bytes = inr contenido →
    document_text w p contenido
| pdf_text (bytes : string) (pages : list string) :
    PyStr.lower (path_suffix p) = ".pdf" →
    fs_lookup w p = Some (File bytes) →
    os_fault OsRead (path_str p) = None →
    pdf_pages bytes = inr pages →
    document_text w p (PyStr.join " " pages).

(** The Success data of [leer_documento] for the text [contenido]. *)
Definition documento_data (contenido : string) (limite : Z) : Dict :=
  [("contenido", VStr (PyStr.slice_to contenido limite));
   ("longitud_total", VInt (PyStr.len contenido));
   ("longitud_retornada", VInt (PyStr.len (PyStr.slice_to contenido limite)));
   ("fue_truncado", VBool (limite <? PyStr.len contenido))].

(** The Success data of [extraer_contenido_web] for the text [contenido]. *)
Definition web_data (url contenido : string) (titulo : PyVal)
    (selector_css : option string) : Dict :=
  [("url", VStr url);
   ("contenido", VStr (PyStr.slice_to contenido 10000));
   ("longitud_total", VInt (PyStr.len contenido));
   ("titulo", titulo);
   ("selector_usado", opt_str selector_css)].

(** The data reports a truncation: the original length, the truncated
    length and a flag telling whether text was cut, under some keys. *)
Definition reports_truncation (data : Dict) (original returned : Z)
    (truncated : bool) : Prop :=
  ∃ k_original k_returned k_flag,
    k_original ≠ k_returned
    ∧ dict_get k_original data = Some (VInt original)
    ∧ dict_get k_returned data = Some (VInt returned)
    ∧ dict_get k_flag data = Some (VBool truncated).

End Documents.

(** [path.stem]: the file name without its suffix. *)
Definition path_stem (p : Path) : string :=
  PyStr.take (String.length (path_name p) - String.length (path_suffix p))
    (path_name p).

(** The path [p] with its extension replaced by [ext]: in the directory
    of [p], the file named by the stem of [p] followed by [ext]. *)
Definition with_extension (p : Path) (ext : string) : Path :=
  mkPath (anchored p) (removelast (parts p) ++ [path_stem p +:+ ext]).

(** The pandas writer behind a target format name. *)
Definition writer_name (formato : string) : string :=
  if bool_decide (formato = "xlsx") then "excel" else formato.

(** What each handler writes in front of the error when it logs one. *)
Definition error_label (c : ToolCall) : string :=
  match c with
  | AnalizarArchivo _ => "Error analizando archivo"
  | CrearArchivo _ _ _ => "Error creando archivo"
  | LeerDocumento _ _ => "Error leyendo documento"
  | AnalizarDatos _ _ => "Error analizando datos"
  | TablaDinamicaAvanzada _ _ _ _ _ _ => "Error creando tabla dinámica"
  | CrearVisualizacion _ _ _ => "Error creando visualización"
  | BuscarRepositoriosGithub _ _ _ _ => "Error buscando repositorios"
  | ExtraerContenidoWeb _ _ => "Error extrayendo contenido web"
  | DescargarArchivoWeb _ _ _ => "Error descargando archivo"
  | ConvertirFormatoDatos _ _ _ => "Error en conversión"
  end.

(** What [str(path)] puts in front of the last component. *)
Definition path_prefix (a : bool) (init : list string) : string :=
  (if a then "/" else "")
  +:+ match init with
      | [] => ""
      | _ => PyStr.join "/" init +:+ "/"
      end.

(** The tools whose body never writes to the file system. *)
Definition reads_only (c : ToolCall) : bool :=
  match c with
  | AnalizarArchivo _ | LeerDocumento _ _ | AnalizarDatos _ _
  | TablaDinamicaAvanzada _ _ _ _ _ _ | BuscarRepositoriosGithub _ _ _ _
  | ExtraerContenidoWeb _ _ => true
  | _ => false
  end.

(** The pandas reader behind a dataset extension (in lower case). *)
Definition pandas_reader (ext : string) : string :=
  if bool_decide (ext = ".csv") then "csv"
  else if bool_decide (ext = ".json") then "json"
  else "excel".

(** The request [buscar_repositorios_github] sends. *)
Definition github_url : string := "https://api.github.com/search/repositories".
Definition github_params (query sort order : string) (per_page : Z) : Dict :=
  [("q", VStr query); ("sort", VStr sort); ("order", VStr order);
   ("per_page", VInt (Z.min per_page 100))].

(** The keys of a search item read with [repo[...]], and the keys of an
    entry of [repositorios]. *)
Definition required_repo_keys : list string :=
  ["full_name"; "html_url"; "stargazers_count"; "forks_count"; "updated_at"].
Definition repo_entry_keys : list string :=
  ["nombre_completo"; "descripcion"; "url"; "estrellas"; "forks"; "lenguaje";
   "actualizado"; "temas"].

(** The search answers [resp] with a success status and the JSON [json]. *)
Definition search_answers `{Env} (query sort order : string) (per_page : Z)
    (resp : Response) (json : PyVal) : Prop :=
  http_get github_url (github_params query sort order per_page) = inr resp
  ∧ resp_raise_for_status resp = None
  ∧ resp_json resp = inr json.

Module DemoWeb.

(** [Demo.env] with a server that answers every request with [json]. *)
Definition con_json (json : PyVal) : Env := {|
  py_repr := py_repr; isoformat := isoformat; os_fault := os_fault;
  st_ctime := st_ctime; st_mtime := st_mtime; dir_size := dir_size;
  decode := decode; encode := encode; pdf_pages := pdf_pages;
  pd_read := pd_read; df_query := df_query;
  df_select_number := df_select_number; pivot_table := pivot_table;
  px := px; update_layout := update_layout; fig_to_html := fig_to_html;
  df_write := df_write;
  http_get := λ _ _, inr (mkResponse None "" "" (λ _, None) (inr json));
  soup_parse := soup_parse
|}.

(** [Demo.env] with a parser for which selectors match nothing. *)
Definition sin_coincidencias : Env := {|
  py_repr := py_repr; isoformat := isoformat; os_fault := os_fault;
  st_ctime := st_ctime; st_mtime := st_mtime; dir_size := dir_size;
  decode := decode; encode := encode; pdf_pages := pdf_pages;
  pd_read := pd_read; df_query := df_query;
  df_select_number := df_select_number; pivot_table := pivot_table;
  px := px; update_layout := update_layout; fig_to_html := fig_to_html;
  df_write := df_write; http_get := http_get;
  soup_parse := λ text, mkSoup (λ _, inr []) text None
|}.

Definition repo_completo : PyVal :=
  VDict [("full_name", VStr "rocq-prover/rocq");
         ("description", VNone);
         ("html_url", VStr "https://github.com/rocq-prover/rocq");
         ("stargazers_count", VInt 5000);
         ("forks_count", VInt 700);
         ("updated_at", VStr "2025-01-01T00:00:00Z")].

Definition sin_url : Dict :=
  [("full_name", VStr "alguien/algo");
   ("stargazers_count", VInt 1);
   ("forks_count", VInt 0);
   ("updated_at", VStr "2025-01-01T00:00:00Z")].
Definition repo_sin_url : PyVal := VDict sin_url.

(** Servers for the repository search. *)
Definition un_resultado : Env :=
  con_json (VDict [("total_count", VInt 1); ("items", VList [repo_completo])]).
Definition sin_items : Env := con_json (VDict [("total_count", VInt 0)]).
Definition sin_total : Env := con_json (VDict [("items", VList [])]).
Definition con_malformado : Env :=
  con_json (VDict [("total_count", VInt 2);
                   ("items", VList [repo_completo; repo_sin_url])]).

End DemoWeb.

(** ** The front end ([app.py]): uploaded files and their cleanup *)

Module App.

(** What the page shows: [st.success(text)] or [st.warning(text)]. *)
Inductive Aviso :=
| StSuccess (text : string)
| StWarning (text : string).

Section App.
Context `{Env}.
(** What makes [os.remove] fail on an entry that is a file (permissions,
    a file in use, ...). *)
Variable remove_fault : string → option Exception.

(** [os.listdir('.')]: the entries of the working directory, which the
    file system keys by their bare name. *)
Definition os_listdir_cwd (w : World) : list string :=
  filter (λ k, PyStr.mem "/"%char k = false) (elements (dom (fs w))).

(** [os.remove(name)] for an entry of the working directory. *)
Definition os_remove (name : string) : M unit :=
  w ← get_world;
  match fs w !! name with
  | None =>
      raise (mkExc FileNotFoundError
               ("[Errno 2] No such file or directory: " +:+ repr_str name))
  | Some Dir =>
      raise (mkExc IsADirectoryError
               ("[Errno 21] Is a directory: " +:+ repr_str name))
  | Some (File _) =>
      match remove_fault name with
      | Some e => raise e
      | None => modify (set_fs (delete name (fs w)))
      end
  end.

(** The upload block: [temp_path = f"temp_{uploaded_file.name}"], the
    buffer written to it in binary mode, then [st.success]. The name of
    an uploaded file is a bare file name. *)
Definition guardar_subido (name buffer : string) : M Aviso :=
  let temp_path := "temp_" +:+ name in
  write_bytes (mkPath false [temp_path]) buffer;;
  mret (StSuccess ("Archivo guardado como: " +:+ temp_path)).

(** The body of the [for archivo in archivos_temp] loop: the bare
    [except] turns every failure into a warning. *)
Definition eliminar (archivo : string) : M Aviso :=
  try_except
    (os_remove archivo;;
     mret (StSuccess ("Eliminado: " +:+ archivo)))
    (λ _, mret (StWarning ("No se pudo eliminar: " +:+ archivo))).

Fixpoint eliminar_todos (archivos_temp : list string) : M (list Aviso) :=
  match archivos_temp with
  | [] => mret []
  | archivo :: rest =>
      aviso ← eliminar archivo;
      avisos ← eliminar_todos rest;
      mret (aviso :: avisos)
  end.

(** The cleanup block:
    [archivos_temp = [f for f in os.listdir('.') if f.startswith('temp_')]]
    and the loop over it. *)
Definition limpiar_temporales : M (list Aviso) :=
  w ← get_world;
  let archivos_temp :=
    filter (λ f, String.prefix "temp_" f = true) (os_listdir_cwd w) in
  eliminar_todos archivos_temp.

(** [os.remove] would delete this entry: it is a file, and nothing makes
    the removal fail. *)
Definition removable (w : World) (name : string) : bool :=
  match fs w !! name, remove_fault name with
  | Some (File _), None => true
  | _, _ => false
  end.

(** The entries the cleanup goes through. *)
Definition is_temp_entry (w : World) (name : string) : Prop :=
  is_Some (fs w !! name)
  ∧ PyStr.mem "/"%char name = false
  ∧ String.prefix "temp_" name = true.

(** The message shown for one entry. *)
Definition aviso_de (w : World) (name : string) : Aviso :=
  if removable w name then StSuccess ("Eliminado: " +:+ name)
  else StWarning ("No se pudo eliminar: " +:+ name).

End App.

(** A working directory with an uploaded file, a directory whose name
    starts like one, and a file of the user. *)
Definition carpeta : World :=
  mkWorld (<["temp_datos.csv" := File "a,b"]>
           (<["temp_cache" := Dir]>
           (<["informe.txt" := File "texto"]> ∅)))
          1700000000 [] [].

Definition sin_fallos : string → option Exception := λ _, None.

End App.

(** * Properties *)

(** ** Running monadic code *)

Lemma run_bind {A B} (m : M A) (f : A → M B) (w : World) :
  (m ≫= f) w = match m w with
               | (inr x, w') => f x w'
               | (inl e, w') => (inl e, w')
               end.
Proof. reflexivity. Qed.

Lemma run_bind_raise {A B} (m : M A) (f : A → M B) w e w' :
  m w = (inl e, w') → (m ≫= f) w = (inl e, w').
Proof. intros Hm. rewrite run_bind, Hm. reflexivity. Qed.

Lemma run_bind_ok {A B} (m : M A) (f : A → M B) w x w' :
  m w = (inr x, w') → (m ≫= f) w = f x w'.
Proof. intros Hm. rewrite run_bind, Hm. reflexivity. Qed.

Lemma run_try_raise {A} (body : M A) handler w e w' :
  body w = (inl e, w') → try_except body handler w = handler e w'.
Proof. intros Hb. unfold try_except. rewrite Hb. reflexivity. Qed.

Lemma run_try_ok {A} (body : M A) handler w x w' :
  body w = (inr x, w') → try_except body handler w = (inr x, w').
Proof. intros Hb. unfold try_except. rewrite Hb. reflexivity. Qed.

Section Envelopes.
Context `{Env}.

Lemma run_on_exception what e w :
  on_exception what e w
  = (inr (failure_of e w), add_log (what +:+ ": " +:+ exc_msg e) w).
Proof. reflexivity. Qed.

Lemma run_success data message w :
  ResponseFormatter.success data message w = (inr (success_of data message w), w).
Proof. reflexivity. Qed.

Lemma success_of_is_Success data message w : is_Success (success_of data message w).
Proof. unfold is_Success, success_of. eauto. Qed.

Lemma failure_of_is_Failure e w : is_Failure (failure_of e w).
Proof. unfold is_Failure, failure_of. eauto. Qed.

Lemma Success_not_Failure r : is_Success r → is_Failure r → False.
Proof.
  intros (d & m & t & ->) (e & d' & t' & Heq). discriminate Heq.
Qed.

Lemma returns_bind {A B} (Q : B → Prop) (m : M A) (f : A → M B) :
  (∀ x, returns Q (f x)) → returns Q (m ≫= f).
Proof.
  intros Hf w r w' Hrun. rewrite run_bind in Hrun.
  destruct (m w) as [[e | x] w1]; [discriminate |]. eapply Hf, Hrun.
Qed.

Lemma returns_at_success (Q : Dict → Prop) data message :
  (∀ w, Q (success_of data message w)) →
  returns Q (ResponseFormatter.success data message).
Proof.
  intros HQ w r w' Hrun. rewrite run_success in Hrun.
  injection Hrun as <- _. apply HQ.
Qed.

(** A body whose every normal return is a Success record, inside the
    handler's [try]/[except]. *)
Lemma boundary (body : M Dict) (what : string) :
  returns is_Success body →
  ∀ w, ∃ r w',
    try_except body (on_exception what) w = (inr r, w') ∧ handler_outcome r w'.
Proof.
  intros Hbody w. unfold try_except.
  destruct (body w) as [[e | r] w1] eqn:Hrun.
  - rewrite run_on_exception. eexists _, _. split; [reflexivity |].
    right. exists e. reflexivity.
  - eexists _, _. split; [reflexivity |]. left. eapply Hbody, Hrun.
Qed.

End Envelopes.

Ltac rs_step :=
  lazymatch goal with
  | |- returns _ (ResponseFormatter.success _ _) =>
      apply returns_at_success; intros; apply success_of_is_Success
  | |- returns _ (_ ≫= _) => apply returns_bind; intros
  | |- returns _ (let _ := _ in _) => cbv zeta
  | |- returns _ (match ?x with _ => _ end) => destruct x
  end.

Section Invoke.
Context `{Env}.

Lemma invoke_outcome (c : ToolCall) (w : World) :
  ∃ r w', invoke c w = (inr r, w') ∧ handler_outcome r w'.
Proof.
  destruct c; cbn [invoke];
    [ unfold analizar_archivo | unfold crear_archivo | unfold leer_documento
    | unfold analizar_datos | unfold tabla_dinamica_avanzada
    | unfold crear_visualizacion | unfold buscar_repositorios_github
    | unfold extraer_contenido_web | unfold descargar_archivo_web
    | unfold convertir_formato_datos ];
    apply boundary; repeat rs_step.
Qed.

End Invoke.

(** ** The envelope contract *)

(** C1: every tool handler, on every input and in every world (whatever
    the wrapped libraries return or raise), returns normally, and what it
    returns is exactly one of the two envelope variants: a Success record
    or a Failure record, never both; no exception leaves the handler. *)
Theorem handler_returns_exactly_one_envelope `{Env} (c : ToolCall) (w : World) :
  ∃ r w', invoke c w = (inr r, w') ∧ exactly_one_envelope r.
Proof.
  destruct (invoke_outcome c w) as (r & w' & Hrun & Hout).
  exists r, w'. split; [exact Hrun |]. split.
  - destruct Hout as [Hs | [e ->]]; [left; exact Hs |].
    right. apply failure_of_is_Failure.
  - intros [Hs Hf]. exact (Success_not_Failure r Hs Hf).
Qed.

(** C10: every Failure envelope a tool handler produces has the empty
    string in its [details] field. *)
Theorem failure_details_empty `{Env} (c : ToolCall) (w : World) r w' :
  invoke c w = (inr r, w') → is_Failure r →
  dict_get "details" r = Some (VStr "").
Proof.
  intros Hrun Hfail.
  destruct (invoke_outcome c w) as (r0 & w0 & Hrun0 & Hout).
  rewrite Hrun in Hrun0. injection Hrun0 as <- <-.
  destruct Hout as [Hs | [e ->]].
  - destruct (Success_not_Failure r Hs Hfail).
  - reflexivity.
Qed.

Lemma failure_details_empty_witness :
  ∃ r w',
    invoke (AnalizarArchivo Demo.ausente) Demo.world = (inr r, w')
    ∧ is_Failure r ∧ dict_get "details" r = Some (VStr "").
Proof.
  eexists _, _. split; [vm_compute; reflexivity |].
  split; [eexists _, _, _; reflexivity |].
  eapply (failure_details_empty (AnalizarArchivo Demo.ausente) Demo.world).
  - vm_compute. reflexivity.
  - eexists _, _, _. reflexivity.
Defined.

(** ** Missing input paths *)

Section MissingPath.
Context `{Env}.

Lemma validate_missing (p : Path) (w : World) :
  fs_lookup w p = None →
  FileHandler.validate_file_exists p w
  = (inl (mkExc FileNotFoundError ("El archivo " +:+ path_str p +:+ " no existe")),
     w).
Proof.
  intros Hnone. unfold FileHandler.validate_file_exists, path_exists.
  unfold mbind, M_bind, mret, M_ret, get_world, raise. rewrite Hnone.
  rewrite bool_decide_eq_false_2 by (intros [x Hx]; discriminate).
  reflexivity.
Qed.

Lemma read_dataframe_missing (p : Path) (w : World) :
  fs_lookup w p = None →
  FileHandler.read_dataframe p w
  = (inl (mkExc FileNotFoundError ("El archivo " +:+ path_str p +:+ " no existe")),
     w).
Proof.
  intros Hnone. unfold FileHandler.read_dataframe.
  apply run_bind_raise, validate_missing, Hnone.
Qed.

Lemma failure_mentions_path (p : Path) (w : World) :
  let e := mkExc FileNotFoundError ("El archivo " +:+ path_str p +:+ " no existe") in
  is_Failure (failure_of e w)
  ∧ dict_get "error" (failure_of e w) = Some (VStr (exc_msg e))
  ∧ PyStr.mentions (exc_msg e) (path_str p).
Proof.
  cbv zeta. split; [apply failure_of_is_Failure |]. split; [reflexivity |].
  exists "El archivo ", " no existe". reflexivity.
Qed.

End MissingPath.

(** C2: each handler that takes an input path, invoked with a path that
    does not exist, returns normally with a Failure envelope whose
    [error] string mentions that path. *)
Theorem missing_input_path_fails `{Env} (c : ToolCall) (p : Path) (w : World) :
  input_path c = Some p → fs_lookup w p = None →
  ∃ r w' error,
    invoke c w = (inr r, w') ∧ is_Failure r
    ∧ dict_get "error" r = Some (VStr error)
    ∧ PyStr.mentions error (path_str p).
Proof.
  intros Hc Hnone.
  pose proof (validate_missing p w Hnone) as Hval.
  pose proof (read_dataframe_missing p w Hnone) as Hread.
  destruct (failure_mentions_path p w) as (Hf & He & Hm).
  destruct c; cbn in Hc; try discriminate; injection Hc as ->; cbn [invoke];
    [ unfold analizar_archivo | unfold leer_documento | unfold analizar_datos
    | unfold tabla_dinamica_avanzada | unfold crear_visualizacion
    | unfold convertir_formato_datos ];
    cbv zeta;
    (erewrite run_try_raise;
     [| apply run_bind_raise; first [exact Hval | exact Hread]]);
    rewrite run_on_exception;
    eexists _, _, _; (split; [reflexivity |]);
    (split; [exact Hf |]); (split; [exact He | exact Hm]).
Qed.

Lemma missing_input_path_fails_witness :
  ∃ r w' error,
    invoke (AnalizarDatos Demo.ausente None) Demo.world = (inr r, w')
    ∧ is_Failure r
    ∧ dict_get "error" r = Some (VStr error)
    ∧ PyStr.mentions error (path_str Demo.ausente).
Proof.
  apply (missing_input_path_fails (AnalizarDatos Demo.ausente None) Demo.ausente
           Demo.world).
  - reflexivity.
  - vm_compute. reflexivity.
Defined.

(** ** File sizes *)

Lemma str_app_assoc (a b c : string) : (a +:+ b) +:+ c = a +:+ (b +:+ c).
Proof.
  induction a as [| x a IH]; [reflexivity |].
  change (String x ((a +:+ b) +:+ c) = String x (a +:+ (b +:+ c))).
  f_equal. exact IH.
Qed.

Lemma round_half_even_bound (a b : Z) :
  0 ≤ a → 0 < b →
  0 ≤ round_half_even a b ∧ Z.abs (a - round_half_even a b * b) * 2 ≤ b.
Proof.
  intros Ha Hb. unfold round_half_even.
  pose proof (Z.div_mod a b ltac:(lia)) as Hdm.
  pose proof (Z.mod_pos_bound a b Hb) as Hr.
  assert (0 ≤ a / b) as Hq by (apply Z.div_pos; lia).
  destruct (2 * (a mod b) <? b) eqn:H1; [apply Z.ltb_lt in H1; nia |].
  apply Z.ltb_ge in H1.
  destruct (b <? 2 * (a mod b)) eqn:H2; [apply Z.ltb_lt in H2; nia |].
  apply Z.ltb_ge in H2.
  destruct (Z.even (a / b)); nia.
Qed.

Lemma float_of_int_small (n : Z) : 0 ≤ n < 2 ^ 53 → float_of_int n = n.
Proof.
  intros Hn. unfold float_of_int.
  destruct (Z.log2 n + 1 <=? 53) eqn:Hb; [reflexivity |].
  apply Z.leb_gt in Hb.
  assert (0 < n) as Hpos.
  { destruct (Z.eq_dec n 0) as [-> | ?]; [cbn in Hb; lia | lia]. }
  assert (Z.log2 n < 53) by (apply Z.log2_lt_pow2; lia). lia.
Qed.

Lemma float_of_int_large (n : Z) :
  2 ^ 53 ≤ n →
  2 ^ 53 ≤ float_of_int n ∧ float_of_int n ≤ 2 ^ (Z.log2 n + 1).
Proof.
  intros Hn. unfold float_of_int.
  assert (0 < n) as Hpos by (pose proof (Z.pow_pos_nonneg 2 53); lia).
  assert (53 ≤ Z.log2 n) as Hlog by (apply Z.log2_le_pow2; lia).
  destruct (Z.log2 n + 1 <=? 53) eqn:Hb; [apply Z.leb_le in Hb; lia |].
  clear Hb.
  set (sh := Z.log2 n + 1 - 53).
  assert (1 ≤ sh) as Hsh by (unfold sh; lia).
  pose proof (Z.log2_spec n Hpos) as [Hlo Hhi].
  replace (Z.succ (Z.log2 n)) with (53 + sh) in Hhi by (unfold sh; lia).
  replace (Z.log2 n) with (52 + sh) in Hlo by (unfold sh; lia).
  replace (Z.log2 n + 1) with (53 + sh) by (unfold sh; lia).
  rewrite Z.pow_add_r in Hhi, Hlo by lia.
  rewrite Z.pow_add_r by lia.
  assert (0 < 2 ^ sh) as H2 by (apply Z.pow_pos_nonneg; lia).
  destruct (round_half_even_bound n (2 ^ sh) ltac:(lia) H2) as [Hq Hbound].
  set (q := round_half_even n (2 ^ sh)) in *.
  set (P := 2 ^ sh) in *.
  assert (2 ≤ P) as HP.
  { unfold P. change 2 with (2 ^ 1) at 1. apply Z.pow_le_mono_r; lia. }
  change (2 ^ 53) with 9007199254740992 in *.
  change (2 ^ 52) with 4503599627370496 in *.
  assert (Hb1 : -P ≤ 2 * (n - q * P) ≤ P) by lia.
  assert (4503599627370496 ≤ q) by nia.
  assert (q ≤ 9007199254740992) by nia.
  split; nia.
Qed.

Lemma float_of_pyint_nonneg (n : Z) : 0 ≤ n → float_of_pyint n = float_of_int n.
Proof.
  intros Hn. unfold float_of_pyint. rewrite Z.abs_eq by lia.
  destruct (Z.eq_dec n 0) as [-> | Hne]; [reflexivity |].
  rewrite Z.sgn_pos by lia. lia.
Qed.

Lemma float_of_int_range (n : Z) :
  0 ≤ n < 2 ^ 1024 → 0 ≤ float_of_int n ≤ 2 ^ 1024.
Proof.
  intros Hn. destruct (Z_lt_le_dec n (2 ^ 53)) as [Hs | Hl].
  - rewrite float_of_int_small by lia. lia.
  - destruct (float_of_int_large n Hl) as [H1 H2].
    assert (0 < n) by (pose proof (Z.pow_pos_nonneg 2 53); lia).
    assert (Z.log2 n < 1024) by (apply Z.log2_lt_pow2; lia).
    assert (2 ^ (Z.log2 n + 1) ≤ 2 ^ 1024) by (apply Z.pow_le_mono_r; lia).
    pose proof (Z.pow_pos_nonneg 2 53). lia.
Qed.

Lemma no_overflow (m e : Z) : 0 ≤ m ≤ 2 ^ 1024 → 1 ≤ e → float_overflows (Z.abs m) e = false.
Proof.
  intros Hm He. unfold float_overflows. rewrite Z.abs_eq by lia.
  apply Z.leb_gt.
  assert (2 ^ 1024 < 2 ^ (1024 + e)) by (apply Z.pow_lt_mono_r; lia). lia.
Qed.

Lemma render_1f_nonneg (m e : Z) (unit : string) :
  0 ≤ m →
  render_1f m e +:+ " " +:+ unit
  = rendering (round_half_even (10 * m) (2 ^ e)) unit.
Proof.
  intros Hm. unfold render_1f, rendering. rewrite Z.abs_eq by lia.
  destruct (m <? 0) eqn:Hneg; [apply Z.ltb_lt in Hneg; lia |].
  change ("" +:+ ?x) with x. rewrite !str_app_assoc. reflexivity.
Qed.

Lemma format_units_stop unit units (m e : Z) :
  0 ≤ m → lt_1024 (PyFloat m e) = true →
  format_units (unit :: units) (PyFloat m e)
  = inr (rendering (round_half_even (10 * m) (2 ^ e)) unit).
Proof.
  intros Hm Hlt. cbn [format_units]. rewrite Hlt.
  cbn [format_1f mbind Result_bind mret Result_ret].
  rewrite render_1f_nonneg by exact Hm. reflexivity.
Qed.

Lemma format_units_next unit units (m e : Z) :
  lt_1024 (PyFloat m e) = false →
  format_units (unit :: units) (PyFloat m e) = format_units units (PyFloat m (e + 10)).
Proof. intros Hlt. cbn [format_units]. rewrite Hlt. reflexivity. Qed.

Lemma format_units_end (m e : Z) :
  0 ≤ m →
  format_units [] (PyFloat m e)
  = inr (rendering (round_half_even (10 * m) (2 ^ e)) "TB").
Proof.
  intros Hm. cbn [format_units format_1f mbind Result_bind mret Result_ret].
  change (render_1f m e +:+ " TB") with (render_1f m e +:+ " " +:+ "TB").
  rewrite render_1f_nonneg by exact Hm. reflexivity.
Qed.

Lemma format_file_size_bytes (n : Z) :
  0 ≤ n < 1024 → _format_file_size n = inr (rendering (10 * n) "B").
Proof.
  intros Hn. unfold _format_file_size. cbn [format_units lt_1024].
  destruct (n <? 1024) eqn:Hlt; [| apply Z.ltb_ge in Hlt; lia].
  cbn [format_1f]. rewrite float_of_pyint_nonneg by lia.
  rewrite float_of_int_small by lia.
  unfold float_overflows. rewrite Z.abs_eq by lia.
  destruct (2 ^ (1024 + 0) <=? n) eqn:Hov.
  { apply Z.leb_le in Hov.
    assert (2 ^ 10 ≤ 2 ^ (1024 + 0)) by (apply Z.pow_le_mono_r; lia). lia. }
  cbn [mbind Result_bind mret Result_ret]. rewrite render_1f_nonneg by lia.
  unfold round_half_even. change (2 ^ 0) with 1.
  rewrite Z.mod_1_r, Z.div_1_r. reflexivity.
Qed.

Lemma format_file_size_float (n : Z) :
  1024 ≤ n < 2 ^ 1024 →
  _format_file_size n
  = format_units ["KB"; "MB"; "GB"] (PyFloat (float_of_int n) 10).
Proof.
  intros Hn. unfold _format_file_size. cbn [format_units lt_1024].
  destruct (n <? 1024) eqn:Hlt; [apply Z.ltb_lt in Hlt; lia |].
  cbn [truediv_1024]. rewrite float_of_pyint_nonneg by lia.
  rewrite no_overflow by (try apply float_of_int_range; lia).
  reflexivity.
Qed.

(** A digit is written as one character. *)
Lemma pretty_digit (d : Z) : 0 ≤ d < 10 → String.length (pretty d) = 1%nat.
Proof.
  intros Hd.
  assert (d = 0 ∨ d = 1 ∨ d = 2 ∨ d = 3 ∨ d = 4 ∨ d = 5 ∨ d = 6 ∨ d = 7
          ∨ d = 8 ∨ d = 9) as Hcases by lia.
  repeat (destruct Hcases as [-> | Hcases]; [reflexivity |]).
  subst d. reflexivity.
Qed.

(** The unit steps and the rounding, for every size in range. *)
Lemma format_file_size_cases (n : Z) :
  0 ≤ n < 2 ^ 1024 →
  ∃ k t : Z,
    0 ≤ k ≤ 4
    ∧ (k < 4 → n < 1024 ^ (k + 1))
    ∧ (0 < k → 1024 ^ k ≤ n)
    ∧ (n < 2 ^ 53 → float_of_int n = n)
    ∧ 0 ≤ t
    ∧ Z.abs (10 * float_of_int n - t * 1024 ^ k) * 2 ≤ 1024 ^ k
    ∧ _format_file_size n = inr (rendering t (unit_name k)).
Proof.
  intros Hn.
  assert (Hsmall : n < 2 ^ 53 → float_of_int n = n).
  { intros ?. apply float_of_int_small. lia. }
  destruct (Z_lt_le_dec n 1024) as [H0 | H0].
  { exists 0, (10 * n). rewrite format_file_size_bytes by lia.
    rewrite float_of_int_small by lia.
    repeat split; try lia; try exact Hsmall. }
  rewrite format_file_size_float by lia.
  pose proof (float_of_int_range n Hn) as Hm.
  assert (Hcmp : ∀ c, c ≤ 2 ^ 53 → (float_of_int n <? c) = (n <? c)).
  { intros c Hc. destruct (Z_lt_le_dec n (2 ^ 53)) as [Hs | Hl].
    - rewrite float_of_int_small by lia. reflexivity.
    - destruct (float_of_int_large n Hl) as [Hfl _].
      transitivity false; [| symmetry]; apply Z.ltb_ge; lia. }
  set (m := float_of_int n) in *.
  assert (Hrhe : ∀ e, 0 ≤ e →
            0 ≤ round_half_even (10 * m) (2 ^ e)
            ∧ Z.abs (10 * m - round_half_even (10 * m) (2 ^ e) * 2 ^ e) * 2 ≤ 2 ^ e).
  { intros e He. apply round_half_even_bound; [lia |].
    apply Z.pow_pos_nonneg; lia. }
  destruct (Z_lt_le_dec n (1024 ^ 2)) as [H1 | H1].
  { exists 1, (round_half_even (10 * m) (2 ^ 10)).
    rewrite format_units_stop; [| lia | cbn [lt_1024]; rewrite Hcmp by lia; apply Z.ltb_lt; lia].
    destruct (Hrhe 10 ltac:(lia)) as [Ht Hb].
    repeat split; try lia; try exact Hsmall; try exact Ht; try exact Hb. }
  rewrite format_units_next
    by (cbn [lt_1024]; rewrite Hcmp by lia; apply Z.ltb_ge; lia).
  change (10 + 10) with 20.
  destruct (Z_lt_le_dec n (1024 ^ 3)) as [H2 | H2].
  { exists 2, (round_half_even (10 * m) (2 ^ 20)).
    rewrite format_units_stop; [| lia | cbn [lt_1024]; rewrite Hcmp by lia; apply Z.ltb_lt; lia].
    destruct (Hrhe 20 ltac:(lia)) as [Ht Hb].
    repeat split; try lia; try exact Hsmall; try exact Ht; try exact Hb. }
  rewrite format_units_next
    by (cbn [lt_1024]; rewrite Hcmp by lia; apply Z.ltb_ge; lia).
  change (20 + 10) with 30.
  destruct (Z_lt_le_dec n (1024 ^ 4)) as [H3 | H3].
  { exists 3, (round_half_even (10 * m) (2 ^ 30)).
    rewrite format_units_stop; [| lia | cbn [lt_1024]; rewrite Hcmp by lia; apply Z.ltb_lt; lia].
    destruct (Hrhe 30 ltac:(lia)) as [Ht Hb].
    repeat split; try lia; try exact Hsmall; try exact Ht; try exact Hb. }
  rewrite format_units_next
    by (cbn [lt_1024]; rewrite Hcmp by lia; apply Z.ltb_ge; lia).
  change (30 + 10) with 40.
  exists 4, (round_half_even (10 * m) (2 ^ 40)).
  rewrite format_units_end by lia.
  destruct (Hrhe 40 ltac:(lia)) as [Ht Hb].
  repeat split; try lia; try exact Hsmall; try exact Ht; try exact Hb.
Qed.

Lemma format_file_size_total (n : Z) :
  0 ≤ n < 2 ^ 1024 → ∃ s, _format_file_size n = inr s.
Proof.
  intros Hn.
  destruct (format_file_size_cases n Hn) as (k & t & _ & _ & _ & _ & _ & _ & Hfmt).
  eauto.
Qed.

(** C8: for every non-negative byte count [n] (below the binary64 range)
    the formatter returns a string: [k] steps of 1024 pick the unit among
    B, KB, MB, GB, TB ([k] is the least step count that brings [n] under
    1024, at most 4), and the number shown is [n / 1024 ^ k] correctly
    rounded to tenths and written with exactly one digit after the point
    ([float_of_int n] is [n] itself below [2 ^ 53]); 0 renders as
    "0.0 B", 1536 as "1.5 KB" and 1,073,741,824 as "1.0 GB". *)
Theorem format_file_size_renders :
  (∀ n : Z, 0 ≤ n < 2 ^ 1024 →
     ∃ k t : Z,
       0 ≤ k ≤ 4
       ∧ (k < 4 → n < 1024 ^ (k + 1))
       ∧ (0 < k → 1024 ^ k ≤ n)
       ∧ (n < 2 ^ 53 → float_of_int n = n)
       ∧ 0 ≤ t
       ∧ Z.abs (10 * float_of_int n - t * 1024 ^ k) * 2 ≤ 1024 ^ k
       ∧ _format_file_size n = inr (rendering t (unit_name k))
       ∧ String.length (pretty (t mod 10)) = 1%nat)
  ∧ _format_file_size 0 = inr "0.0 B"
  ∧ _format_file_size 1536 = inr "1.5 KB"
  ∧ _format_file_size 1073741824 = inr "1.0 GB".
Proof.
  split; [| repeat split; vm_compute; reflexivity].
  intros n Hn.
  destruct (format_file_size_cases n Hn)
    as (k & t & Hk & Hlt & Hge & Hexact & Ht & Hround & Hfmt).
  exists k, t. repeat split; try assumption; try lia.
  apply pretty_digit, Z.mod_pos_bound. lia.
Qed.

Lemma format_file_size_renders_witness :
  0 ≤ 1536 < 2 ^ 1024
  ∧ ∃ k t : Z,
      0 ≤ k ≤ 4
      ∧ (k < 4 → 1536 < 1024 ^ (k + 1))
      ∧ (0 < k → 1024 ^ k ≤ 1536)
      ∧ (1536 < 2 ^ 53 → float_of_int 1536 = 1536)
      ∧ 0 ≤ t
      ∧ Z.abs (10 * float_of_int 1536 - t * 1024 ^ k) * 2 ≤ 1024 ^ k
      ∧ _format_file_size 1536 = inr (rendering t (unit_name k))
      ∧ String.length (pretty (t mod 10)) = 1%nat.
Proof.
  split; [lia |]. apply (proj1 format_file_size_renders 1536). lia.
Defined.

(** The unit is chosen before rounding: just below 1 MB the size still
    renders in KB, and ties go to the even tenth. *)
Example format_file_size_just_below_MB :
  _format_file_size 1048575 = inr "1024.0 KB".
Proof. vm_compute. reflexivity. Qed.

Example format_file_size_tie : _format_file_size 1280 = inr "1.2 KB".
Proof. vm_compute. reflexivity. Qed.

(** ** Frame reasoning *)

Section FrameLemmas.
Context {X : Type} (obs : World → X).

Lemma keeps_ret {A} (x : A) : keeps obs (mret x : M A).
Proof. intros w. reflexivity. Qed.

Lemma keeps_raise {A} (e : Exception) : keeps obs (raise e : M A).
Proof. intros w. reflexivity. Qed.

Lemma keeps_lift {A} (r : Exception + A) : keeps obs (lift r).
Proof. intros w. reflexivity. Qed.

Lemma keeps_get_world : keeps obs get_world.
Proof. intros w. reflexivity. Qed.

Lemma keeps_modify (f : World → World) :
  (∀ w, obs (f w) = obs w) → keeps obs (modify f).
Proof. intros Hf w. apply Hf. Qed.

Lemma keeps_bind {A B} (m : M A) (f : A → M B) :
  keeps obs m → (∀ x, keeps obs (f x)) → keeps obs (m ≫= f).
Proof.
  intros Hm Hf w. rewrite run_bind. specialize (Hm w).
  destruct (m w) as [[e | x] w1]; cbn in *; [exact Hm |].
  rewrite Hf. exact Hm.
Qed.

Lemma fails_raise {A} (e : Exception) : fails_keeping obs (raise e : M A).
Proof. intros w. exists e. split; reflexivity. Qed.

Lemma fails_bind_l {A B} (m : M A) (f : A → M B) :
  fails_keeping obs m → fails_keeping obs (m ≫= f).
Proof.
  intros Hm w. rewrite run_bind. destruct (Hm w) as (e & He & Hobs).
  destruct (m w) as [[e' | x] w1]; cbn in *; [| discriminate].
  exists e'. split; [reflexivity | exact Hobs].
Qed.

Lemma fails_bind_r {A B} (m : M A) (f : A → M B) :
  keeps obs m → (∀ x, fails_keeping obs (f x)) → fails_keeping obs (m ≫= f).
Proof.
  intros Hm Hf w. rewrite run_bind. specialize (Hm w).
  destruct (m w) as [[e | x] w1]; cbn in *.
  - exists e. split; [reflexivity | exact Hm].
  - destruct (Hf x w1) as (e & He & Hobs). exists e.
    split; [exact He | congruence].
Qed.

(** A body that always raises, inside the handler's [try]/[except]: the
    result is the Failure record, and the observation is as before if
    logging does not touch it. *)
Lemma fails_at_boundary `{Env} (body : M Dict) (what : string) :
  (∀ line w, obs (add_log line w) = obs w) →
  fails_keeping obs body →
  ∀ w, ∃ r w',
    try_except body (on_exception what) w = (inr r, w')
    ∧ is_Failure r ∧ obs w' = obs w.
Proof.
  intros Hlog Hbody w. destruct (Hbody w) as (e & He & Hobs).
  unfold try_except. destruct (body w) as [[e' | r] w1]; cbn in *;
    [| discriminate].
  rewrite run_on_exception. eexists _, _. split; [reflexivity |].
  split; [apply failure_of_is_Failure |]. rewrite Hlog. exact Hobs.
Qed.

End FrameLemmas.

Lemma always_fails_at_boundary `{Env} (body : M Dict) (what : string) :
  fails_keeping (λ _ : World, tt) body →
  ∀ w, ∃ r w',
    try_except body (on_exception what) w = (inr r, w') ∧ is_Failure r.
Proof.
  intros Hbody w.
  destruct (fails_at_boundary (λ _ : World, tt) body what
              ltac:(reflexivity) Hbody w) as (r & w' & Hrun & Hf & _).
  eauto.
Qed.

Ltac keeps_step :=
  lazymatch goal with
  | |- keeps _ (_ ≫= _) => apply keeps_bind; [| intros]
  | |- keeps _ (mret _) => apply keeps_ret
  | |- keeps _ (raise _) => apply keeps_raise
  | |- keeps _ (lift _) => apply keeps_lift
  | |- keeps _ get_world => apply keeps_get_world
  | |- keeps _ (let _ := _ in _) => cbv zeta
  | |- keeps _ (match ?x with _ => _ end) => destruct x
  end.

Section ReadOnly.
Context `{Env} {X : Type} (obs : World → X).
Hypothesis obs_note_read :
  ∀ parser arg w, parser ∈ ["csv"; "excel"; "json"] →
    obs (add_event (Call ("pd.read_" +:+ parser) arg) w) = obs w.

Lemma keeps_validate_file_exists (p : Path) :
  keeps obs (FileHandler.validate_file_exists p).
Proof.
  unfold FileHandler.validate_file_exists, path_exists. repeat keeps_step.
Qed.

Lemma keeps_read_bytes (p : Path) : keeps obs (read_bytes p).
Proof. unfold read_bytes, os_check. repeat keeps_step. Qed.

Lemma keeps_pd_read_file (parser : string) (p : Path) :
  parser ∈ ["csv"; "excel"; "json"] →
  keeps obs (FileHandler.pd_read_file parser p).
Proof.
  intros Hparser. unfold FileHandler.pd_read_file, note.
  apply keeps_bind; [apply keeps_modify; intros w; apply obs_note_read, Hparser |].
  intros _. apply keeps_bind; [apply keeps_read_bytes | intros; apply keeps_lift].
Qed.

Lemma keeps_read_dataframe (p : Path) : keeps obs (FileHandler.read_dataframe p).
Proof.
  unfold FileHandler.read_dataframe.
  apply keeps_bind; [apply keeps_validate_file_exists | intros _].
  repeat lazymatch goal with
         | |- keeps _ (if bool_decide ?P then _ else _) => destruct (bool_decide P)
         end;
    first [apply keeps_pd_read_file; repeat constructor | apply keeps_raise].
Qed.

Lemma keeps_validate_columns (df : DataFrame) (columns : PyVal) :
  keeps obs (FileHandler.validate_columns df columns).
Proof. unfold FileHandler.validate_columns. repeat keeps_step. Qed.

End ReadOnly.

(** ** Rejected arguments: aggregation functions and chart kinds *)

Section Rejected.
Context `{Env}.

Lemma pivot_calls_note_read parser arg w :
  pivot_calls (add_event (Call ("pd.read_" +:+ parser) arg) w) = pivot_calls w.
Proof.
  unfold pivot_calls, add_event. cbn [trace]. rewrite filter_app.
  rewrite filter_cons_False by (cbn; discriminate).
  rewrite filter_nil. apply app_nil_r.
Qed.

Lemma invalid_functions_nonempty (aggfunc : list string) (f : string) :
  f ∈ aggfunc → f ∉ funciones_validas →
  filter (λ f, f ∉ funciones_validas) aggfunc ≠ [].
Proof.
  intros Hin Hbad Hnil.
  assert (f ∈ filter (λ f, f ∉ funciones_validas) aggfunc) as Hf
    by (apply list_elem_of_filter; split; assumption).
  rewrite Hnil in Hf. inversion Hf.
Qed.

Lemma create_figure_unsupported {X} (obs : World → X) df tipo config :
  tipo ∉ tipos_soportados →
  fails_keeping obs (_create_plotly_figure df tipo config).
Proof.
  intros Hnot. unfold tipos_soportados in Hnot.
  repeat (apply not_elem_of_cons in Hnot; destruct Hnot as [? Hnot]).
  unfold _create_plotly_figure.
  apply fails_bind_r; [apply keeps_lift | intros columnas; cbv zeta].
  rewrite !bool_decide_eq_false_2 by assumption.
  apply fails_raise.
Qed.

End Rejected.

(** C3: when the aggregation argument of [tabla_dinamica_avanzada]
    contains a name outside mean, sum, min, max, count, std, var, median,
    the handler returns a Failure envelope and [DataFrame.pivot_table] is
    never called (whatever the dataset, so also for every existing
    readable one). *)
Theorem invalid_aggregation_never_pivots `{Env}
    (ruta : Path) (index_cols columns_cols : StrOrList) (values_col : string)
    (aggfunc : StrOrList) (fill_value : option pynum) (w : World) :
  has_invalid_function aggfunc →
  ∃ r w',
    tabla_dinamica_avanzada ruta index_cols columns_cols values_col aggfunc
      fill_value w = (inr r, w')
    ∧ is_Failure r
    ∧ pivot_calls w' = pivot_calls w.
Proof.
  intros (f & Hin & Hbad). unfold tabla_dinamica_avanzada.
  apply (fails_at_boundary pivot_calls); [reflexivity |].
  apply fails_bind_r.
  { apply keeps_read_dataframe. intros. apply pivot_calls_note_read. }
  intros df. cbv zeta.
  apply fails_bind_r; [apply keeps_validate_columns | intros _].
  apply fails_bind_l.
  pose proof (invalid_functions_nonempty _ f Hin Hbad) as Hne.
  destruct (filter _ (as_list aggfunc)); [congruence |].
  apply fails_raise.
Qed.

Lemma invalid_aggregation_never_pivots_witness :
  let aggfunc := StrList ["sum"; "moda"] in
  has_invalid_function aggfunc
  ∧ ∃ r w',
      tabla_dinamica_avanzada Demo.datos_csv (OneStr "region")
        (OneStr "producto") "ventas" aggfunc None Demo.world = (inr r, w')
      ∧ is_Failure r
      ∧ pivot_calls w' = pivot_calls Demo.world.
Proof.
  cbv zeta.
  assert (Hbad : has_invalid_function (StrList ["sum"; "moda"])).
  { exists "moda". split; [cbn; repeat constructor |].
    unfold funciones_validas. intros Hin.
    repeat (apply elem_of_cons in Hin; destruct Hin as [Heq | Hin];
            [discriminate Heq |]).
    inversion Hin. }
  split; [exact Hbad |].
  exact (invalid_aggregation_never_pivots Demo.datos_csv (OneStr "region")
           (OneStr "producto") "ventas" (StrList ["sum"; "moda"]) None
           Demo.world Hbad).
Defined.

(** C4: for a chart kind outside bar, line, scatter, pie, histogram, box,
    [crear_visualizacion] returns a Failure envelope and the file system
    is left exactly as it was: no output file is created and no existing
    file is modified (whatever the dataset and the columns, so also for
    every existing readable dataset with valid columns). *)
Theorem unsupported_chart_kind_writes_nothing `{Env}
    (ruta : Path) (tipo : string) (configuracion : Dict) (w : World) :
  tipo ∉ tipos_soportados →
  ∃ r w',
    crear_visualizacion ruta tipo configuracion w = (inr r, w')
    ∧ is_Failure r
    ∧ fs w' = fs w.
Proof.
  intros Hnot. unfold crear_visualizacion.
  apply (fails_at_boundary fs); [reflexivity |].
  apply fails_bind_r; [apply keeps_read_dataframe; reflexivity | intros df].
  apply fails_bind_r.
  { destruct (dict_get "columnas" configuracion);
      [apply keeps_ret | apply keeps_raise]. }
  intros columnas.
  apply fails_bind_r; [apply keeps_validate_columns | intros _].
  apply fails_bind_l, create_figure_unsupported, Hnot.
Qed.

Lemma unsupported_chart_kind_writes_nothing_witness :
  ("radar" ∉ tipos_soportados)
  ∧ ∃ r w',
      crear_visualizacion Demo.datos_csv "radar"
        [("columnas", VList [VStr "region"; VStr "ventas"])] Demo.world
      = (inr r, w')
      ∧ is_Failure r
      ∧ fs w' = fs Demo.world.
Proof.
  assert (Hnot : "radar" ∉ tipos_soportados).
  { unfold tipos_soportados. intros Hin.
    repeat (apply elem_of_cons in Hin; destruct Hin as [Heq | Hin];
            [discriminate Heq |]).
    inversion Hin. }
  split; [exact Hnot |].
  exact (unsupported_chart_kind_writes_nothing Demo.datos_csv "radar"
           [("columnas", VList [VStr "region"; VStr "ventas"])] Demo.world Hnot).
Defined.

(** ** Writing files *)

Section Writing.
Context `{Env}.

Lemma run_path_exists (p : Path) (w : World) :
  path_exists p w = (inr (bool_decide (is_Some (fs_lookup w p))), w).
Proof. reflexivity. Qed.

Lemma run_note fn arg w : note fn arg w = (inr tt, add_event (Call fn arg) w).
Proof. reflexivity. Qed.

Lemma run_lift {A} (r : Exception + A) w : lift r w = (r, w).
Proof. reflexivity. Qed.

Lemma fs_lookup_add_event ev w p : fs_lookup (add_event ev w) p = fs_lookup w p.
Proof. reflexivity. Qed.

Lemma run_os_check_ok op p w :
  os_fault op (path_str p) = None → os_check op p w = (inr tt, w).
Proof. intros Hok. unfold os_check. rewrite Hok. reflexivity. Qed.

Lemma run_client_get url params resp w :
  http_get url params = inr resp → resp_raise_for_status resp = None →
  client_get url params w
  = (inr resp, add_event (Call "httpx.AsyncClient.get" url) w).
Proof.
  intros Hget Hstatus. unfold client_get.
  rewrite run_bind, run_note, run_bind, run_lift, Hget, Hstatus. reflexivity.
Qed.

Lemma run_mkdir_chain target chain w :
  Forall (λ a, fs_lookup w a = Some Dir) chain →
  mkdir_chain target chain w = (inr tt, w).
Proof.
  induction 1 as [| q rest Hq _ IH]; [reflexivity |].
  cbn [mkdir_chain]. rewrite run_bind. cbn [get_world]. rewrite Hq. exact IH.
Qed.

Lemma run_mkdir_parents q w :
  dirs_ready w q → mkdir_parents q w = (inr tt, w).
Proof.
  intros [Hok Hdirs]. unfold mkdir_parents.
  rewrite run_bind, run_os_check_ok by exact Hok.
  apply run_mkdir_chain, Hdirs.
Qed.

Lemma run_write_bytes p content w :
  can_write_file w p →
  write_bytes p content w
  = (inr tt, set_fs (<[path_str p := File content]> (fs w)) w).
Proof.
  intros (Hok & Hparent & Hnodir). unfold write_bytes.
  rewrite run_bind, run_os_check_ok by exact Hok.
  rewrite run_bind. cbn [get_world]. rewrite Hparent.
  destruct (fs_lookup w p) as [[c |] |]; try reflexivity. congruence.
Qed.

(** The chain of a path with components ends in the path itself. *)
Lemma path_chain_self (q : Path) : parts q ≠ [] → q ∈ path_chain q.
Proof.
  intros Hne. unfold path_chain. apply list_elem_of_fmap.
  exists (length (parts q)). split.
  - rewrite firstn_all. destruct q; reflexivity.
  - apply elem_of_seq. destruct (parts q); [congruence | cbn; lia].
Qed.

Lemma dirs_ready_is_dir w q : dirs_ready w q → fs_lookup w q = Some Dir.
Proof.
  intros [_ Hdirs]. destruct (parts q) eqn:Hparts.
  - unfold fs_lookup. rewrite Hparts. reflexivity.
  - rewrite Forall_forall in Hdirs. apply Hdirs, path_chain_self. congruence.
Qed.

End Writing.

(** C5: for a download whose destination already exists: without the
    overwrite flag the handler returns a Failure envelope, the file
    system is unchanged and no library call (so no download) is made;
    with the flag, when the download succeeds and the destination file
    can be written, the destination holds the downloaded bytes afterwards
    and the Success data reports their byte count. *)
Theorem download_to_existing_destination `{Env}
    (url : string) (path : Path) (node : Node) (w : World) :
  fs_lookup w path = Some node →
  (∃ r w',
     descargar_archivo_web url path false w = (inr r, w')
     ∧ is_Failure r ∧ fs w' = fs w ∧ trace w' = trace w)
  ∧ (∀ resp old,
       node = File old →
       download_succeeds url resp →
       dirs_ready w (path_parent path) →
       os_fault OsWrite (path_str path) = None →
       PyStr.len (resp_content resp) < 2 ^ 1024 →
       ∃ data message w',
         descargar_archivo_web url path true w
         = (inr (success_of (VDict data) message w'), w')
         ∧ fs w' = <[path_str path := File (resp_content resp)]> (fs w)
         ∧ dict_get "tamaño_bytes" data
           = Some (VInt (PyStr.len (resp_content resp)))).
Proof.
  intros Hnode. split.
  - unfold descargar_archivo_web. cbv zeta.
    erewrite run_try_raise.
    2:{ rewrite run_bind, run_path_exists.
        rewrite bool_decide_eq_true_2 by (rewrite Hnode; eauto).
        cbn [andb negb]. apply run_bind_raise. reflexivity. }
    rewrite run_on_exception. eexists _, _. split; [reflexivity |].
    split; [apply failure_of_is_Failure |]. split; reflexivity.
  - intros resp old -> [Hget Hstatus] Hdirs Hwrite Hlen.
    destruct (format_file_size_total (PyStr.len (resp_content resp)))
      as [legible Hfmt]; [unfold PyStr.len in *; lia |].
    unfold descargar_archivo_web. cbv zeta.
    erewrite run_try_ok.
    2:{ rewrite run_bind, run_path_exists.
        rewrite bool_decide_eq_true_2 by (rewrite Hnode; eauto).
        cbn [andb negb]. rewrite run_bind.
        change ((mret tt : M unit) w) with (@inr Exception unit tt, w).
        cbv iota beta.
        erewrite run_bind_ok by (apply run_client_get; eassumption).
        erewrite run_bind_ok by (apply run_mkdir_parents; exact Hdirs).
        erewrite run_bind_ok.
        2:{ apply run_write_bytes. split; [exact Hwrite |].
            split; [apply (dirs_ready_is_dir w), Hdirs |].
            rewrite fs_lookup_add_event, Hnode. discriminate. }
        rewrite run_bind, run_lift, Hfmt. cbv iota beta.
        rewrite run_success. reflexivity. }
    eexists _, _, _. split; [reflexivity |]. split; reflexivity.
Qed.

Lemma download_to_existing_destination_witness :
  (∃ r w',
     descargar_archivo_web "http://ejemplo.test" Demo.notas_txt false Demo.world
     = (inr r, w')
     ∧ is_Failure r ∧ fs w' = fs Demo.world ∧ trace w' = trace Demo.world)
  ∧ (∃ data message w',
       descargar_archivo_web "http://ejemplo.test" Demo.notas_txt true Demo.world
       = (inr (success_of (VDict data) message w'), w')
       ∧ fs w' = <[path_str Demo.notas_txt := File "hola"]> (fs Demo.world)
       ∧ dict_get "tamaño_bytes" data = Some (VInt 4)).
Proof.
  destruct (download_to_existing_destination "http://ejemplo.test"
              Demo.notas_txt (File "hola mundo") Demo.world)
    as [Hkeep Hreplace].
  - vm_compute. reflexivity.
  - split; [exact Hkeep |].
    apply (Hreplace (Demo.pagina_de "hola") "hola mundo").
    + reflexivity.
    + split; reflexivity.
    + split; [reflexivity | repeat constructor].
    + reflexivity.
    + vm_compute. reflexivity.
Defined.

(** ** Reading documents and truncation *)

Section Strings.

Lemma take_length (n : nat) (s : string) :
  String.length (PyStr.take n s) = Nat.min n (String.length s).
Proof.
  revert s. induction n as [| n IH]; intros [| c s]; cbn; try reflexivity.
  rewrite IH. reflexivity.
Qed.

Lemma take_min (n : nat) (s : string) :
  PyStr.take n s = PyStr.take (Nat.min n (String.length s)) s.
Proof.
  revert s. induction n as [| n IH]; intros [| c s]; cbn; try reflexivity.
  rewrite <- IH. reflexivity.
Qed.

Lemma take_drop (n : nat) (s : string) : PyStr.take n s +:+ PyStr.drop n s = s.
Proof.
  revert s. induction n as [| n IH]; intros [| c s]; try reflexivity.
  cbn [PyStr.take PyStr.drop].
  change (String c (PyStr.take n s +:+ PyStr.drop n s) = String c s).
  rewrite IH. reflexivity.
Qed.

Lemma drop_length (n : nat) (s : string) :
  String.length (PyStr.drop n s) = (String.length s - n)%nat.
Proof.
  revert s. induction n as [| n IH]; intros [| c s]; cbn; try reflexivity.
  apply IH.
Qed.

(** [s[:k]] for [0 <= k] is the first [min(len(s), k)] characters. *)
Lemma slice_to_nonneg (s : string) (k : Z) :
  0 ≤ k →
  PyStr.slice_to s k = PyStr.take (Z.to_nat (Z.min (PyStr.len s) k)) s
  ∧ PyStr.len (PyStr.slice_to s k) = Z.min (PyStr.len s) k.
Proof.
  intros Hk. unfold PyStr.slice_to, PyStr.len.
  destruct (0 <=? k) eqn:Hle; [| apply Z.leb_gt in Hle; lia].
  split.
  - rewrite take_min. f_equal. lia.
  - rewrite take_length. lia.
Qed.

End Strings.

Section Returns.
Context `{Env}.

(** A Success record that leaves a handler was built by its body. *)
Lemma success_from_body (Q : Dict → Prop) (body : M Dict) what w r w' :
  returns Q body →
  try_except body (on_exception what) w = (inr r, w') →
  is_Success r → Q r.
Proof.
  intros Hbody Hrun Hs. unfold try_except in Hrun.
  destruct (body w) as [[e | r0] w1] eqn:Hb.
  - rewrite run_on_exception in Hrun. injection Hrun as <- _.
    destruct (Success_not_Failure _ Hs (failure_of_is_Failure e w1)).
  - injection Hrun as <- _. eapply Hbody, Hb.
Qed.

Lemma run_read_bytes p bytes w :
  os_fault OsRead (path_str p) = None → fs_lookup w p = Some (File bytes) →
  read_bytes p w = (inr bytes, w).
Proof.
  intros Hok Hfile. unfold read_bytes.
  rewrite run_bind, run_os_check_ok by exact Hok.
  rewrite run_bind. cbn [get_world]. rewrite Hfile. reflexivity.
Qed.

Lemma run_validate_exists p node w :
  fs_lookup w p = Some node →
  FileHandler.validate_file_exists p w = (inr tt, w).
Proof.
  intros Hnode. unfold FileHandler.validate_file_exists.
  rewrite run_bind, run_path_exists.
  rewrite bool_decide_eq_true_2 by (rewrite Hnode; eauto). reflexivity.
Qed.

End Returns.

Section ReadDocument.
Context `{Env}.

Lemma text_extension_not_pdf (s : string) : s ∈ text_extensions → s ≠ ".pdf".
Proof.
  unfold text_extensions. intros Hin ->.
  repeat (apply elem_of_cons in Hin; destruct Hin as [Heq | Hin];
          [discriminate Heq |]).
  inversion Hin.
Qed.

(** Reading the text of a document: the [if]/[elif] of [leer_documento]
    on a readable document yields its text and leaves the files alone. *)
Lemma run_document_text (p : Path) (contenido : string) (w : World) :
  document_text w p contenido →
  ∃ w',
    (if bool_decide (PyStr.lower (path_suffix p) = ".pdf")
     then _extract_pdf_text p
     else if bool_decide (PyStr.lower (path_suffix p)
                            ∈ [".txt"; ".md"; ".csv"; ".json"; ".py"])
     then read_text p "utf-8"
     else raise (mkExc ValueError ("Formato no soportado: " +:+ path_suffix p)))
      w = (inr contenido, w')
    ∧ clock w' = clock w.
Proof.
  intros [bytes c Hext Hfile Hok Hdec | bytes pages Hext Hfile Hok Hpages].
  - rewrite bool_decide_eq_false_2 by (apply text_extension_not_pdf, Hext).
    rewrite bool_decide_eq_true_2 by exact Hext.
    exists w. unfold read_text.
    erewrite run_bind_ok by (apply run_read_bytes; eassumption).
    rewrite run_lift, Hdec. split; reflexivity.
  - rewrite bool_decide_eq_true_2 by exact Hext.
    eexists. unfold _extract_pdf_text.
    erewrite run_bind_ok by (apply run_read_bytes; eassumption).
    rewrite run_bind, run_note. cbv iota beta.
    rewrite run_bind, run_lift, Hpages. split; reflexivity.
Qed.

Lemma document_text_exists w p contenido :
  document_text w p contenido → ∃ bytes, fs_lookup w p = Some (File bytes).
Proof. intros [bytes c _ Hfile _ _ | bytes pages _ Hfile _ _]; eauto. Qed.

End ReadDocument.

(** C7: for an existing readable document with a supported extension
    (.txt, .md, .csv, .json, .py or .pdf, in any letter case) and a
    non-negative limit [L], [leer_documento] returns a Success envelope
    whose content is the first [min(total, L)] characters of the document
    text, whose returned length is the length of that content, and whose
    truncation flag is true exactly when the total length exceeds [L];
    for a path with any other extension it returns a Failure envelope. *)
Theorem leer_documento_truncates `{Env} (ruta : Path) (L : Z) (w : World) :
  (∀ contenido,
     document_text w ruta contenido → 0 ≤ L →
     ∃ message w',
       leer_documento ruta L w
       = (inr (success_of (VDict (documento_data contenido L)) message w'), w')
       ∧ PyStr.slice_to contenido L
         = PyStr.take (Z.to_nat (Z.min (PyStr.len contenido) L)) contenido
       ∧ PyStr.len (PyStr.slice_to contenido L) = Z.min (PyStr.len contenido) L
       ∧ ((L <? PyStr.len contenido) = true ↔ L < PyStr.len contenido))
  ∧ (¬ supported_document ruta →
     ∃ r w', leer_documento ruta L w = (inr r, w') ∧ is_Failure r).
Proof.
  split.
  - intros contenido Hdoc HL.
    destruct (document_text_exists w ruta contenido Hdoc) as [bytes Hfile].
    destruct (run_document_text ruta contenido w Hdoc) as (w1 & Hread & Hclock).
    destruct (slice_to_nonneg contenido L HL) as [Htake Hlen].
    unfold leer_documento. cbv zeta.
    erewrite run_try_ok.
    2:{ erewrite run_bind_ok by (eapply run_validate_exists; exact Hfile).
        erewrite run_bind_ok by exact Hread.
        rewrite run_success. reflexivity. }
    eexists _, _. split; [reflexivity |].
    split; [exact Htake |]. split; [exact Hlen | apply Z.ltb_lt].
  - intros Hnot. unfold leer_documento. cbv zeta.
    apply always_fails_at_boundary.
    apply fails_bind_r; [intros ?; reflexivity | intros _].
    apply fails_bind_l.
    rewrite bool_decide_eq_false_2 by (intros Hp; apply Hnot; left; exact Hp).
    rewrite bool_decide_eq_false_2 by (intros Hp; apply Hnot; right; exact Hp).
    apply fails_raise.
Qed.

Lemma leer_documento_truncates_witness :
  ∃ message w',
    leer_documento Demo.notas_txt 4 Demo.world
    = (inr (success_of (VDict (documento_data "hola mundo" 4)) message w'), w')
    ∧ PyStr.slice_to "hola mundo" 4
      = PyStr.take (Z.to_nat (Z.min (PyStr.len "hola mundo") 4)) "hola mundo"
    ∧ PyStr.len (PyStr.slice_to "hola mundo" 4) = Z.min (PyStr.len "hola mundo") 4
    ∧ ((4 <? PyStr.len "hola mundo") = true ↔ 4 < PyStr.len "hola mundo").
Proof.
  apply (proj1 (leer_documento_truncates Demo.notas_txt 4 Demo.world)
           "hola mundo").
  - apply (plain_text Demo.world Demo.notas_txt "hola mundo" "hola mundo").
    + vm_compute. constructor.
    + vm_compute. reflexivity.
    + reflexivity.
    + reflexivity.
  - lia.
Defined.

Section Truncation.
Context `{Env}.

Lemma documento_data_reports (contenido : string) (L : Z) :
  reports_truncation (documento_data contenido L)
    (PyStr.len contenido) (PyStr.len (PyStr.slice_to contenido L))
    (L <? PyStr.len contenido).
Proof.
  exists "longitud_total", "longitud_retornada", "fue_truncado".
  split; [discriminate |]. repeat split; reflexivity.
Qed.

(** The data of the web extraction holds one integer, the original
    length, so no second length can be found in it. *)
Lemma web_data_one_length url contenido titulo selector_css k1 k2 n1 n2 :
  (∀ n, titulo ≠ VInt n) → k1 ≠ k2 →
  dict_get k1 (web_data url contenido titulo selector_css) = Some (VInt n1) →
  dict_get k2 (web_data url contenido titulo selector_css) = Some (VInt n2) →
  False.
Proof.
  intros Htitulo Hne H1 H2. unfold web_data, dict_get in H1, H2.
  destruct selector_css; cbn [opt_str] in *;
    repeat (case_decide; simplify_eq; try discriminate);
    try (eapply Htitulo; reflexivity).
Qed.

Lemma run_extraer_contenido_web (url : string) (resp : Response) (w : World) :
  download_succeeds url resp →
  let soup := soup_parse (resp_text resp) in
  let w1 := add_event (Call "BeautifulSoup" url)
              (add_event (Call "httpx.AsyncClient.get" url) w) in
  extraer_contenido_web url None w
  = (inr (success_of
            (VDict (web_data url (soup_get_text soup)
                      (default (VStr "Sin título") (soup_title soup)) None))
            "Contenido web extraído exitosamente" w1), w1).
Proof.
  intros [Hget Hstatus]. cbv zeta. unfold extraer_contenido_web.
  erewrite run_try_ok; [reflexivity |].
  erewrite run_bind_ok by (apply run_client_get; eassumption).
  rewrite run_bind, run_note. cbv iota beta zeta.
  rewrite run_bind. change ((mret ?x : M string) ?w) with (@inr Exception string x, w).
  cbv iota beta. rewrite run_success. reflexivity.
Qed.

End Truncation.

(** C6, as the code has it: [leer_documento] reports in its Success data
    the original length, the returned length and the truncation flag
    (next to the truncated content); [extraer_contenido_web] reports the
    content cut to 10,000 characters and the original length only: its
    data has the five keys url, contenido, longitud_total, titulo and
    selector_usado, with no returned length and no flag. *)
Theorem truncation_reporting `{Env} :
  (∀ ruta L w r w',
     leer_documento ruta L w = (inr r, w') → is_Success r →
     ∃ contenido,
       dict_get "data" r = Some (VDict (documento_data contenido L))
       ∧ reports_truncation (documento_data contenido L)
           (PyStr.len contenido) (PyStr.len (PyStr.slice_to contenido L))
           (L <? PyStr.len contenido))
  ∧ (∀ url selector_css w r w',
       extraer_contenido_web url selector_css w = (inr r, w') → is_Success r →
       ∃ contenido titulo,
         dict_get "data" r
         = Some (VDict (web_data url contenido titulo selector_css))
         ∧ dict_keys (web_data url contenido titulo selector_css)
           = ["url"; "contenido"; "longitud_total"; "titulo"; "selector_usado"]).
Proof.
  split.
  - intros ruta L w r w' Hrun Hs. unfold leer_documento in Hrun.
    eapply (success_from_body
              (λ r, ∃ contenido,
                 dict_get "data" r = Some (VDict (documento_data contenido L))
                 ∧ reports_truncation (documento_data contenido L)
                     (PyStr.len contenido)
                     (PyStr.len (PyStr.slice_to contenido L))
                     (L <? PyStr.len contenido)));
      [| exact Hrun | exact Hs].
    cbv zeta. apply returns_bind; intros _. apply returns_bind; intros contenido.
    apply returns_at_success; intros w0. exists contenido.
    split; [reflexivity | apply documento_data_reports].
  - intros url selector_css w r w' Hrun Hs. unfold extraer_contenido_web in Hrun.
    eapply (success_from_body
              (λ r, ∃ contenido titulo,
                 dict_get "data" r
                 = Some (VDict (web_data url contenido titulo selector_css))
                 ∧ dict_keys (web_data url contenido titulo selector_css)
                   = ["url"; "contenido"; "longitud_total"; "titulo";
                      "selector_usado"]));
      [| exact Hrun | exact Hs].
    apply returns_bind; intros response. apply returns_bind; intros _.
    cbv zeta. apply returns_bind; intros contenido.
    apply returns_at_success; intros w0. eexists contenido, _.
    split; reflexivity.
Qed.

Lemma truncation_reporting_witness :
  (∃ r w',
     leer_documento Demo.notas_txt 4 Demo.world = (inr r, w')
     ∧ is_Success r
     ∧ ∃ contenido,
         dict_get "data" r = Some (VDict (documento_data contenido 4))
         ∧ reports_truncation (documento_data contenido 4)
             (PyStr.len contenido) (PyStr.len (PyStr.slice_to contenido 4))
             (4 <? PyStr.len contenido))
  ∧ (∃ r w',
       extraer_contenido_web "http://ejemplo.test" None Demo.world = (inr r, w')
       ∧ is_Success r
       ∧ ∃ contenido titulo,
           dict_get "data" r
           = Some (VDict (web_data "http://ejemplo.test" contenido titulo None))
           ∧ dict_keys (web_data "http://ejemplo.test" contenido titulo None)
             = ["url"; "contenido"; "longitud_total"; "titulo";
                "selector_usado"]).
Proof.
  split.
  - eexists _, _. split; [vm_compute; reflexivity |].
    split; [eexists _, _, _; reflexivity |].
    eapply (proj1 truncation_reporting Demo.notas_txt 4 Demo.world).
    + vm_compute. reflexivity.
    + eexists _, _, _. reflexivity.
  - eexists _, _. split; [vm_compute; reflexivity |].
    split; [eexists _, _, _; reflexivity |].
    eapply (proj2 truncation_reporting "http://ejemplo.test" None Demo.world).
    + vm_compute. reflexivity.
    + eexists _, _, _. reflexivity.
Defined.

(** C6 as stated fails: the page at [Demo.url_larga] has 10,001
    characters of text, [extraer_contenido_web] returns a Success whose
    content was cut, and its data reports no truncation: no original
    length, truncated length and flag can be read from it. *)
Lemma web_truncation_unreported :
  ∃ data message w',
    extraer_contenido_web Demo.url_larga None Demo.world
    = (inr (success_of (VDict data) message w'), w')
    ∧ dict_get "longitud_total" data = Some (VInt 10001)
    ∧ dict_get "contenido" data
      = Some (VStr (PyStr.take (Z.to_nat 10000) Demo.texto_largo))
    ∧ ¬ ∃ original returned truncated,
          reports_truncation data original returned truncated.
Proof.
  eexists _, _, _. split.
  { apply (run_extraer_contenido_web Demo.url_larga
             (Demo.pagina_de Demo.texto_largo) Demo.world).
    split; reflexivity. }
  split; [vm_compute; reflexivity |].
  split; [reflexivity |].
  intros (original & returned & truncated & k1 & k2 & k3 & Hne & H1 & H2 & _).
  eapply web_data_one_length; [| exact Hne | exact H1 | exact H2].
  intros n. discriminate.
Qed.

(** ** Format conversion *)

Section Suffixes.

Lemma name_suffix_split (name : string) :
  name_suffix name ≠ "" →
  PyStr.take (String.length name - String.length (name_suffix name)) name
  +:+ name_suffix name = name.
Proof.
  unfold name_suffix. destruct (PyStr.rfind "." name) as [i |]; [| congruence].
  destruct ((0 <? i)%nat && (i <? String.length name - 1)%nat) eqn:Hcond;
    [| congruence].
  intros _. apply andb_true_iff in Hcond as [_ Hi]. apply Nat.ltb_lt in Hi.
  unfold PyStr.slice_from. rewrite drop_length.
  replace (String.length name - (String.length name - i))%nat with i by lia.
  apply take_drop.
Qed.

Lemma replace_last_name (p : Path) :
  path_name p ≠ "" → replace_last (path_name p) (parts p) = parts p.
Proof.
  unfold path_name, replace_last. intros Hname.
  destruct (last (parts p)) as [x |] eqn:Hlast; [| cbn in Hname; congruence].
  apply last_Some in Hlast as [l' Hl]. rewrite Hl. cbn [default].
  rewrite removelast_last. reflexivity.
Qed.

Lemma suffix_needs_name (p : Path) : path_suffix p ≠ "" → path_name p ≠ "".
Proof. unfold path_suffix. intros Hs Hn. rewrite Hn in Hs. apply Hs. reflexivity. Qed.




Lemma take_all (s : string) : PyStr.take (String.length s) s = s.
Proof. induction s as [| c s IH]; [reflexivity |]. cbn. rewrite IH. reflexivity. Qed.

(** What [with_suffix] returns is the path with its extension replaced:
    same directory, the stem of the name followed by the new suffix. *)
Lemma with_suffix_extension repr (p out : Path) (suffix : string) :
  with_suffix repr p suffix = inr out → out = with_extension p suffix.
Proof.
  unfold with_suffix, with_extension, replace_last, path_stem. intros Hout.
  destruct (PyStr.mem "/" suffix); [discriminate |].
  destruct (_ || _); [discriminate |].
  case_bool_decide as Hname; [discriminate |].
  injection Hout as <-. f_equal. f_equal. f_equal.
  case_bool_decide as Hold; [| reflexivity].
  rewrite Hold. cbn [String.length]. rewrite Nat.sub_0_r, take_all.
  reflexivity.
Qed.

(** The stem and the suffix make up the name. *)
Lemma path_stem_suffix (p : Path) : path_stem p +:+ path_suffix p = path_name p.
Proof.
  unfold path_stem. destruct (decide (path_suffix p = "")) as [Hs | Hs].
  - rewrite Hs. cbn [String.length]. rewrite Nat.sub_0_r, take_all.
    clear Hs. induction (path_name p) as [| c n IH]; [reflexivity |].
    change (String c n +:+ "") with (String c (n +:+ "")). rewrite IH.
    reflexivity.
  - apply name_suffix_split, Hs.
Qed.

End Suffixes.

Section Conversion.
Context `{Env}.

Lemma write_bytes_outcome (p : Path) (content : string) (w : World) :
  (∃ e, write_bytes p content w = (inl e, w))
  ∨ write_bytes p content w
    = (inr tt, set_fs (<[path_str p := File content]> (fs w)) w).
Proof.
  unfold write_bytes, os_check. rewrite run_bind.
  destruct (os_fault OsWrite (path_str p)) as [e |]; [left; eauto |].
  change ((mret tt : M unit) w) with (@inr Exception unit tt, w). cbv iota beta.
  rewrite run_bind. cbn [get_world].
  destruct (fs_lookup w p) as [[c |] |];
    destruct (fs_lookup w (path_parent p)) as [[c' |] |];
    first [right; reflexivity | left; eexists; reflexivity].
Qed.

(** A pandas writer changes nothing, or leaves the output file with what
    it wrote before it raised, or writes the frame. *)
Lemma df_to_outcome writer df (out : Path) opts (w : World) :
  (∃ e w', df_to writer df out opts w = (inl e, w') ∧ fs w' = fs w)
  ∨ (∃ partial e w',
       df_write writer df opts = Aborted partial e
       ∧ df_to writer df out opts w = (inl e, w')
       ∧ fs w' = <[path_str out := File partial]> (fs w))
  ∨ (∃ bytes w',
       df_write writer df opts = Written bytes
       ∧ df_to writer df out opts w = (inr tt, w')
       ∧ fs w' = <[path_str out := File bytes]> (fs w)).
Proof.
  unfold df_to. rewrite run_bind, run_note. cbv iota beta.
  destruct (df_write writer df opts) as [bytes | e | partial e].
  - match goal with
    | |- context [write_bytes ?p ?c ?w1] =>
        destruct (write_bytes_outcome p c w1) as [[e Hw] | Hw]
    end.
    + left. eexists _, _. split; [exact Hw | reflexivity].
    + right. right. eexists _, _. split; [reflexivity |].
      split; [exact Hw | reflexivity].
  - left. eexists _, _. split; reflexivity.
  - rewrite run_bind.
    match goal with
    | |- context [write_bytes ?p ?c ?w1] =>
        destruct (write_bytes_outcome p c w1) as [[e' ->] | ->]
    end.
    + left. eexists _, _. split; reflexivity.
    + right. left. eexists _, _, _. split; [reflexivity |].
      split; reflexivity.
Qed.



(** The [if]/[elif] over the target format: a supported format goes to
    its pandas writer, any other raises. *)
Lemma convert_dispatch formato df (out : Path) opts :
  (if bool_decide (formato = "json") then df_to "json" df out opts
   else if bool_decide (formato = "csv") then df_to "csv" df out opts
   else if bool_decide (formato = "xlsx") then df_to "excel" df out opts
   else if bool_decide (formato = "parquet") then df_to "parquet" df out opts
   else raise (mkExc ValueError
                 ("Formato '" +:+ formato +:+ "' no soportado. Use: "
                  +:+ py_repr (VList (VStr <$> formatos_soportados)))))
  = if bool_decide (formato ∈ formatos_soportados)
    then df_to (writer_name formato) df out opts
    else raise (mkExc ValueError
                  ("Formato '" +:+ formato +:+ "' no soportado. Use: "
                   +:+ py_repr (VList (VStr <$> formatos_soportados)))).
Proof.
  destruct (decide (formato = "json")) as [-> | H1]; [reflexivity |].
  destruct (decide (formato = "csv")) as [-> | H2]; [reflexivity |].
  destruct (decide (formato = "xlsx")) as [-> | H3]; [reflexivity |].
  destruct (decide (formato = "parquet")) as [-> | H4]; [reflexivity |].
  rewrite !bool_decide_eq_false_2 by assumption.
  rewrite bool_decide_eq_false_2; [reflexivity |].
  unfold formatos_soportados. intros Hin.
  repeat (apply elem_of_cons in Hin; destruct Hin as [-> | Hin];
          [congruence |]).
  inversion Hin.
Qed.

Lemma read_dataframe_has_suffix (p : Path) (w : World) df w1 :
  FileHandler.read_dataframe p w = (inr df, w1) → path_suffix p ≠ "".
Proof.
  intros Hrun Hs. unfold FileHandler.read_dataframe in Hrun.
  rewrite Hs, run_bind in Hrun.
  destruct (FileHandler.validate_file_exists p w) as [[e | []] w0];
    discriminate.
Qed.

End Conversion.




(** A writer that raises with the output open loses the input of an
    in-place conversion: the handler answers with a Failure and the
    input file is left empty. *)
Example aborted_conversion_empties_input :
  ∃ r w',
    @convertir_formato_datos Demo.escritor_abortado Demo.datos_csv "csv" None
      Demo.world
    = (inr r, w')
    ∧ is_Failure r
    ∧ fs w' = <[path_str Demo.datos_csv := File ""]> (fs Demo.world).
Proof.
  eexists _, _. split; [vm_compute; reflexivity |].
  split; [eexists _, _, _; reflexivity | reflexivity].
Qed.

(** Extensions are compared as written: an input named [VENTAS.CSV] is
    read as CSV, and its conversion to csv goes to [VENTAS.csv]. *)
Example with_suffix_is_case_sensitive :
  with_suffix Demo.str_repr (mkPath true ["datos"; "VENTAS.CSV"]) ".csv"
  = inr (mkPath true ["datos"; "VENTAS.csv"]).
Proof. reflexivity. Qed.

(** * Further properties of the handlers *)

(** ** What the handlers log *)

Section Quiet.
Context `{Env} {X : Type} (obs : World → X).
Hypothesis obs_event : ∀ ev w, obs (add_event ev w) = obs w.
Hypothesis obs_fs : ∀ f w, obs (set_fs f w) = obs w.

Lemma keeps_try_except {A} (body : M A) (handler : Exception → M A) :
  keeps obs body → (∀ e, keeps obs (handler e)) →
  keeps obs (try_except body handler).
Proof.
  intros Hb Hh w. unfold try_except. specialize (Hb w).
  destruct (body w) as [[e | x] w1]; cbn in *; [| exact Hb].
  rewrite Hh. exact Hb.
Qed.

Lemma keeps_note fn arg : keeps obs (note fn arg).
Proof. apply keeps_modify. intros w. apply obs_event. Qed.

Lemma keeps_mkdir_chain target chain : keeps obs (mkdir_chain target chain).
Proof.
  induction chain as [| q rest IH]; [apply keeps_ret |].
  cbn [mkdir_chain]. apply keeps_bind; [apply keeps_get_world | intros w0].
  destruct (fs_lookup w0 q) as [[c |] |]; [apply keeps_raise | exact IH |].
  apply keeps_bind; [apply keeps_modify; intros; apply obs_fs | intros _; exact IH].
Qed.

End Quiet.

Ltac quiet_step :=
  lazymatch goal with
  | |- keeps _ (_ ≫= _) => apply keeps_bind; [| intros]
  | |- keeps _ (mret _) => apply keeps_ret
  | |- keeps _ (raise _) => apply keeps_raise
  | |- keeps _ (lift _) => apply keeps_lift
  | |- keeps _ get_world => apply keeps_get_world
  | |- keeps _ (note _ _) => apply keeps_note; intros; reflexivity
  | |- keeps _ (modify _) => apply keeps_modify; intros; reflexivity
  | |- keeps _ (mkdir_chain _ _) => apply keeps_mkdir_chain; intros; reflexivity
  | |- keeps _ (try_except _ _) => apply keeps_try_except; [| intros]
  | |- keeps _ (let _ := _ in _) => cbv zeta
  | |- keeps _ (match ?x with _ => _ end) => destruct x
  | |- keeps _ _ =>
      progress unfold FileHandler.validate_file_exists, FileHandler.read_dataframe,
        FileHandler.pd_read_file, FileHandler.validate_columns,
        ResponseFormatter.success, ResponseFormatter.now_isoformat,
        path_exists, path_stat, path_is_file, path_is_dir, os_check,
        read_text, read_bytes, write_text, write_bytes, mkdir_parents,
        _extract_pdf_text, _create_plotly_figure, px_call, write_html,
        client_get, df_to
  end.

Section Logging.
Context `{Env}.

(** A body that never logs, inside the handler's [try]/[except]: one
    line is logged exactly when the handler answers with a Failure. *)
Lemma logs_at_boundary (body : M Dict) (what : string) (w : World) r w' :
  keeps log body → returns is_Success body →
  try_except body (on_exception what) w = (inr r, w') →
  (is_Success r ∧ log w' = log w)
  ∨ (∃ error,
       is_Failure r ∧ dict_get "error" r = Some (VStr error)
       ∧ log w' = log w ++ [what +:+ ": " +:+ error])%list.
Proof.
  intros Hquiet Hret Hrun. unfold try_except in Hrun.
  pose proof (Hquiet w) as Hlog.
  destruct (body w) as [[e | r0] w1] eqn:Hb; cbn [snd] in Hlog.
  - rewrite run_on_exception in Hrun. injection Hrun as <- <-.
    right. exists (exc_msg e). split; [apply failure_of_is_Failure |].
    split; [reflexivity |]. cbn [log add_log]. rewrite Hlog. reflexivity.
  - injection Hrun as <- <-. left. split; [eapply Hret, Hb | exact Hlog].
Qed.

End Logging.

(** X1: a handler logs exactly when it fails: a call that ends in a
    Success envelope leaves the log as it was, and a call that ends in a
    Failure envelope appends one line, the handler's label followed by
    the error string of the envelope. *)
Theorem failures_are_logged `{Env} (c : ToolCall) (w : World) r w' :
  invoke c w = (inr r, w') →
  (is_Success r ∧ log w' = log w)
  ∨ (∃ error,
       is_Failure r ∧ dict_get "error" r = Some (VStr error)
       ∧ log w' = log w ++ [error_label c +:+ ": " +:+ error])%list.
Proof.
  destruct c; cbn [invoke error_label];
    [ unfold analizar_archivo | unfold crear_archivo | unfold leer_documento
    | unfold analizar_datos | unfold tabla_dinamica_avanzada
    | unfold crear_visualizacion | unfold buscar_repositorios_github
    | unfold extraer_contenido_web | unfold descargar_archivo_web
    | unfold convertir_formato_datos ];
    (apply logs_at_boundary; [repeat quiet_step | repeat rs_step]).
Qed.

Lemma failures_are_logged_witness :
  ∃ r w',
    invoke (AnalizarDatos Demo.ausente None) Demo.world = (inr r, w')
    ∧ ((is_Success r ∧ log w' = log Demo.world)
       ∨ (∃ error,
            is_Failure r ∧ dict_get "error" r = Some (VStr error)
            ∧ log w'
              = log Demo.world
                ++ [error_label (AnalizarDatos Demo.ausente None)
                    +:+ ": " +:+ error])%list).
Proof.
  eexists _, _. split; [vm_compute; reflexivity |].
  apply (failures_are_logged (AnalizarDatos Demo.ausente None) Demo.world).
  vm_compute. reflexivity.
Defined.

(** ** Creating files and directories *)

Section Creating.
Context `{Env}.

Lemma fs_lookup_mono (w w1 : World) (a : Path) (node : Node) :
  fs w ⊆ fs w1 → fs_lookup w a = Some node → fs_lookup w1 a = Some node.
Proof.
  unfold fs_lookup. intros Hsub. destruct (parts a); [auto |].
  intros Hl. eapply lookup_weaken; eassumption.
Qed.

Lemma fs_lookup_written (w : World) (f : gmap string Node) (p : Path) node :
  parts p ≠ [] →
  fs_lookup (set_fs (<[path_str p := node]> f) w) p = Some node.
Proof.
  intros Hparts. unfold fs_lookup. destruct (parts p); [congruence |].
  cbn [fs set_fs]. apply lookup_insert_eq.
Qed.

(** [mkdir_chain] only adds directories: what was there stays, and on a
    normal return every path of the chain is a directory. *)
Lemma mkdir_chain_grows target chain (w w' : World) :
  mkdir_chain target chain w = (inr tt, w') →
  fs w ⊆ fs w' ∧ Forall (λ a, fs_lookup w' a = Some Dir) chain.
Proof.
  revert w. induction chain as [| q rest IH]; intros w Hrun.
  - injection Hrun as <-. split; [reflexivity | constructor].
  - cbn [mkdir_chain] in Hrun. rewrite run_bind in Hrun. cbn [get_world] in Hrun.
    destruct (fs_lookup w q) as [[c |] |] eqn:Hq; [discriminate | |].
    + destruct (IH w Hrun) as [Hsub Hall]. split; [exact Hsub |].
      constructor; [eapply fs_lookup_mono; eassumption | exact Hall].
    + rewrite run_bind in Hrun. cbn [modify] in Hrun.
      destruct (IH _ Hrun) as [Hsub Hall].
      assert (Hparts : parts q ≠ []).
      { intros Hnil. unfold fs_lookup in Hq. rewrite Hnil in Hq. discriminate. }
      assert (Hnone : fs w !! path_str q = None).
      { unfold fs_lookup in Hq. destruct (parts q); [congruence | exact Hq]. }
      split.
      * etransitivity; [apply insert_subseteq; exact Hnone | exact Hsub].
      * constructor; [| exact Hall].
        eapply fs_lookup_mono; [exact Hsub |].
        apply (fs_lookup_written w (fs w) q Dir Hparts).
Qed.

Lemma mkdir_parents_grows (q : Path) (w w' : World) :
  mkdir_parents q w = (inr tt, w') → fs w ⊆ fs w'.
Proof.
  unfold mkdir_parents, os_check. rewrite run_bind.
  destruct (os_fault OsMkdir (path_str q)); [discriminate |].
  intros Hrun. apply (mkdir_chain_grows q (path_chain q) w w' Hrun).
Qed.

(** A write that returns has replaced the file, in a directory that
    exists, at a path that is no directory. *)
Lemma write_bytes_inv (p : Path) (content : string) (w w' : World) :
  write_bytes p content w = (inr tt, w') →
  w' = set_fs (<[path_str p := File content]> (fs w)) w
  ∧ parts p ≠ []
  ∧ fs_lookup w (path_parent p) = Some Dir
  ∧ fs_lookup w p ≠ Some Dir.
Proof.
  unfold write_bytes, os_check. rewrite run_bind.
  destruct (os_fault OsWrite (path_str p)); [discriminate |].
  change ((mret tt : M unit) w) with (@inr Exception unit tt, w). cbv iota beta.
  rewrite run_bind. cbn [get_world].
  intros Hrun.
  assert (Hnodir : fs_lookup w p ≠ Some Dir).
  { intros Hd. rewrite Hd in Hrun. discriminate. }
  assert (Hparts : parts p ≠ []).
  { intros Hnil. apply Hnodir. unfold fs_lookup. rewrite Hnil. reflexivity. }
  destruct (fs_lookup w p) as [[c |] |];
    destruct (fs_lookup w (path_parent p)) as [[c' |] |];
    try discriminate; try congruence;
    injection Hrun as <-; auto.
Qed.

(** After a write to [p] its directory is still a directory. *)
Lemma parent_survives_write (p : Path) (content : string) (w : World) :
  parts p ≠ [] →
  fs_lookup w (path_parent p) = Some Dir → fs_lookup w p ≠ Some Dir →
  fs_lookup (set_fs (<[path_str p := File content]> (fs w)) w) (path_parent p)
  = Some Dir.
Proof.
  intros Hparts Hparent Hnodir. unfold fs_lookup in *.
  destruct (parts (path_parent p)) eqn:Hpp; [reflexivity |].
  destruct (parts p) eqn:Hp; [congruence |].
  cbn [fs set_fs]. rewrite lookup_insert_ne; [exact Hparent |].
  intros Heq. apply Hnodir. rewrite Heq. exact Hparent.
Qed.

End Creating.

(** X2: when [crear_archivo] answers with a Success envelope, the file
    at [ruta] holds exactly the encoded content, its directory exists,
    every other entry that was in the file system is still there
    unchanged, and the reported size is the number of encoded bytes. *)
Theorem crear_archivo_creates `{Env}
    (ruta : Path) (contenido encoding : string) (w : World) r w' :
  crear_archivo ruta contenido encoding w = (inr r, w') → is_Success r →
  ∃ encoded,
    encode encoding contenido = inr encoded
    ∧ fs_lookup w' ruta = Some (File encoded)
    ∧ fs_lookup w' (path_parent ruta) = Some Dir
    ∧ (∀ k node, k ≠ path_str ruta →
         fs w !! k = Some node → fs w' !! k = Some node)
    ∧ dict_get "data" r
      = Some (VDict [("ruta", VStr (path_str ruta));
                     ("tamaño", VInt (PyStr.len encoded))]).
Proof.
  intros Hrun Hs. unfold crear_archivo, try_except in Hrun. cbv zeta in Hrun.
  match type of Hrun with
  | match ?body w with _ => _ end = _ => destruct (body w) as [[e | r0] w0] eqn:Hb
  end.
  { rewrite run_on_exception in Hrun. injection Hrun as <- _.
    destruct (Success_not_Failure _ Hs (failure_of_is_Failure e w0)). }
  injection Hrun as <- <-. clear Hs.
  rewrite run_bind in Hb.
  destruct (mkdir_parents (path_parent ruta) w) as [[e | []] w1] eqn:Hmk;
    [discriminate |].
  apply mkdir_parents_grows in Hmk.
  rewrite run_bind in Hb. unfold write_text in Hb. rewrite run_bind in Hb.
  destruct (write_bytes ruta "" w1) as [[e | []] w2] eqn:Hw1; [discriminate |].
  apply write_bytes_inv in Hw1 as (-> & Hparts & Hparent & Hnodir).
  rewrite run_bind, run_lift in Hb.
  destruct (encode encoding contenido) as [e | encoded] eqn:Henc;
    [discriminate |].
  cbv iota beta in Hb.
  match type of Hb with
  | context [write_bytes ruta encoded ?w2] =>
      destruct (write_bytes ruta encoded w2) as [[e | []] w3] eqn:Hw2;
        [discriminate |]
  end.
  apply write_bytes_inv in Hw2 as (-> & _ & Hparent2 & _).
  cbv iota beta in Hb. rewrite run_bind, run_lift in Hb. cbv iota beta in Hb.
  rewrite run_success in Hb. injection Hb as <- <-.
  exists encoded. split; [reflexivity |].
  split; [apply fs_lookup_written, Hparts |].
  split.
  { cbn [fs set_fs]. rewrite insert_insert_eq.
    apply (parent_survives_write ruta encoded w1 Hparts Hparent Hnodir). }
  split; [| reflexivity].
  intros k node Hk Hin. cbn [fs set_fs].
  rewrite !lookup_insert_ne by congruence.
  eapply lookup_weaken; eassumption.
Qed.

Lemma crear_archivo_creates_witness :
  let ruta := mkPath true ["nuevo"; "dir"; "a.txt"] in
  ∃ r w',
    crear_archivo ruta "abc" "utf-8" Demo.world = (inr r, w')
    ∧ is_Success r
    ∧ ∃ encoded,
        encode "utf-8" "abc" = inr encoded
        ∧ fs_lookup w' ruta = Some (File encoded)
        ∧ fs_lookup w' (path_parent ruta) = Some Dir
        ∧ (∀ k node, k ≠ path_str ruta →
             fs Demo.world !! k = Some node → fs w' !! k = Some node)
        ∧ dict_get "data" r
          = Some (VDict [("ruta", VStr (path_str ruta));
                         ("tamaño", VInt (PyStr.len encoded))]).
Proof.
  cbv zeta. eexists _, _. split; [vm_compute; reflexivity |].
  split; [eexists _, _, _; reflexivity |].
  eapply (crear_archivo_creates (mkPath true ["nuevo"; "dir"; "a.txt"])
            "abc" "utf-8" Demo.world).
  - vm_compute. reflexivity.
  - eexists _, _, _. reflexivity.
Defined.

(** ** Downloads *)

Section Downloads.
Context `{Env}.

Lemma client_get_inv url params (w : World) resp w1 :
  client_get url params w = (inr resp, w1) →
  http_get url params = inr resp ∧ resp_raise_for_status resp = None
  ∧ fs w1 = fs w.
Proof.
  unfold client_get. rewrite run_bind, run_note. cbv iota beta.
  rewrite run_bind, run_lift.
  destruct (http_get url params) as [e | resp0]; [discriminate |].
  cbv iota beta. destruct (resp_raise_for_status resp0) eqn:Hst; [discriminate |].
  intros Hrun. injection Hrun as <- <-. auto.
Qed.

Lemma client_get_fails {X} (obs : World → X) url params e :
  (∀ ev w, obs (add_event ev w) = obs w) →
  http_get url params = inl e
  ∨ (∃ resp, http_get url params = inr resp
             ∧ resp_raise_for_status resp = Some e) →
  fails_keeping obs (client_get url params).
Proof.
  intros Hobs Hfail w. unfold client_get.
  rewrite run_bind, run_note. cbv iota beta. rewrite run_bind, run_lift.
  destruct Hfail as [-> | (resp & -> & Hst)]; cbv iota beta.
  - eexists. split; [reflexivity | apply Hobs].
  - rewrite Hst. eexists. split; [reflexivity | apply Hobs].
Qed.

End Downloads.

(** X3: when [descargar_archivo_web] answers with a Success envelope,
    the server answered the request without an error status, the
    destination holds exactly the bytes of the response, its directory
    exists, and every other entry of the file system is still there
    unchanged; the data of the envelope is the url, the destination as
    [archivo_destino], the number of bytes of the response, that number
    as [_format_file_size] renders it, and the content-type header of
    the response, "desconocido" when it has none. *)
Theorem descargar_stores_download `{Env}
    (url : string) (ruta_destino : Path) (sobrescribir : bool) (w : World) r w' :
  descargar_archivo_web url ruta_destino sobrescribir w = (inr r, w') →
  is_Success r →
  ∃ resp,
    http_get url [] = inr resp
    ∧ resp_raise_for_status resp = None
    ∧ fs_lookup w' ruta_destino = Some (File (resp_content resp))
    ∧ fs_lookup w' (path_parent ruta_destino) = Some Dir
    ∧ (∀ k node, k ≠ path_str ruta_destino →
         fs w !! k = Some node → fs w' !! k = Some node)
    ∧ ∃ legible,
        _format_file_size (PyStr.len (resp_content resp)) = inr legible
        ∧ dict_get "data" r
          = Some (VDict
                    [("url", VStr url);
                     ("archivo_destino", VStr (path_str ruta_destino));
                     ("tamaño_bytes", VInt (PyStr.len (resp_content resp)));
                     ("tamaño_legible", VStr legible);
                     ("tipo_contenido",
                      VStr (default "desconocido"
                              (resp_header resp "content-type")))]).
Proof.
  intros Hrun Hs. unfold descargar_archivo_web, try_except in Hrun.
  cbv zeta in Hrun.
  match type of Hrun with
  | match ?body w with _ => _ end = _ => destruct (body w) as [[e | r0] w0] eqn:Hb
  end.
  { rewrite run_on_exception in Hrun. injection Hrun as <- _.
    destruct (Success_not_Failure _ Hs (failure_of_is_Failure e w0)). }
  injection Hrun as <- <-. clear Hs.
  rewrite run_bind, run_path_exists in Hb. rewrite run_bind in Hb.
  match type of Hb with
  | context [if ?b then raise _ else _] => destruct b; [discriminate |]
  end.
  change ((mret tt : M unit) w) with (@inr Exception unit tt, w) in Hb.
  cbv iota beta in Hb. rewrite run_bind in Hb.
  destruct (client_get url [] w) as [[e | resp] w1] eqn:Hget; [discriminate |].
  apply client_get_inv in Hget as (Hget & Hstatus & Hfs1).
  rewrite run_bind in Hb.
  destruct (mkdir_parents (path_parent ruta_destino) w1) as [[e | []] w2] eqn:Hmk;
    [discriminate |].
  apply mkdir_parents_grows in Hmk. rewrite Hfs1 in Hmk.
  rewrite run_bind in Hb.
  destruct (write_bytes ruta_destino (resp_content resp) w2)
    as [[e | []] w3] eqn:Hwr; [discriminate |].
  apply write_bytes_inv in Hwr as (-> & Hparts & Hparent & Hnodir).
  rewrite run_bind, run_lift in Hb.
  destruct (_format_file_size (PyStr.len (resp_content resp)))
    as [e | legible] eqn:Hsize; [discriminate |].
  cbv iota beta in Hb. rewrite run_success in Hb. injection Hb as <- <-.
  exists resp. split; [exact Hget |]. split; [exact Hstatus |].
  split; [apply fs_lookup_written, Hparts |].
  split; [apply parent_survives_write; assumption |].
  split.
  - intros k node Hk Hin. cbn [fs set_fs].
    rewrite lookup_insert_ne by congruence.
    eapply lookup_weaken; eassumption.
  - exists legible. split; [exact Hsize | reflexivity].
Qed.

Lemma descargar_stores_download_witness :
  let destino := mkPath true ["descargas"; "nuevo"; "pagina.html"] in
  ∃ r w',
    descargar_archivo_web "http://ejemplo.test" destino false Demo.world
    = (inr r, w')
    ∧ is_Success r
    ∧ ∃ resp,
        http_get "http://ejemplo.test" [] = inr resp
        ∧ resp_raise_for_status resp = None
        ∧ fs_lookup w' destino = Some (File (resp_content resp))
        ∧ fs_lookup w' (path_parent destino) = Some Dir
        ∧ (∀ k node, k ≠ path_str destino →
             fs Demo.world !! k = Some node → fs w' !! k = Some node)
        ∧ ∃ legible,
            _format_file_size (PyStr.len (resp_content resp)) = inr legible
            ∧ dict_get "data" r
              = Some (VDict
                        [("url", VStr "http://ejemplo.test");
                         ("archivo_destino", VStr (path_str destino));
                         ("tamaño_bytes",
                          VInt (PyStr.len (resp_content resp)));
                         ("tamaño_legible", VStr legible);
                         ("tipo_contenido",
                          VStr (default "desconocido"
                                  (resp_header resp "content-type")))]).
Proof.
  cbv zeta. eexists _, _. split; [vm_compute; reflexivity |].
  split; [eexists _, _, _; reflexivity |].
  eapply (descargar_stores_download "http://ejemplo.test"
            (mkPath true ["descargas"; "nuevo"; "pagina.html"]) false
            Demo.world).
  - vm_compute. reflexivity.
  - eexists _, _, _. reflexivity.
Defined.

(** X4: when the request fails (the client raises, or the response has
    an error status), [descargar_archivo_web] answers with a Failure
    envelope and the file system is exactly as before: no file is
    written and no directory is created. *)
Theorem failed_download_touches_nothing `{Env}
    (url : string) (ruta_destino : Path) (sobrescribir : bool) (e : Exception)
    (w : World) :
  http_get url [] = inl e
  ∨ (∃ resp, http_get url [] = inr resp ∧ resp_raise_for_status resp = Some e) →
  ∃ r w',
    descargar_archivo_web url ruta_destino sobrescribir w = (inr r, w')
    ∧ is_Failure r ∧ fs w' = fs w.
Proof.
  intros Hfail. unfold descargar_archivo_web. cbv zeta.
  apply (fails_at_boundary fs); [reflexivity |].
  apply fails_bind_r; [intros ?; reflexivity | intros ex].
  apply fails_bind_r.
  { destruct (ex && negb sobrescribir); [apply keeps_raise | apply keeps_ret]. }
  intros _. apply fails_bind_l.
  apply (client_get_fails fs url [] e); [reflexivity | exact Hfail].
Qed.

Lemma failed_download_touches_nothing_witness :
  ∃ r w',
    @descargar_archivo_web Demo.offline "http://ejemplo.test"
      (mkPath true ["descargas"; "pagina.html"]) false Demo.world = (inr r, w')
    ∧ is_Failure r ∧ fs w' = fs Demo.world.
Proof.
  apply (@failed_download_touches_nothing Demo.offline "http://ejemplo.test"
           (mkPath true ["descargas"; "pagina.html"]) false
           (mkExc (OtherException "ConnectError") "All connection attempts failed")
           Demo.world).
  left. reflexivity.
Defined.

(** ** Output paths *)

Section OutputPaths.

Lemma app_eq_self (a s : string) : a +:+ s = a → s = "".
Proof.
  induction a as [| c a IH]; [auto |].
  intros Heq. apply IH.
  change (String c (a +:+ s) = String c a) in Heq. congruence.
Qed.

Lemma join_snoc (sep : string) (init : list string) (x : string) :
  PyStr.join sep (init ++ [x])
  = match init with
    | [] => ""
    | _ => PyStr.join sep init +:+ sep
    end +:+ x.
Proof.
  induction init as [| a rest IH]; [reflexivity |].
  destruct rest as [| b r].
  - cbn [app PyStr.join]. rewrite str_app_assoc. reflexivity.
  - change (a +:+ sep +:+ PyStr.join sep ((b :: r) ++ [x])
            = ((a +:+ sep +:+ PyStr.join sep (b :: r)) +:+ sep) +:+ x).
    rewrite IH. rewrite !str_app_assoc. reflexivity.
Qed.

Lemma path_str_snoc (a : bool) (init : list string) (x : string) :
  path_str (mkPath a (init ++ [x])) = path_prefix a init +:+ x.
Proof.
  unfold path_str, path_prefix. cbn [anchored parts].
  rewrite join_snoc. destruct a.
  - rewrite !str_app_assoc. reflexivity.
  - destruct init; reflexivity.
Qed.

Lemma parts_split (p : Path) :
  path_name p ≠ "" → parts p = (removelast (parts p) ++ [path_name p])%list.
Proof.
  intros Hname. rewrite <- (replace_last_name p Hname) at 1. reflexivity.
Qed.

(** Replacing the suffix by a different one gives a different path. *)
Lemma path_str_split (p : Path) :
  path_name p ≠ "" →
  path_str p
  = path_prefix (anchored p) (removelast (parts p)) +:+ path_name p.
Proof.
  intros Hname. rewrite <- path_str_snoc. f_equal.
  destruct p as [a l]. cbn [anchored parts]. f_equal.
  apply (parts_split (mkPath a l) Hname).
Qed.

(** Replacing the suffix by a different one gives a different path. *)
Lemma with_suffix_moves repr (p out : Path) (suffix : string) :
  with_suffix repr p suffix = inr out → path_suffix p ≠ suffix →
  path_str out ≠ path_str p.
Proof.
  unfold with_suffix. intros Hout Hdiff.
  destruct (PyStr.mem "/" suffix); [discriminate |].
  destruct (_ || _); [discriminate |].
  case_bool_decide as Hname; [discriminate |].
  injection Hout as <-.
  rewrite (path_str_split p Hname). unfold replace_last.
  rewrite path_str_snoc. intros Heq. apply (inj (String.append _)) in Heq.
  case_bool_decide as Hold.
  - apply app_eq_self in Heq. congruence.
  - rewrite <- (name_suffix_split (path_name p) Hold) in Heq at 3.
    apply (inj (String.append _)) in Heq.
    apply Hdiff. symmetry. exact Heq.
Qed.

End OutputPaths.

(** ** Column validation *)

Section Columns.
Context `{Env}.

Lemma missing_columns_strs (df : DataFrame) (cols : list string) :
  FileHandler.missing_columns df (VStr <$> cols)
  = inr (VStr <$> filter (λ c, c ∉ df_columns df) cols).
Proof.
  induction cols as [| c rest IH]; [reflexivity |].
  cbn [fmap list_fmap FileHandler.missing_columns FileHandler.in_columns].
  change (list_fmap string PyVal VStr rest) with (VStr <$> rest).
  cbn [mbind Result_bind]. rewrite IH. cbn [mbind Result_bind].
  rewrite filter_cons. case_bool_decide as Hin.
  - rewrite decide_False by (intros Hn; apply Hn, Hin). reflexivity.
  - rewrite decide_True by exact Hin. reflexivity.
Qed.

Lemma py_join_strs (sep : string) (l : list string) :
  py_join sep (VStr <$> l) = inr (PyStr.join sep l).
Proof.
  unfold py_join.
  assert (Hmap : mapM (λ v, match v with
                            | VStr s => inr s
                            | _ => inl (mkExc TypeError
                                          ("sequence item: expected str instance, "
                                           +:+ type_name v +:+ " found"))
                            end) (VStr <$> l) = inr l).
  { induction l as [| x l IH]; [reflexivity |].
    cbn [fmap list_fmap mapM]. cbn [mbind Result_bind].
    change (list_fmap string PyVal VStr l) with (VStr <$> l).
    rewrite IH. reflexivity. }
  rewrite Hmap. reflexivity.
Qed.

Lemma run_validate_columns (df : DataFrame) (cols : list string) (w : World) :
  FileHandler.validate_columns df (VList (VStr <$> cols)) w
  = (match filter (λ c, c ∉ df_columns df) cols with
     | [] => inr tt
     | missing => inl (mkExc ValueError
                         ("Columnas no encontradas: "
                          +:+ PyStr.join ", " missing))
     end, w).
Proof.
  unfold FileHandler.validate_columns. rewrite run_bind, run_lift.
  cbn [py_iter]. rewrite run_bind, run_lift, missing_columns_strs.
  destruct (filter _ cols) as [| m rest] eqn:Hmissing; [reflexivity |].
  rewrite py_join_strs. cbn [fmap list_fmap].
  rewrite run_bind, run_lift. reflexivity.
Qed.

End Columns.

(** X5: [FileHandler.validate_columns] on a list of column names passes
    exactly when all of them are columns of the frame; otherwise it
    raises a ValueError whose message lists the missing names, in the
    order given, separated by ", ".  It changes nothing in the world. *)
Theorem validate_columns_reports_missing `{Env}
    (df : DataFrame) (cols : list string) (w : World) :
  FileHandler.validate_columns df (VList (VStr <$> cols)) w
  = (match filter (λ c, c ∉ df_columns df) cols with
     | [] => inr tt
     | missing => inl (mkExc ValueError
                         ("Columnas no encontradas: "
                          +:+ PyStr.join ", " missing))
     end, w).
Proof. apply run_validate_columns. Qed.

Example validate_columns_two_missing :
  FileHandler.validate_columns Demo.ventas
    (VList [VStr "mes"; VStr "region"; VStr "canal"]) Demo.world
  = (inl (mkExc ValueError "Columnas no encontradas: mes, canal"), Demo.world).
Proof. reflexivity. Qed.

(** ** Pivot tables *)

(** From a handler call that ended in Success to the normal return of
    its body. *)
Lemma success_inv `{Env} (body : M Dict) what (w : World) r w' :
  try_except body (on_exception what) w = (inr r, w') → is_Success r →
  body w = (inr r, w').
Proof.
  intros Hrun Hs. unfold try_except in Hrun.
  destruct (body w) as [[e | r0] w0]; [| exact Hrun].
  rewrite run_on_exception in Hrun. injection Hrun as <- _.
  destruct (Success_not_Failure _ Hs (failure_of_is_Failure e w0)).
Qed.

(** One step back through a bind that returned. *)
Ltac bind_inv H :=
  rewrite run_bind in H;
  match type of H with
  | match ?m ?w with _ => _ end = _ =>
      let Hstep := fresh "Hstep" in
      destruct (m w) as [[? | ?] ?] eqn:Hstep; [discriminate H |];
      cbv iota beta in H
  end.

Section Pivot.
Context `{Env}.

Lemma dict_get_set_eq k v (d : Dict) : dict_get k (dict_set k v d) = Some v.
Proof.
  induction d as [| [k' v'] d IH]; cbn [dict_set dict_get].
  - rewrite decide_True by reflexivity. reflexivity.
  - destruct (decide (k = k')) as [-> | Hne]; cbn [dict_get].
    + rewrite decide_True by reflexivity. reflexivity.
    + rewrite decide_False by exact Hne. exact IH.
Qed.

Lemma dict_get_set_ne k k' v (d : Dict) :
  k ≠ k' → dict_get k (dict_set k' v d) = dict_get k d.
Proof.
  intros Hne. induction d as [| [k0 v0] d IH]; cbn [dict_set dict_get].
  - rewrite decide_False by exact Hne. reflexivity.
  - destruct (decide (k' = k0)) as [-> | Hne0]; cbn [dict_get].
    + rewrite !decide_False by exact Hne. reflexivity.
    + destruct (decide (k = k0)); [reflexivity | exact IH].
Qed.

(** The dict comprehension over the aggregation functions: every
    function asked for is a key, bound to its own table. *)
Lemma pivot_by_func_keys (pivot : Pivot) (aggfunc : list string) (acc d : Dict) :
  pivot_by_func pivot aggfunc acc = inr d →
  (∀ f, f ∈ aggfunc →
        ∃ v, pv_getitem pivot f = inr v ∧ dict_get f d = Some v)
  ∧ (∀ k, k ∉ aggfunc → dict_get k d = dict_get k acc).
Proof.
  revert acc. induction aggfunc as [| f rest IH]; intros acc Hrun.
  - injection Hrun as <-. split; [intros f Hf; inversion Hf | auto].
  - cbn [pivot_by_func] in Hrun. cbn [mbind Result_bind] in Hrun.
    destruct (pv_getitem pivot f) as [e | v] eqn:Hget; [discriminate |].
    destruct (IH _ Hrun) as [Hin Hout]. split.
    + intros f' Hf'. destruct (decide (f' ∈ rest)) as [Hr | Hr]; [auto |].
      apply elem_of_cons in Hf' as [-> | Hf']; [| contradiction].
      exists v. split; [exact Hget |].
      rewrite (Hout f Hr). apply dict_get_set_eq.
    + intros k Hk. apply not_elem_of_cons in Hk as [Hne Hk].
      rewrite (Hout k Hk). apply dict_get_set_ne, Hne.
Qed.

Lemma valid_function_passes (f : string) :
  f ∈ funciones_validas → filter (λ f, f ∉ funciones_validas) [f] = [].
Proof.
  intros Hf. rewrite filter_cons, decide_False by (intros Hn; apply Hn, Hf).
  reflexivity.
Qed.

End Pivot.

(** X6: in [tabla_dinamica_avanzada] the columns are checked before the
    aggregation functions: on a readable dataset, when an index, pivot or
    value column is missing the handler answers with a Failure whose
    error lists the missing columns (index columns first, then pivot
    columns, then the value column), whatever the aggregation argument,
    and [DataFrame.pivot_table] is not called. *)
Theorem missing_columns_reported_first `{Env}
    (ruta : Path) (index_cols columns_cols : StrOrList) (values_col : string)
    (aggfunc : StrOrList) (fill_value : option pynum) (w : World) df w1 :
  FileHandler.read_dataframe ruta w = (inr df, w1) →
  filter (λ c, c ∉ df_columns df)
    (as_list index_cols ++ as_list columns_cols ++ [values_col])%list ≠ [] →
  ∃ r w',
    tabla_dinamica_avanzada ruta index_cols columns_cols values_col aggfunc
      fill_value w = (inr r, w')
    ∧ is_Failure r
    ∧ dict_get "error" r
      = Some (VStr ("Columnas no encontradas: "
                    +:+ PyStr.join ", "
                          (filter (λ c, c ∉ df_columns df)
                             (as_list index_cols ++ as_list columns_cols
                              ++ [values_col])%list)))
    ∧ pivot_calls w' = pivot_calls w.
Proof.
  intros Hread Hmissing.
  pose proof (keeps_read_dataframe pivot_calls
                (λ p a w0 _, pivot_calls_note_read p a w0) ruta w) as Hk.
  rewrite Hread in Hk. cbn [snd] in Hk.
  destruct (filter _ _) as [| m rest] eqn:Hfil; [congruence |].
  unfold tabla_dinamica_avanzada. cbv zeta.
  erewrite run_try_raise.
  2:{ erewrite run_bind_ok by exact Hread.
      apply run_bind_raise. rewrite run_validate_columns, Hfil. reflexivity. }
  rewrite run_on_exception. eexists _, _. split; [reflexivity |].
  split; [apply failure_of_is_Failure |]. split; [reflexivity | exact Hk].
Qed.

Lemma missing_columns_reported_first_witness :
  ∃ r w',
    tabla_dinamica_avanzada Demo.datos_csv (OneStr "mes") (OneStr "producto")
      "importe" (OneStr "moda") None Demo.world = (inr r, w')
    ∧ is_Failure r
    ∧ dict_get "error" r
      = Some (VStr ("Columnas no encontradas: "
                    +:+ PyStr.join ", "
                          (filter (λ c, c ∉ df_columns Demo.ventas)
                             (as_list (OneStr "mes")
                              ++ as_list (OneStr "producto")
                              ++ ["importe"])%list)))
    ∧ pivot_calls w' = pivot_calls Demo.world.
Proof.
  eapply (missing_columns_reported_first Demo.datos_csv (OneStr "mes")
            (OneStr "producto") "importe" (OneStr "moda") None Demo.world
            Demo.ventas).
  - vm_compute. reflexivity.
  - vm_compute. discriminate.
Defined.

(** X7: with a readable dataset, all referenced columns present and one
    valid aggregation function given as a plain string,
    [tabla_dinamica_avanzada] calls [DataFrame.pivot_table] exactly once,
    with the string arguments normalised to one-element lists, and
    answers with a Success whose table is [pivot.to_dict()] and whose
    metadata echoes the normalised arguments and the table's shape. *)
Theorem single_function_pivot `{Env}
    (ruta : Path) (index_cols columns_cols : StrOrList) (values_col f : string)
    (fill_value : option pynum) (w : World) df w1 pivot :
  FileHandler.read_dataframe ruta w = (inr df, w1) →
  filter (λ c, c ∉ df_columns df)
    (as_list index_cols ++ as_list columns_cols ++ [values_col])%list = [] →
  f ∈ funciones_validas →
  pivot_table df (as_list index_cols) (as_list columns_cols) values_col [f]
    fill_value = inr pivot →
  ∃ w',
    tabla_dinamica_avanzada ruta index_cols columns_cols values_col (OneStr f)
      fill_value w
    = (inr (success_of
              (VDict
                 [("tabla_dinamica", pv_to_dict pivot);
                  ("metadata",
                   VDict [("index_columnas", VList (VStr <$> as_list index_cols));
                          ("columnas_pivote", VList (VStr <$> as_list columns_cols));
                          ("columna_valores", VStr values_col);
                          ("funciones_agregacion", VList [VStr f]);
                          ("dimensiones", pv_shape pivot)])])
              "Tabla dinámica creada exitosamente" w'), w')
    ∧ trace w' = (trace w1 ++ [Call "DataFrame.pivot_table" (path_str ruta)])%list.
Proof.
  intros Hread Hcols Hf Hpivot.
  unfold tabla_dinamica_avanzada. cbv zeta. cbn [as_list].
  eexists. erewrite run_try_ok.
  2:{ erewrite run_bind_ok by exact Hread.
      erewrite run_bind_ok by (rewrite run_validate_columns, Hcols; reflexivity).
      rewrite (valid_function_passes f Hf).
      rewrite run_bind.
      change ((mret tt : M unit) w1) with (@inr Exception unit tt, w1).
      cbv iota beta. rewrite run_bind, run_note. cbv iota beta.
      rewrite run_bind, run_lift, Hpivot. cbv iota beta.
      rewrite run_bind. cbn [length bool_decide decide_rel].
      rewrite bool_decide_eq_true_2 by reflexivity.
      change ((mret ?x : M PyVal) ?w0) with (@inr Exception PyVal x, w0).
      cbv iota beta. rewrite run_success. reflexivity. }
  split; reflexivity.
Qed.

Lemma single_function_pivot_witness :
  ∃ w',
    tabla_dinamica_avanzada Demo.datos_csv (OneStr "region") (OneStr "producto")
      "ventas" (OneStr "sum") None Demo.world
    = (inr (success_of
              (VDict
                 [("tabla_dinamica", VDict []);
                  ("metadata",
                   VDict [("index_columnas", VList [VStr "region"]);
                          ("columnas_pivote", VList [VStr "producto"]);
                          ("columna_valores", VStr "ventas");
                          ("funciones_agregacion", VList [VStr "sum"]);
                          ("dimensiones", VList [VInt 2; VInt 2])])])
              "Tabla dinámica creada exitosamente" w'), w')
    ∧ trace w'
      = (trace (add_event (Call "pd.read_csv" "/datos/ventas.csv") Demo.world)
         ++ [Call "DataFrame.pivot_table" (path_str Demo.datos_csv)])%list.
Proof.
  apply (single_function_pivot Demo.datos_csv (OneStr "region")
           (OneStr "producto") "ventas" "sum" None Demo.world Demo.ventas
           (add_event (Call "pd.read_csv" "/datos/ventas.csv") Demo.world)
           (mkPivot (VDict []) (λ _, inr (VDict [])) (VList [VInt 2; VInt 2]))).
  - vm_compute. reflexivity.
  - vm_compute. reflexivity.
  - unfold funciones_validas. repeat constructor.
  - reflexivity.
Defined.

(** X8: when [tabla_dinamica_avanzada] is given several aggregation
    functions (a list that is not of length one) and answers with a
    Success, the table in its data is a dict with one key per function
    asked for, each bound to that function's own part of the pivot
    table. *)
Theorem multi_function_pivot_keys `{Env}
    (ruta : Path) (index_cols columns_cols : StrOrList) (values_col : string)
    (funcs : list string) (fill_value : option pynum) (w : World) r w' :
  tabla_dinamica_avanzada ruta index_cols columns_cols values_col
    (StrList funcs) fill_value w = (inr r, w') →
  is_Success r → length funcs ≠ 1%nat →
  ∃ df w1 pivot d metadata,
    FileHandler.read_dataframe ruta w = (inr df, w1)
    ∧ pivot_table df (as_list index_cols) (as_list columns_cols) values_col
        funcs fill_value = inr pivot
    ∧ dict_get "data" r
      = Some (VDict [("tabla_dinamica", VDict d); ("metadata", metadata)])
    ∧ ∀ f, f ∈ funcs →
           ∃ v, pv_getitem pivot f = inr v ∧ dict_get f d = Some v.
Proof.
  intros Hrun Hs Hlen. unfold tabla_dinamica_avanzada in Hrun.
  apply success_inv in Hrun; [| exact Hs]. clear Hs. cbv zeta in Hrun.
  cbn [as_list] in Hrun.
  bind_inv Hrun. bind_inv Hrun. bind_inv Hrun.
  rewrite run_bind, run_note in Hrun. cbv iota beta in Hrun.
  bind_inv Hrun. rewrite run_lift in Hstep2.
  rewrite bool_decide_eq_false_2 in Hrun by exact Hlen.
  bind_inv Hrun. bind_inv Hstep3. rewrite run_lift in Hstep4.
  injection Hstep3 as <- <-. rewrite run_success in Hrun.
  injection Hrun as <- _. injection Hstep4 as Hby _. injection Hstep2 as Hpv _.
  eexists _, _, _, _, _. split; [reflexivity |]. split; [exact Hpv |].
  split; [reflexivity |].
  apply (pivot_by_func_keys _ _ [] _ Hby).
Qed.

Lemma multi_function_pivot_keys_witness :
  ∃ r w',
    tabla_dinamica_avanzada Demo.datos_csv (OneStr "region") (OneStr "producto")
      "ventas" (StrList ["sum"; "mean"]) None Demo.world = (inr r, w')
    ∧ is_Success r
    ∧ ∃ df w1 pivot d metadata,
        FileHandler.read_dataframe Demo.datos_csv Demo.world = (inr df, w1)
        ∧ pivot_table df (as_list (OneStr "region")) (as_list (OneStr "producto"))
            "ventas" ["sum"; "mean"] None = inr pivot
        ∧ dict_get "data" r
          = Some (VDict [("tabla_dinamica", VDict d); ("metadata", metadata)])
        ∧ ∀ f, f ∈ ["sum"; "mean"] →
               ∃ v, pv_getitem pivot f = inr v ∧ dict_get f d = Some v.
Proof.
  eexists _, _. split; [vm_compute; reflexivity |].
  split; [eexists _, _, _; reflexivity |].
  eapply (multi_function_pivot_keys Demo.datos_csv (OneStr "region")
            (OneStr "producto") "ventas" ["sum"; "mean"] None Demo.world).
  - vm_compute. reflexivity.
  - eexists _, _, _. reflexivity.
  - cbn. lia.
Defined.

(** ** Charts *)

Section Charts.
Context `{Env}.

Lemma keeps_create_figure {X} (obs : World → X) df tipo config :
  (∀ ev w, obs (add_event ev w) = obs w) →
  keeps obs (_create_plotly_figure df tipo config).
Proof.
  intros Hobs. unfold _create_plotly_figure, px_call.
  apply keeps_bind; [apply keeps_lift | intros columnas; cbv zeta].
  repeat lazymatch goal with
         | |- keeps _ (if bool_decide ?P then _ else _) =>
             destruct (bool_decide P)
         | |- keeps _ (_ ≫= _) => apply keeps_bind; [| intros]
         | |- keeps _ (lift _) => apply keeps_lift
         | |- keeps _ (raise _) => apply keeps_raise
         | |- keeps _ (note _ _) => apply keeps_modify; intros; apply Hobs
         end.
Qed.

Lemma write_html_outcome (fig : Figure) (path : Path) (w : World) :
  (∃ e w', write_html fig path w = (inl e, w') ∧ fs w' = fs w)
  ∨ (∃ html w',
       fig_to_html fig = inr html
       ∧ write_html fig path w = (inr tt, w')
       ∧ fs w' = <[path_str path := File html]> (fs w)).
Proof.
  unfold write_html. rewrite run_bind, run_note. cbv iota beta.
  rewrite run_bind, run_lift.
  destruct (fig_to_html fig) as [e | html];
    [left; eexists _, _; split; reflexivity |].
  match goal with
  | |- context [write_bytes ?p ?c ?w1] =>
      destruct (write_bytes_outcome p c w1) as [[e ->] | ->]
  end.
  - left. eexists _, _. split; reflexivity.
  - right. eexists _, _. split; [reflexivity |]. split; reflexivity.
Qed.

(** A dataset that [read_dataframe] reads has one of its extensions. *)
Lemma read_dataframe_suffix (p : Path) (w : World) df w1 :
  FileHandler.read_dataframe p w = (inr df, w1) →
  PyStr.lower (path_suffix p) ∈ [".csv"; ".xlsx"; ".xls"; ".json"].
Proof.
  unfold FileHandler.read_dataframe. rewrite run_bind.
  destruct (FileHandler.validate_file_exists p w) as [[e | []] w0];
    [discriminate |].
  case_bool_decide as H1; [rewrite H1; repeat constructor |].
  case_bool_decide as H2.
  { intros _. apply elem_of_cons in H2 as [-> | H2]; [repeat constructor |].
    apply elem_of_cons in H2 as [-> | H2]; [repeat constructor | inversion H2]. }
  case_bool_decide as H3; [rewrite H3; repeat constructor | discriminate].
Qed.

(** The chart handler writes at most one file, the [.html] sibling of
    its input. *)
Lemma crear_visualizacion_frame (ruta : Path) tipo configuracion (w : World) :
  ∃ r w',
    crear_visualizacion ruta tipo configuracion w = (inr r, w')
    ∧ ((is_Failure r ∧ fs w' = fs w)
       ∨ ∃ df w1 fig0 w2 fig salida html,
           FileHandler.read_dataframe ruta w = (inr df, w1)
           ∧ _create_plotly_figure df tipo configuracion w1 = (inr fig0, w2)
           ∧ update_layout fig0
               (default (VStr ("Gráfico " +:+ tipo))
                  (dict_get "titulo" configuracion))
               (default (VStr "plotly") (dict_get "template" configuracion))
             = inr fig
           ∧ fig_to_html fig = inr html
           ∧ with_suffix repr_str ruta ".html" = inr salida
           ∧ fs w' = <[path_str salida := File html]> (fs w)
           ∧ r = success_of
                   (VDict [("archivo_salida", VStr (path_str salida));
                           ("tipo_grafico", VStr tipo);
                           ("columnas_utilizadas",
                            default VNone (dict_get "columnas" configuracion))])
                   ("Visualización " +:+ tipo +:+ " creada exitosamente") w').
Proof.
  unfold crear_visualizacion, try_except.
  pose proof (keeps_read_dataframe fs ltac:(reflexivity) ruta w) as Hk1.
  rewrite run_bind.
  destruct (FileHandler.read_dataframe ruta w) as [[e | df] w1];
    cbn [snd] in Hk1.
  { rewrite run_on_exception. eexists _, _. split; [reflexivity |]. left.
    split; [apply failure_of_is_Failure | exact Hk1]. }
  rewrite run_bind.
  destruct (dict_get "columnas" configuracion) as [columnas |].
  2:{ unfold raise at 1. cbv iota beta. rewrite run_on_exception.
      eexists _, _. split; [reflexivity |]. left.
      split; [apply failure_of_is_Failure | exact Hk1]. }
  change ((mret columnas : M PyVal) w1) with (@inr Exception PyVal columnas, w1).
  cbv iota beta. rewrite run_bind.
  pose proof (keeps_validate_columns (λ w0 : World, w0) df columnas w1) as Hk2.
  destruct (FileHandler.validate_columns df columnas w1) as [[e | []] w2];
    cbn [snd] in Hk2; subst w2.
  { rewrite run_on_exception. eexists _, _. split; [reflexivity |]. left.
    split; [apply failure_of_is_Failure | cbn [fs add_log]; congruence]. }
  rewrite run_bind.
  pose proof (keeps_create_figure fs df tipo configuracion
                ltac:(reflexivity) w1) as Hk3.
  destruct (_create_plotly_figure df tipo configuracion w1) as [[e | fig] w3]
    eqn:Hfig; cbn [snd] in Hk3.
  { rewrite run_on_exception. eexists _, _. split; [reflexivity |]. left.
    split; [apply failure_of_is_Failure | cbn [fs add_log]; congruence]. }
  cbv zeta. rewrite run_bind, run_lift.
  destruct (update_layout fig _ _) as [e | fig'] eqn:Hlayout.
  { rewrite run_on_exception. eexists _, _. split; [reflexivity |]. left.
    split; [apply failure_of_is_Failure | cbn [fs add_log]; congruence]. }
  cbv iota beta. rewrite run_bind, run_lift.
  destruct (with_suffix repr_str ruta ".html") as [e | salida] eqn:Hout.
  { rewrite run_on_exception. eexists _, _. split; [reflexivity |]. left.
    split; [apply failure_of_is_Failure | cbn [fs add_log]; congruence]. }
  cbv iota beta. rewrite run_bind.
  destruct (write_html_outcome fig' salida w3)
    as [(e & w4 & -> & Hfs) | (html & w4 & Hhtml & -> & Hfs)].
  { cbv iota beta. rewrite run_on_exception. eexists _, _.
    split; [reflexivity |]. left.
    split; [apply failure_of_is_Failure | cbn [fs add_log]; congruence]. }
  cbv iota beta. rewrite run_success. eexists _, _. split; [reflexivity |].
  right. exists df, w1, fig, w3, fig', salida, html.
  split; [reflexivity |]. split; [exact Hfig |]. split; [exact Hlayout |].
  split; [exact Hhtml |]. split; [reflexivity |].
  split; [congruence | reflexivity].
Qed.

End Charts.

(** X9: [crear_visualizacion] never modifies its input dataset: whatever
    the arguments and however the call ends, the entry of the file system
    at the input path is the same afterwards (the chart goes to the
    [.html] sibling, and no readable dataset has that extension). *)
Theorem crear_visualizacion_keeps_input `{Env}
    (ruta : Path) (tipo : string) (configuracion : Dict) (w : World) :
  ∃ r w',
    crear_visualizacion ruta tipo configuracion w = (inr r, w')
    ∧ fs w' !! path_str ruta = fs w !! path_str ruta.
Proof.
  destruct (crear_visualizacion_frame ruta tipo configuracion w)
    as (r & w' & Hrun
        & [[_ Hsame]
          | (df & w1 & fig0 & w2 & fig & salida & html
             & Hread & _ & _ & _ & Hout & Hfs & _)]).
  - exists r, w'. split; [exact Hrun |]. rewrite Hsame. reflexivity.
  - exists r, w'. split; [exact Hrun |]. rewrite Hfs.
    apply lookup_insert_ne.
    apply (with_suffix_moves repr_str ruta salida ".html" Hout).
    intros Hsfx. apply read_dataframe_suffix in Hread. rewrite Hsfx in Hread.
    repeat (apply elem_of_cons in Hread as [Heq | Hread]; [discriminate Heq |]).
    inversion Hread.
Qed.

(** X10: when [crear_visualizacion] answers with a Success envelope, the
    dataset was readable, [_create_plotly_figure] built a figure from it,
    [update_layout] gave it the title and template of the configuration
    (by default "Gráfico <tipo>" and "plotly"), and the only change to
    the file system is that the HTML rendering of that figure now is the
    file at the input path with its extension replaced by [.html] (same
    directory, the stem of the input name followed by [.html]); that path
    is what the data reports as the output file. *)
Theorem crear_visualizacion_writes_html `{Env}
    (ruta : Path) (tipo : string) (configuracion : Dict) (w : World) r w' :
  crear_visualizacion ruta tipo configuracion w = (inr r, w') →
  is_Success r →
  ∃ df w1 fig0 w2 fig html data,
    FileHandler.read_dataframe ruta w = (inr df, w1)
    ∧ _create_plotly_figure df tipo configuracion w1 = (inr fig0, w2)
    ∧ update_layout fig0
        (default (VStr ("Gráfico " +:+ tipo)) (dict_get "titulo" configuracion))
        (default (VStr "plotly") (dict_get "template" configuracion))
      = inr fig
    ∧ fig_to_html fig = inr html
    ∧ fs w' = <[path_str (with_extension ruta ".html") := File html]> (fs w)
    ∧ dict_get "data" r = Some (VDict data)
    ∧ dict_get "archivo_salida" data
      = Some (VStr (path_str (with_extension ruta ".html"))).
Proof.
  intros Hrun Hs.
  destruct (crear_visualizacion_frame ruta tipo configuracion w)
    as (r0 & w0 & Hrun0 & Hcases).
  rewrite Hrun in Hrun0. injection Hrun0 as <- <-.
  destruct Hcases
    as [[Hf _]
       | (df & w1 & fig0 & w2 & fig & salida & html
          & Hread & Hfig & Hlayout & Hhtml & Hout & Hfs & ->)].
  - destruct (Success_not_Failure r Hs Hf).
  - apply with_suffix_extension in Hout. subst salida.
    eexists df, w1, fig0, w2, fig, html, _.
    split; [exact Hread |]. split; [exact Hfig |]. split; [exact Hlayout |].
    split; [exact Hhtml |]. split; [exact Hfs |].
    split; reflexivity.
Qed.

Lemma crear_visualizacion_writes_html_witness :
  ∃ r w',
    crear_visualizacion Demo.datos_csv "bar"
      [("columnas", VList [VStr "region"; VStr "ventas"])] Demo.world
    = (inr r, w')
    ∧ is_Success r
    ∧ ∃ df w1 fig0 w2 fig html data,
        FileHandler.read_dataframe Demo.datos_csv Demo.world = (inr df, w1)
        ∧ _create_plotly_figure df "bar"
            [("columnas", VList [VStr "region"; VStr "ventas"])] w1
          = (inr fig0, w2)
        ∧ update_layout fig0 (VStr "Gráfico bar") (VStr "plotly") = inr fig
        ∧ fig_to_html fig = inr html
        ∧ fs w'
          = <[path_str (mkPath true ["datos"; "ventas.html"]) := File html]>
              (fs Demo.world)
        ∧ dict_get "data" r = Some (VDict data)
        ∧ dict_get "archivo_salida" data = Some (VStr "/datos/ventas.html").
Proof.
  eexists _, _. split; [vm_compute; reflexivity |].
  split; [eexists _, _, _; reflexivity |].
  eapply (crear_visualizacion_writes_html Demo.datos_csv "bar"
            [("columnas", VList [VStr "region"; VStr "ventas"])] Demo.world).
  - vm_compute. reflexivity.
  - eexists _, _, _. reflexivity.
Defined.

(** X11: the bar, line, scatter and pie charts need two columns: with a
    readable dataset and a [columnas] list of one (existing) column,
    [crear_visualizacion] answers with a Failure whose error is Python's
    "list index out of range"; no plotly function is called and nothing
    is written. *)
Theorem chart_needs_two_columns `{Env}
    (ruta : Path) (tipo c : string) (configuracion : Dict) (w : World) df w1 :
  FileHandler.read_dataframe ruta w = (inr df, w1) →
  tipo ∈ ["bar"; "line"; "scatter"; "pie"] →
  dict_get "columnas" configuracion = Some (VList [VStr c]) →
  c ∈ df_columns df →
  ∃ r w',
    crear_visualizacion ruta tipo configuracion w = (inr r, w')
    ∧ is_Failure r
    ∧ dict_get "error" r = Some (VStr "list index out of range")
    ∧ fs w' = fs w ∧ trace w' = trace w1.
Proof.
  intros Hread Htipo Hcols Hc.
  pose proof (keeps_read_dataframe fs ltac:(reflexivity) ruta w) as Hk.
  rewrite Hread in Hk. cbn [snd] in Hk.
  assert (Hval : FileHandler.validate_columns df (VList [VStr c]) w1
                 = (inr tt, w1)).
  { change (VList [VStr c]) with (VList (VStr <$> [c])).
    rewrite (run_validate_columns df [c] w1).
    rewrite filter_cons, decide_False by (intros Hn; apply Hn, Hc).
    reflexivity. }
  assert (Hfig : _create_plotly_figure df tipo configuracion w1
                 = (inl (mkExc IndexError "list index out of range"), w1)).
  { unfold _create_plotly_figure. rewrite run_bind, run_lift.
    unfold py_item. rewrite Hcols. cbv iota beta zeta.
    repeat (apply elem_of_cons in Htipo as [-> | Htipo]; [reflexivity |]).
    inversion Htipo. }
  unfold crear_visualizacion.
  erewrite run_try_raise.
  2:{ erewrite run_bind_ok by exact Hread. rewrite Hcols.
      rewrite run_bind.
      change ((mret ?x : M PyVal) w1) with (@inr Exception PyVal x, w1).
      cbv iota beta. erewrite run_bind_ok by exact Hval.
      apply run_bind_raise. exact Hfig. }
  rewrite run_on_exception. eexists _, _. split; [reflexivity |].
  split; [apply failure_of_is_Failure |]. split; [reflexivity |].
  split; [exact Hk | reflexivity].
Qed.

Lemma chart_needs_two_columns_witness :
  ∃ r w',
    crear_visualizacion Demo.datos_csv "pie" [("columnas", VList [VStr "region"])]
      Demo.world = (inr r, w')
    ∧ is_Failure r
    ∧ dict_get "error" r = Some (VStr "list index out of range")
    ∧ fs w' = fs Demo.world
    ∧ trace w'
      = trace (add_event (Call "pd.read_csv" "/datos/ventas.csv") Demo.world).
Proof.
  apply (chart_needs_two_columns Demo.datos_csv "pie" "region"
           [("columnas", VList [VStr "region"])] Demo.world Demo.ventas
           (add_event (Call "pd.read_csv" "/datos/ventas.csv") Demo.world)).
  - vm_compute. reflexivity.
  - repeat constructor.
  - reflexivity.
  - unfold Demo.ventas. cbn [df_columns]. repeat constructor.
Defined.

(** ** Conversion and the input file *)

(** The conversion handler writes at most one file, the input path with
    the target extension. *)
Lemma convertir_frame `{Env}
    (entrada : Path) (formato : string) (opciones : option Dict) (w : World) :
  ∃ r w',
    convertir_formato_datos entrada formato opciones w = (inr r, w')
    ∧ (fs w' = fs w
       ∨ ∃ salida bytes,
           with_suffix repr_str entrada ("." +:+ formato) = inr salida
           ∧ fs w' = <[path_str salida := File bytes]> (fs w)).
Proof.
  pose proof (keeps_read_dataframe fs ltac:(reflexivity) entrada w) as Hk.
  unfold convertir_formato_datos. cbv zeta. unfold try_except.
  rewrite run_bind.
  destruct (FileHandler.read_dataframe entrada w) as [[e | df] w1];
    cbn [snd] in Hk.
  { rewrite run_on_exception. eexists _, _. split; [reflexivity |].
    left. exact Hk. }
  rewrite run_bind, run_lift.
  destruct (with_suffix repr_str entrada ("." +:+ formato))
    as [e | salida] eqn:Hout.
  { rewrite run_on_exception. eexists _, _. split; [reflexivity |].
    left. exact Hk. }
  cbv iota beta. rewrite run_bind, convert_dispatch.
  case_bool_decide as Hfmt.
  - match goal with
    | |- context [df_to ?wr ?d ?o ?opts w1] =>
        destruct (df_to_outcome wr d o opts w1)
          as [(e & w2 & -> & Hfs)
             | [(partial & e & w2 & _ & -> & Hfs)
               | (bytes & w2 & _ & -> & Hfs)]]
    end.
    + cbv iota beta. rewrite run_on_exception.
      eexists _, _. split; [reflexivity |].
      left. cbn [fs add_log]. congruence.
    + cbv iota beta. rewrite run_on_exception.
      eexists _, _. split; [reflexivity |]. right.
      exists salida, partial. split; [reflexivity |].
      cbn [fs add_log]. congruence.
    + cbv iota beta. rewrite run_success. eexists _, _.
      split; [reflexivity |]. right.
      exists salida, bytes. split; [reflexivity | congruence].
  - unfold raise at 1. cbv iota beta. rewrite run_on_exception.
    eexists _, _. split; [reflexivity |].
    left. exact Hk.
Qed.

(** X12: converting to a format whose extension differs from the
    input's never touches the input file: however the call ends, the
    entry of the file system at the input path is the same afterwards. *)
Theorem convertir_keeps_input_of_other_format `{Env}
    (entrada : Path) (formato : string) (opciones : option Dict) (w : World) :
  path_suffix entrada ≠ "." +:+ formato →
  ∃ r w',
    convertir_formato_datos entrada formato opciones w = (inr r, w')
    ∧ fs w' !! path_str entrada = fs w !! path_str entrada.
Proof.
  intros Hdiff.
  destruct (convertir_frame entrada formato opciones w)
    as (r & w' & Hrun & [Hsame | (salida & bytes & Hout & Hfs)]).
  - exists r, w'. split; [exact Hrun |]. rewrite Hsame. reflexivity.
  - exists r, w'. split; [exact Hrun |]. rewrite Hfs.
    apply lookup_insert_ne.
    apply (with_suffix_moves repr_str entrada salida _ Hout Hdiff).
Qed.

Lemma convertir_keeps_input_of_other_format_witness :
  ∃ r w',
    convertir_formato_datos Demo.datos_csv "json" None Demo.world = (inr r, w')
    ∧ fs w' !! path_str Demo.datos_csv = fs Demo.world !! path_str Demo.datos_csv.
Proof.
  apply (convertir_keeps_input_of_other_format Demo.datos_csv "json" None
           Demo.world).
  vm_compute. discriminate.
Defined.

(** ** Inspecting files *)

Section Inspect.
Context `{Env}.

Lemma run_path_is_file (p : Path) (w : World) :
  path_is_file p w
  = (inr (match fs_lookup w p with Some (File _) => true | _ => false end), w).
Proof. reflexivity. Qed.

Lemma run_path_is_dir (p : Path) (w : World) :
  path_is_dir p w
  = (inr (match fs_lookup w p with Some Dir => true | _ => false end), w).
Proof. reflexivity. Qed.

Lemma run_path_stat (p : Path) (node : Node) (w : World) :
  os_fault OsStat (path_str p) = None → fs_lookup w p = Some node →
  path_stat p w
  = (inr (mkStat (match node with
                  | File bytes => PyStr.len bytes
                  | Dir => dir_size (path_str p)
                  end) (st_ctime (path_str p)) (st_mtime (path_str p))), w).
Proof.
  intros Hok Hnode. unfold path_stat.
  rewrite run_bind, run_os_check_ok by exact Hok.
  rewrite run_bind. cbn [get_world]. rewrite Hnode.
  destruct node; reflexivity.
Qed.

(** Reading a file leaves the world as it is. *)
Lemma read_text_world (p : Path) (encoding : string) (w : World) :
  (read_text p encoding w).2 = w.
Proof.
  assert (Hk : keeps (λ w0 : World, w0) (read_text p encoding)).
  { unfold read_text, read_bytes, os_check. repeat keeps_step. }
  apply Hk.
Qed.

(** [analizar_archivo] on an existing path whose size can be taken. *)
Lemma run_analizar_archivo (p : Path) (node : Node) (legible : string) (w : World) :
  let size := match node with
              | File bytes => PyStr.len bytes
              | Dir => dir_size (path_str p)
              end in
  let es_archivo := match node with File _ => true | Dir => false end in
  let es_directorio := match node with File _ => false | Dir => true end in
  fs_lookup w p = Some node →
  os_fault OsStat (path_str p) = None →
  _format_file_size size = inr legible →
  let base : Dict :=
    [("nombre", VStr (path_name p));
     ("extension", VStr (path_suffix p));
     ("tamaño_bytes", VInt size);
     ("tamaño_legible", VStr legible);
     ("fecha_creacion", VStr (isoformat (st_ctime (path_str p))));
     ("fecha_modificacion", VStr (isoformat (st_mtime (path_str p))));
     ("es_archivo", VBool es_archivo);
     ("es_directorio", VBool es_directorio)] in
  let preview :=
    match (read_text p "utf-8" w).1 with
    | inr txt => PyStr.slice_to txt 1000
    | inl _ => "No se pudo leer el contenido"
    end in
  analizar_archivo p w
  = (inr (success_of
            (VDict
               (if es_archivo
                   && bool_decide (PyStr.lower (path_suffix p)
                                     ∈ [".txt"; ".md"; ".py"; ".json"])
                   && (size <? 10000)
                then dict_set "contenido_preview" (VStr preview) base
                else base))
            ("Archivo " +:+ path_name p +:+ " analizado exitosamente") w), w).
Proof.
  cbv zeta. intros Hnode Hstat Hfmt. unfold analizar_archivo.
  erewrite run_try_ok; [reflexivity |].
  erewrite run_bind_ok by (eapply run_validate_exists; exact Hnode).
  cbv zeta.
  erewrite run_bind_ok by (apply run_path_stat; eassumption).
  cbv iota beta zeta.
  rewrite run_bind, run_lift, Hfmt. cbv iota beta.
  rewrite run_bind, run_path_is_file, Hnode. cbv iota beta.
  rewrite run_bind, run_path_is_dir, Hnode. cbv iota beta.
  rewrite run_bind.
  destruct node as [bytes |]; cbn [andb]; [| reflexivity].
  destruct (bool_decide _ && _); [| reflexivity].
  unfold try_except at 1. rewrite run_bind.
  pose proof (read_text_world p "utf-8" w) as Hw.
  destruct (read_text p "utf-8" w) as [[e | txt] w1]; cbn [fst snd] in *;
    subst w1; reflexivity.
Qed.



End Inspect.




(** X14: a small text file that cannot be read as UTF-8 text (the read
    is refused, or its bytes do not decode) is still analysed:
    [analizar_archivo] answers with a Success whose preview is the fixed
    text "No se pudo leer el contenido" and whose size is the file's
    byte count. *)
Theorem unreadable_preview_still_succeeds `{Env}
    (archivo : Path) (bytes : string) (e : Exception) (w : World) :
  fs_lookup w archivo = Some (File bytes) →
  os_fault OsStat (path_str archivo) = None →
  PyStr.lower (path_suffix archivo) ∈ [".txt"; ".md"; ".py"; ".json"] →
  PyStr.len bytes < 10000 →
  os_fault OsRead (path_str archivo) = Some e
  ∨ (os_fault OsRead (path_str archivo) = None ∧ decode "utf-8" bytes = inl e) →
  ∃ data message,
    analizar_archivo archivo w = (inr (success_of (VDict data) message w), w)
    ∧ dict_get "contenido_preview" data
      = Some (VStr "No se pudo leer el contenido")
    ∧ dict_get "tamaño_bytes" data = Some (VInt (PyStr.len bytes)).
Proof.
  intros Hfile Hstat Hext Hsize Hread.
  destruct (format_file_size_total (PyStr.len bytes)) as [legible Hfmt].
  { assert (10000 < 2 ^ 1024) by (vm_compute; reflexivity).
    unfold PyStr.len in *. lia. }
  rewrite (run_analizar_archivo archivo (File bytes) legible w Hfile Hstat Hfmt).
  assert (Hfail : ∃ e0, (read_text archivo "utf-8" w).1 = inl e0).
  { unfold read_text, read_bytes. rewrite run_bind.
    destruct Hread as [Hos | [Hos Hdec]].
    - rewrite run_bind. unfold os_check. rewrite Hos. eexists. reflexivity.
    - rewrite run_bind, run_os_check_ok by exact Hos.
      rewrite run_bind. cbn [get_world]. rewrite Hfile. cbv iota beta.
      unfold mret, M_ret. cbv iota beta. rewrite run_lift, Hdec.
      eexists. reflexivity. }
  destruct Hfail as [e0 ->].
  cbn [andb]. rewrite bool_decide_eq_true_2 by exact Hext. cbn [andb].
  destruct (PyStr.len bytes <? 10000) eqn:Hlt; [| apply Z.ltb_ge in Hlt; lia].
  eexists _, _. split; [reflexivity |].
  split; [apply dict_get_set_eq |].
  rewrite dict_get_set_ne by discriminate. reflexivity.
Qed.

Lemma unreadable_preview_still_succeeds_witness :
  ∃ data message,
    @analizar_archivo Demo.undecodable Demo.notas_txt Demo.world
    = (inr (@success_of Demo.undecodable (VDict data) message Demo.world),
       Demo.world)
    ∧ dict_get "contenido_preview" data
      = Some (VStr "No se pudo leer el contenido")
    ∧ dict_get "tamaño_bytes" data = Some (VInt (PyStr.len "hola mundo")).
Proof.
  apply (@unreadable_preview_still_succeeds Demo.undecodable Demo.notas_txt
           "hola mundo"
           (mkExc UnicodeError "'utf-8' codec can't decode byte")
           Demo.world).
  - vm_compute. reflexivity.
  - reflexivity.
  - vm_compute. constructor.
  - vm_compute. reflexivity.
  - right. split; reflexivity.
Defined.

(** ** Reading datasets *)

Section Readers.
Context `{Env}.

Lemma run_pd_read_file (parser : string) (path : Path) (bytes : string) (w : World) :
  fs_lookup w path = Some (File bytes) →
  os_fault OsRead (path_str path) = None →
  FileHandler.pd_read_file parser path w
  = (pd_read parser bytes,
     add_event (Call ("pd.read_" +:+ parser) (path_str path)) w).
Proof.
  intros Hfile Hok. unfold FileHandler.pd_read_file.
  rewrite run_bind, run_note. cbv iota beta.
  erewrite run_bind_ok by (apply run_read_bytes; [exact Hok | exact Hfile]).
  reflexivity.
Qed.

End Readers.

(** X15: [FileHandler.read_dataframe] on a readable file whose extension,
    in lower case, is .csv, .xlsx, .xls or .json hands the bytes of the
    file to the pandas reader of that extension ([read_csv], [read_excel]
    for both Excel extensions, [read_json]) and returns or raises what the
    reader does, after noting the call. *)
Theorem read_dataframe_uses_reader `{Env}
    (path : Path) (bytes : string) (w : World) :
  fs_lookup w path = Some (File bytes) →
  os_fault OsRead (path_str path) = None →
  PyStr.lower (path_suffix path) ∈ [".csv"; ".xlsx"; ".xls"; ".json"] →
  let parser := pandas_reader (PyStr.lower (path_suffix path)) in
  FileHandler.read_dataframe path w
  = (pd_read parser bytes,
     add_event (Call ("pd.read_" +:+ parser) (path_str path)) w).
Proof.
  intros Hfile Hok Hext. cbv zeta. unfold FileHandler.read_dataframe.
  rewrite (run_bind_ok _ _ _ _ _ (run_validate_exists path _ w Hfile)).
  unfold pandas_reader.
  destruct (decide (PyStr.lower (path_suffix path) = ".csv")) as [Hcsv | Hcsv].
  { rewrite !bool_decide_eq_true_2 by exact Hcsv.
    apply run_pd_read_file; assumption. }
  rewrite !(bool_decide_eq_false_2 _ Hcsv).
  destruct (decide (PyStr.lower (path_suffix path) ∈ [".xlsx"; ".xls"]))
    as [Hxl | Hxl].
  { rewrite bool_decide_eq_true_2 by exact Hxl.
    rewrite bool_decide_eq_false_2.
    2:{ intros Heq. rewrite Heq in Hxl.
        repeat (apply elem_of_cons in Hxl as [Hd | Hxl]; [discriminate Hd |]).
        inversion Hxl. }
    apply run_pd_read_file; assumption. }
  rewrite (bool_decide_eq_false_2 _ Hxl).
  assert (PyStr.lower (path_suffix path) = ".json") as Hjson.
  { repeat (apply elem_of_cons in Hext as [Heq | Hext]);
      [congruence | | | exact Heq | inversion Hext];
      exfalso; apply Hxl; rewrite Heq; repeat constructor. }
  rewrite !bool_decide_eq_true_2 by exact Hjson.
  apply run_pd_read_file; assumption.
Qed.

Lemma read_dataframe_uses_reader_witness :
  FileHandler.read_dataframe (mkPath true ["datos"; "VENTAS.XLS"])
    (mkWorld (<["/datos/VENTAS.XLS" := File "bytes"]> ∅) 0 [] [])
  = (pd_read "excel" "bytes",
     add_event (Call "pd.read_excel" "/datos/VENTAS.XLS")
       (mkWorld (<["/datos/VENTAS.XLS" := File "bytes"]> ∅) 0 [] [])).
Proof.
  apply (read_dataframe_uses_reader (mkPath true ["datos"; "VENTAS.XLS"])
           "bytes"
           (mkWorld (<["/datos/VENTAS.XLS" := File "bytes"]> ∅) 0 [] [])).
  - vm_compute. reflexivity.
  - reflexivity.
  - vm_compute. repeat constructor.
Defined.

(** X16: [FileHandler.read_dataframe] on an existing path with any other
    extension raises ValueError "Formato no soportado: " followed by the
    extension as written, without calling a reader: the world is left as
    it was. A path with no extension is such a path. *)
Theorem read_dataframe_unsupported `{Env}
    (path : Path) (node : Node) (w : World) :
  fs_lookup w path = Some node →
  PyStr.lower (path_suffix path) ∉ [".csv"; ".xlsx"; ".xls"; ".json"] →
  FileHandler.read_dataframe path w
  = (inl (mkExc ValueError ("Formato no soportado: " +:+ path_suffix path)), w).
Proof.
  intros Hnode Hext. unfold FileHandler.read_dataframe.
  rewrite (run_bind_ok _ _ _ _ _ (run_validate_exists path node w Hnode)).
  repeat (apply not_elem_of_cons in Hext as [? Hext]).
  rewrite bool_decide_eq_false_2 by assumption.
  rewrite bool_decide_eq_false_2.
  2:{ intros Hin.
      repeat (apply elem_of_cons in Hin as [Hd | Hin]; [congruence |]).
      inversion Hin. }
  rewrite bool_decide_eq_false_2 by assumption. reflexivity.
Qed.

Lemma read_dataframe_unsupported_witness :
  FileHandler.read_dataframe Demo.notas_txt Demo.world
  = (inl (mkExc ValueError
            ("Formato no soportado: " +:+ path_suffix Demo.notas_txt)),
     Demo.world).
Proof.
  apply (read_dataframe_unsupported Demo.notas_txt (File "hola mundo")
           Demo.world).
  - vm_compute. reflexivity.
  - apply (bool_decide_unpack _). vm_compute. exact I.
Defined.

(** X17: when [analizar_datos] answers with a Success envelope, the
    dataset was read and the basic information reports its number of
    rows, its number of columns and its column names; the sample is the
    empty dict when no sample was asked for, and otherwise holds the
    first and the last rows. *)
Theorem analizar_datos_counts `{Env}
    (ruta : Path) (incluir_muestra : bool) (w : World) r w' :
  analizar_datos ruta incluir_muestra w = (inr r, w') → is_Success r →
  ∃ df w1 data info,
    FileHandler.read_dataframe ruta w = (inr df, w1)
    ∧ dict_get "data" r = Some (VDict data)
    ∧ dict_get "info_basica" data = Some (VDict info)
    ∧ dict_get "filas" info = Some (VInt (Z.of_nat (length (df_rows df))))
    ∧ dict_get "columnas" info = Some (VInt (Z.of_nat (length (df_columns df))))
    ∧ dict_get "lista_columnas" info = Some (VList (VStr <$> df_columns df))
    ∧ dict_get "muestra_datos" data
      = Some (VDict (if incluir_muestra
                     then [("primeras_5_filas", head_records df);
                           ("ultimas_5_filas", tail_records df)]
                     else [])).
Proof.
  intros Hrun Hs. unfold analizar_datos in Hrun.
  apply success_inv in Hrun; [| exact Hs]. clear Hs.
  bind_inv Hrun. bind_inv Hrun. cbv zeta in Hrun.
  bind_inv Hrun. bind_inv Hrun. bind_inv Hrun.
  rewrite run_success in Hrun. injection Hrun as <- _.
  eexists _, _, _, _. split; [reflexivity |].
  repeat (split; [reflexivity |]). reflexivity.
Qed.

Lemma analizar_datos_counts_witness :
  ∃ r w',
    analizar_datos Demo.datos_csv false Demo.world = (inr r, w')
    ∧ is_Success r
    ∧ ∃ df w1 data info,
        FileHandler.read_dataframe Demo.datos_csv Demo.world = (inr df, w1)
        ∧ dict_get "data" r = Some (VDict data)
        ∧ dict_get "info_basica" data = Some (VDict info)
        ∧ dict_get "filas" info = Some (VInt (Z.of_nat (length (df_rows df))))
        ∧ dict_get "columnas" info
          = Some (VInt (Z.of_nat (length (df_columns df))))
        ∧ dict_get "lista_columnas" info = Some (VList (VStr <$> df_columns df))
        ∧ dict_get "muestra_datos" data
          = Some (VDict (if false
                         then [("primeras_5_filas", head_records df);
                               ("ultimas_5_filas", tail_records df)]
                         else [])).
Proof.
  eexists _, _. split; [vm_compute; reflexivity |].
  split; [eexists _, _, _; reflexivity |].
  eapply (analizar_datos_counts Demo.datos_csv false Demo.world).
  - vm_compute. reflexivity.
  - eexists _, _, _. reflexivity.
Defined.

(** ** Tools that only read *)

Section ReadOnlyTools.
Context `{Env}.

Lemma keeps_fs_on_exception what e : keeps fs (on_exception what e).
Proof.
  unfold on_exception, logger_error, ResponseFormatter.error,
    ResponseFormatter.now_isoformat.
  repeat quiet_step.
Qed.

End ReadOnlyTools.

(** X18: the six tools that only read (analizar_archivo, leer_documento,
    analizar_datos, tabla_dinamica_avanzada, buscar_repositorios_github,
    extraer_contenido_web) leave the file system exactly as it was,
    whether they answer with a Success or with a Failure. *)
Theorem read_only_tools_keep_files `{Env} (c : ToolCall) (w : World) :
  reads_only c = true → fs (invoke c w).2 = fs w.
Proof.
  intros Hc. revert w. change (keeps fs (invoke c)).
  destruct c; try discriminate Hc; cbn [invoke];
    [ unfold analizar_archivo | unfold leer_documento | unfold analizar_datos
    | unfold tabla_dinamica_avanzada | unfold buscar_repositorios_github
    | unfold extraer_contenido_web ];
    (apply keeps_try_except; [| intros; apply keeps_fs_on_exception]);
    repeat quiet_step.
Qed.

Lemma read_only_tools_keep_files_witness :
  fs (invoke (LeerDocumento Demo.notas_txt None) Demo.world).2 = fs Demo.world.
Proof.
  apply (read_only_tools_keep_files (LeerDocumento Demo.notas_txt None)).
  reflexivity.
Defined.

(** ** Limits and selectors *)

Section Limits.
Context `{Env}.

(** [leer_documento] on a readable document. *)
Lemma run_leer_documento (ruta : Path) (L : Z) (contenido : string) (w : World) :
  document_text w ruta contenido →
  ∃ message w',
    leer_documento ruta L w
    = (inr (success_of (VDict (documento_data contenido L)) message w'), w').
Proof.
  intros Hdoc.
  destruct (document_text_exists w ruta contenido Hdoc) as [bytes Hfile].
  destruct (run_document_text ruta contenido w Hdoc) as (w1 & Hread & _).
  unfold leer_documento. cbv zeta.
  erewrite run_try_ok.
  2:{ erewrite run_bind_ok by (eapply run_validate_exists; exact Hfile).
      erewrite run_bind_ok by exact Hread.
      rewrite run_success. reflexivity. }
  eexists _, _. reflexivity.
Qed.

(** [s[:k]] for [k < 0] drops the last [-k] characters. *)
Lemma slice_to_negative (s : string) (k : Z) :
  k < 0 →
  PyStr.slice_to s k = PyStr.take (Z.to_nat (PyStr.len s + k)) s
  ∧ PyStr.len (PyStr.slice_to s k) = Z.max 0 (PyStr.len s + k).
Proof.
  intros Hk. unfold PyStr.slice_to, PyStr.len.
  destruct (0 <=? k) eqn:Hle; [apply Z.leb_le in Hle; lia |].
  split.
  - f_equal. lia.
  - rewrite take_length. lia.
Qed.

(** The text [extraer_contenido_web] works on, for a parsed page. *)
Lemma run_extraer_con_selector (url : string) (resp : Response)
    (selector_css : option string) (contenido : string) (w : World) :
  download_succeeds url resp →
  let soup := soup_parse (resp_text resp) in
  match selector_css with
  | Some sel =>
      if bool_decide (sel ≠ "")
      then ∃ elementos, soup_select soup sel = inr elementos
                        ∧ contenido = PyStr.join newline elementos
      else contenido = soup_get_text soup
  | None => contenido = soup_get_text soup
  end →
  let w1 := add_event (Call "BeautifulSoup" url)
              (add_event (Call "httpx.AsyncClient.get" url) w) in
  extraer_contenido_web url selector_css w
  = (inr (success_of
            (VDict (web_data url contenido
                      (default (VStr "Sin título") (soup_title soup))
                      selector_css))
            "Contenido web extraído exitosamente" w1), w1).
Proof.
  intros [Hget Hstatus]. cbv zeta. intros Hsel. unfold extraer_contenido_web.
  erewrite run_try_ok; [reflexivity |].
  erewrite run_bind_ok by (apply run_client_get; eassumption).
  rewrite run_bind, run_note. cbv iota beta zeta.
  rewrite run_bind.
  destruct selector_css as [sel |].
  - destruct (bool_decide (sel ≠ "")).
    + destruct Hsel as (elementos & Hselect & ->).
      rewrite run_bind, run_lift, Hselect. reflexivity.
    + subst contenido. reflexivity.
  - subst contenido. reflexivity.
Qed.

End Limits.

(** X19: with a negative limit [L], [leer_documento] on a readable
    document returns the text without its last [-L] characters (Python's
    [contenido[:L]]; nothing when the text is that short), reports that
    length, and sets the truncation flag in every case, also for an empty
    document. *)
Theorem leer_documento_negative_limit `{Env}
    (ruta : Path) (L : Z) (contenido : string) (w : World) :
  document_text w ruta contenido → L < 0 →
  ∃ data message w',
    leer_documento ruta L w = (inr (success_of (VDict data) message w'), w')
    ∧ dict_get "contenido" data
      = Some (VStr (PyStr.take (Z.to_nat (PyStr.len contenido + L)) contenido))
    ∧ dict_get "longitud_total" data = Some (VInt (PyStr.len contenido))
    ∧ dict_get "longitud_retornada" data
      = Some (VInt (Z.max 0 (PyStr.len contenido + L)))
    ∧ dict_get "fue_truncado" data = Some (VBool true).
Proof.
  intros Hdoc HL.
  destruct (run_leer_documento ruta L contenido w Hdoc) as (message & w' & Hrun).
  destruct (slice_to_negative contenido L HL) as [Htake Hlen].
  exists (documento_data contenido L), message, w'.
  split; [exact Hrun |]. unfold documento_data.
  rewrite Hlen, Htake.
  assert ((L <? PyStr.len contenido) = true) as ->
    by (apply Z.ltb_lt; unfold PyStr.len; lia).
  repeat split; reflexivity.
Qed.

Lemma leer_documento_negative_limit_witness :
  ∃ data message w',
    leer_documento Demo.notas_txt (-6) Demo.world
    = (inr (success_of (VDict data) message w'), w')
    ∧ dict_get "contenido" data
      = Some (VStr (PyStr.take (Z.to_nat (PyStr.len "hola mundo" + -6))
                      "hola mundo"))
    ∧ dict_get "longitud_total" data = Some (VInt (PyStr.len "hola mundo"))
    ∧ dict_get "longitud_retornada" data
      = Some (VInt (Z.max 0 (PyStr.len "hola mundo" + -6)))
    ∧ dict_get "fue_truncado" data = Some (VBool true).
Proof.
  apply (leer_documento_negative_limit Demo.notas_txt (-6) "hola mundo"
           Demo.world).
  - apply (plain_text Demo.world Demo.notas_txt "hola mundo" "hola mundo").
    + vm_compute. constructor.
    + vm_compute. reflexivity.
    + reflexivity.
    + reflexivity.
  - lia.
Defined.

(** X20: a Success of [extraer_contenido_web] never carries more than
    10,000 characters: the content is the first 10,000 characters of the
    extracted text, so its length is the smaller of [longitud_total] and
    10,000. *)
Theorem web_content_capped `{Env}
    (url : string) (selector_css : option string) (w : World) r w' :
  extraer_contenido_web url selector_css w = (inr r, w') → is_Success r →
  ∃ data contenido total,
    dict_get "data" r = Some (VDict data)
    ∧ dict_get "contenido" data = Some (VStr contenido)
    ∧ dict_get "longitud_total" data = Some (VInt total)
    ∧ PyStr.len contenido = Z.min total 10000.
Proof.
  intros Hrun Hs. unfold extraer_contenido_web in Hrun.
  eapply (success_from_body
            (λ r, ∃ data contenido total,
               dict_get "data" r = Some (VDict data)
               ∧ dict_get "contenido" data = Some (VStr contenido)
               ∧ dict_get "longitud_total" data = Some (VInt total)
               ∧ PyStr.len contenido = Z.min total 10000));
    [| exact Hrun | exact Hs].
  apply returns_bind; intros response. apply returns_bind; intros _.
  cbv zeta. apply returns_bind; intros contenido.
  apply returns_at_success; intros w0.
  eexists _, _, _. split; [reflexivity |].
  split; [reflexivity |]. split; [reflexivity |].
  apply slice_to_nonneg. lia.
Qed.

Lemma web_content_capped_witness :
  ∃ r w',
    extraer_contenido_web Demo.url_larga None Demo.world = (inr r, w')
    ∧ is_Success r
    ∧ ∃ data contenido total,
        dict_get "data" r = Some (VDict data)
        ∧ dict_get "contenido" data = Some (VStr contenido)
        ∧ dict_get "longitud_total" data = Some (VInt total)
        ∧ PyStr.len contenido = Z.min total 10000.
Proof.
  eexists _, _. split; [vm_compute; reflexivity |].
  split; [eexists _, _, _; reflexivity |].
  eapply (web_content_capped Demo.url_larga None Demo.world).
  - vm_compute. reflexivity.
  - eexists _, _, _. reflexivity.
Defined.

(** X21: an empty selector string counts as no selector: for a page that
    downloads, [extraer_contenido_web] with the selector [""] extracts the
    text of the whole page, never calling [select], and reports the empty
    string as the selector used. *)
Theorem empty_selector_reads_whole_page `{Env}
    (url : string) (resp : Response) (w : World) :
  download_succeeds url resp →
  ∃ data message w',
    extraer_contenido_web url (Some "") w
    = (inr (success_of (VDict data) message w'), w')
    ∧ dict_get "contenido" data
      = Some (VStr (PyStr.slice_to
                      (soup_get_text (soup_parse (resp_text resp))) 10000))
    ∧ dict_get "longitud_total" data
      = Some (VInt (PyStr.len (soup_get_text (soup_parse (resp_text resp)))))
    ∧ dict_get "selector_usado" data = Some (VStr "").
Proof.
  intros Hdl. eexists _, _, _. split.
  - apply (run_extraer_con_selector url resp (Some "")
             (soup_get_text (soup_parse (resp_text resp))) w Hdl).
    reflexivity.
  - repeat split; reflexivity.
Qed.

Lemma empty_selector_reads_whole_page_witness :
  ∃ data message w',
    extraer_contenido_web "http://ejemplo.test" (Some "") Demo.world
    = (inr (success_of (VDict data) message w'), w')
    ∧ dict_get "contenido" data
      = Some (VStr (PyStr.slice_to
                      (soup_get_text
                         (soup_parse (resp_text (Demo.pagina_de "hola"))))
                      10000))
    ∧ dict_get "longitud_total" data
      = Some (VInt (PyStr.len
                      (soup_get_text
                         (soup_parse (resp_text (Demo.pagina_de "hola"))))))
    ∧ dict_get "selector_usado" data = Some (VStr "").
Proof.
  apply (empty_selector_reads_whole_page "http://ejemplo.test"
           (Demo.pagina_de "hola") Demo.world).
  split; reflexivity.
Defined.

(** X22: with a non-empty selector, for a page that downloads and on
    which [select] returns, the content is the texts of the matched
    elements joined by newlines (cut to 10,000 characters) and
    [longitud_total] is the length of that joined text. When nothing
    matches, the joined text is empty: the handler still answers with a
    Success, with empty content and length 0. *)
Theorem selector_joins_matches `{Env}
    (url sel : string) (resp : Response) (elementos : list string) (w : World) :
  download_succeeds url resp → sel ≠ "" →
  soup_select (soup_parse (resp_text resp)) sel = inr elementos →
  ∃ data message w',
    extraer_contenido_web url (Some sel) w
    = (inr (success_of (VDict data) message w'), w')
    ∧ dict_get "contenido" data
      = Some (VStr (PyStr.slice_to (PyStr.join newline elementos) 10000))
    ∧ dict_get "longitud_total" data
      = Some (VInt (PyStr.len (PyStr.join newline elementos)))
    ∧ dict_get "selector_usado" data = Some (VStr sel).
Proof.
  intros Hdl Hsel Hselect. eexists _, _, _. split.
  - apply (run_extraer_con_selector url resp (Some sel)
             (PyStr.join newline elementos) w Hdl).
    rewrite bool_decide_eq_true_2 by exact Hsel. eauto.
  - repeat split; reflexivity.
Qed.

Lemma selector_joins_matches_witness :
  ∃ data message w',
    @extraer_contenido_web DemoWeb.sin_coincidencias
      "http://ejemplo.test" (Some "div.nota") Demo.world
    = (inr (@success_of DemoWeb.sin_coincidencias (VDict data) message w'), w')
    ∧ dict_get "contenido" data = Some (VStr "")
    ∧ dict_get "longitud_total" data = Some (VInt 0)
    ∧ dict_get "selector_usado" data = Some (VStr "div.nota").
Proof.
  apply (@selector_joins_matches DemoWeb.sin_coincidencias
           "http://ejemplo.test" "div.nota" (Demo.pagina_de "hola") []
           Demo.world).
  - split; reflexivity.
  - discriminate.
  - reflexivity.
Defined.

(** ** Searching repositories *)

Section Search.
Context `{Env}.

Lemma mapM_result_length {A B} (f : A → Exception + B) (l : list A) (k : list B) :
  mapM f l = inr k → length k = length l.
Proof.
  revert k. induction l as [| x l IH]; intros k Hk.
  - injection Hk as <-. reflexivity.
  - cbn [mapM] in Hk. cbn [mbind Result_bind] in Hk.
    destruct (f x) as [e | y]; [discriminate |].
    destruct (mapM f l) as [e | k0]; [discriminate |].
    injection Hk as <-. cbn [length]. f_equal. apply IH. reflexivity.
Qed.

Lemma mapM_result_Forall {A B} (P : B → Prop) (f : A → Exception + B)
    (l : list A) (k : list B) :
  (∀ x y, f x = inr y → P y) → mapM f l = inr k → Forall P k.
Proof.
  intros Hf. revert k. induction l as [| x l IH]; intros k Hk.
  - injection Hk as <-. constructor.
  - cbn [mapM] in Hk. cbn [mbind Result_bind] in Hk.
    destruct (f x) as [e | y] eqn:Hx; [discriminate |].
    destruct (mapM f l) as [e | k0]; [discriminate |].
    injection Hk as <-. constructor; [eapply Hf, Hx | apply IH; reflexivity].
Qed.

Lemma mapM_result_raises {A B} (f : A → Exception + B) (l : list A) x e :
  x ∈ l → f x = inl e → ∃ e', mapM f l = inl e'.
Proof.
  intros Hin Hx. induction l as [| y l IH]; [inversion Hin |].
  cbn [mapM]. cbn [mbind Result_bind].
  destruct (f y) as [e0 | z] eqn:Hy; [eauto |].
  apply elem_of_cons in Hin as [-> | Hin]; [congruence |].
  destruct (IH Hin) as [e' ->]. eauto.
Qed.

Lemma repo_entry_shape (repo entry : PyVal) :
  repo_entry repo = inr entry →
  ∃ d, entry = VDict d ∧ dict_keys d = repo_entry_keys.
Proof.
  unfold repo_entry, mbind, Result_bind. intros Hrun.
  repeat match type of Hrun with
         | match ?r with _ => _ end = _ =>
             destruct r; [discriminate Hrun |]; cbv iota beta in Hrun
         end.
  injection Hrun as <-. eexists. split; reflexivity.
Qed.

Lemma repo_entry_needs_key (d : Dict) (k : string) :
  k ∈ required_repo_keys → dict_get k d = None →
  ∃ e, repo_entry (VDict d) = inl e.
Proof.
  intros Hk Hnone.
  assert (py_item (VDict d) k = inl (mkExc KeyError (repr_str k))) as Hitem
    by (cbn [py_item]; rewrite Hnone; reflexivity).
  unfold repo_entry, mbind, Result_bind.
  repeat (apply elem_of_cons in Hk as [-> | Hk]);
    [| | | | | inversion Hk];
    repeat match goal with
           | |- ∃ e, match py_item (VDict d) ?k' with _ => _ end = inl e =>
               first [ rewrite Hitem; eexists; reflexivity
                     | destruct (py_item (VDict d) k');
                       [eexists; reflexivity | cbv iota beta] ]
           | |- ∃ e, match py_get ?a ?b ?c with _ => _ end = inl e =>
               destruct (py_get a b c); [eexists; reflexivity | cbv iota beta]
           end.
Qed.

(** The search up to the JSON of the answer. *)
Lemma run_search_request (query sort order : string) (per_page : Z)
    (resp : Response) (json : PyVal) (w : World) {B} (k : Response → M B) :
  search_answers query sort order per_page resp json →
  (client_get github_url (github_params query sort order per_page) ≫= k) w
  = k resp (add_event (Call "httpx.AsyncClient.get" github_url) w).
Proof.
  intros (Hget & Hstatus & _).
  erewrite run_bind_ok by (apply run_client_get; eassumption). reflexivity.
Qed.

End Search.

(** X23: a Success of [buscar_repositorios_github] comes from a request
    to the search API with [per_page] capped at 100, answered with a
    success status and a JSON body; its list of repositories has exactly
    one entry per item of the body's "items" (none when the key is
    absent), each entry a dict with the eight keys of the handler, and
    the total and the query are passed on. *)
Theorem search_lists_every_item `{Env}
    (query sort order : string) (per_page : Z) (w : World) r w' :
  buscar_repositorios_github query sort order per_page w = (inr r, w') →
  is_Success r →
  ∃ resp json items repos repositorios total,
    search_answers query sort order per_page resp json
    ∧ py_get json "items" (VList []) = inr items
    ∧ py_iter items = inr repos
    ∧ py_item json "total_count" = inr total
    ∧ dict_get "data" r
      = Some (VDict [("repositorios", VList repositorios);
                     ("total_encontrados", total);
                     ("query_utilizada", VStr query)])
    ∧ length repositorios = length repos
    ∧ Forall (λ entry, ∃ d, entry = VDict d ∧ dict_keys d = repo_entry_keys)
        repositorios.
Proof.
  intros Hrun Hs. unfold buscar_repositorios_github in Hrun.
  apply success_inv in Hrun; [| exact Hs]. clear Hs. cbv zeta in Hrun.
  rewrite run_bind in Hrun. unfold client_get in Hrun.
  rewrite run_bind, run_note in Hrun. cbv iota beta in Hrun.
  rewrite run_bind, run_lift in Hrun.
  destruct (http_get _ _) as [e | resp] eqn:Hget; [discriminate Hrun |].
  cbv iota beta in Hrun.
  destruct (resp_raise_for_status resp) as [e |] eqn:Hstatus;
    [discriminate Hrun |].
  change ((mret resp : M Response) ?w) with (@inr Exception Response resp, w)
    in Hrun.
  cbv iota beta in Hrun.
  rewrite run_bind, run_lift in Hrun.
  destruct (resp_json resp) as [e | json] eqn:Hjson; [discriminate Hrun |].
  cbv iota beta in Hrun. rewrite run_bind, run_lift in Hrun.
  destruct (py_get json "items" (VList [])) as [e | items] eqn:Hitems;
    [discriminate Hrun |].
  cbv iota beta in Hrun. rewrite run_bind, run_lift in Hrun.
  destruct (py_iter items) as [e | repos] eqn:Hrepos; [discriminate Hrun |].
  cbv iota beta in Hrun. rewrite run_bind, run_lift in Hrun.
  destruct (mapM repo_entry repos) as [e | repositorios] eqn:Hmap;
    [discriminate Hrun |].
  cbv iota beta in Hrun. rewrite run_bind, run_lift in Hrun.
  destruct (py_item json "total_count") as [e | total] eqn:Htotal;
    [discriminate Hrun |].
  cbv iota beta in Hrun. rewrite run_success in Hrun. injection Hrun as <- _.
  exists resp, json, items, repos, repositorios, total.
  split; [repeat split; assumption |].
  split; [exact Hitems |]. split; [exact Hrepos |]. split; [exact Htotal |].
  split; [reflexivity |].
  split; [eapply mapM_result_length, Hmap |].
  eapply mapM_result_Forall, Hmap. intros x y. apply repo_entry_shape.
Qed.

Lemma search_lists_every_item_witness :
  ∃ r w',
    @buscar_repositorios_github DemoWeb.un_resultado
      "rocq" "stars" "desc" 500 Demo.world
    = (inr r, w')
    ∧ is_Success r
    ∧ ∃ resp json items repos repositorios total,
        @search_answers DemoWeb.un_resultado "rocq" "stars" "desc" 500 resp json
        ∧ py_get json "items" (VList []) = inr items
        ∧ py_iter items = inr repos
        ∧ @py_item DemoWeb.un_resultado json "total_count" = inr total
        ∧ dict_get "data" r
          = Some (VDict [("repositorios", VList repositorios);
                         ("total_encontrados", total);
                         ("query_utilizada", VStr "rocq")])
        ∧ length repositorios = length repos
        ∧ Forall (λ entry, ∃ d, entry = VDict d
                                ∧ dict_keys d = repo_entry_keys)
            repositorios.
Proof.
  eexists _, _. split; [vm_compute; reflexivity |].
  split; [eexists _, _, _; reflexivity |].
  eapply (@search_lists_every_item DemoWeb.un_resultado
            "rocq" "stars" "desc" 500 Demo.world).
  - vm_compute. reflexivity.
  - eexists _, _, _. reflexivity.
Defined.

(** X24: the two keys of the search answer are not treated alike: a JSON
    object without "items" is read as no results, and the handler answers
    with a Success listing nothing; a JSON object without "total_count"
    makes the handler fail. *)
Theorem search_without_items_is_empty `{Env}
    (query sort order : string) (per_page : Z)
    (resp : Response) (j : Dict) (total : PyVal) (w : World) :
  search_answers query sort order per_page resp (VDict j) →
  dict_get "items" j = None →
  dict_get "total_count" j = Some total →
  ∃ w',
    buscar_repositorios_github query sort order per_page w
    = (inr (success_of
              (VDict [("repositorios", VList []);
                      ("total_encontrados", total);
                      ("query_utilizada", VStr query)])
              "Se encontraron 0 repositorios" w'), w').
Proof.
  intros Hans Hitems Htotal. unfold buscar_repositorios_github. cbv zeta.
  eexists. erewrite run_try_ok; [reflexivity |].
  rewrite (run_search_request query sort order per_page resp (VDict j) w _ Hans).
  destruct Hans as (_ & _ & Hjson).
  rewrite run_bind, run_lift, Hjson. cbv iota beta.
  rewrite run_bind, run_lift. cbn [py_get]. rewrite Hitems. cbn [default].
  cbv iota beta. rewrite run_bind, run_lift. cbn [py_iter]. cbv iota beta.
  rewrite run_bind, run_lift. cbn [mapM]. cbv iota beta.
  change (mret [] : Exception + list PyVal) with (@inr Exception (list PyVal) []).
  cbv iota beta.
  rewrite run_bind, run_lift. cbn [py_item]. rewrite Htotal. cbv iota beta.
  rewrite run_success. reflexivity.
Qed.

Lemma search_without_items_is_empty_witness :
  ∃ w',
    @buscar_repositorios_github DemoWeb.sin_items
      "rocq" "stars" "desc" 10 Demo.world
    = (inr (@success_of DemoWeb.sin_items
              (VDict [("repositorios", VList []);
                      ("total_encontrados", VInt 0);
                      ("query_utilizada", VStr "rocq")])
              "Se encontraron 0 repositorios" w'), w').
Proof.
  apply (@search_without_items_is_empty DemoWeb.sin_items
           "rocq" "stars" "desc" 10
           (mkResponse None "" "" (λ _, None)
              (inr (VDict [("total_count", VInt 0)])))
           [("total_count", VInt 0)] (VInt 0) Demo.world).
  - repeat split; reflexivity.
  - reflexivity.
  - reflexivity.
Defined.

(** X25: when the JSON object of the answer has no "total_count", the
    handler answers with a Failure, whatever items it holds. *)
Theorem search_without_total_fails `{Env}
    (query sort order : string) (per_page : Z)
    (resp : Response) (j : Dict) (w : World) :
  search_answers query sort order per_page resp (VDict j) →
  dict_get "total_count" j = None →
  ∃ r w',
    buscar_repositorios_github query sort order per_page w = (inr r, w')
    ∧ is_Failure r.
Proof.
  intros Hans Htotal. unfold buscar_repositorios_github. cbv zeta.
  assert (∃ e w1,
            (response ← client_get github_url
                          (github_params query sort order per_page);
             data_json ← lift (resp_json response);
             items ← lift (py_get data_json "items" (VList []));
             repos ← lift (py_iter items);
             repositorios ← lift (mapM repo_entry repos);
             total ← lift (py_item data_json "total_count");
             ResponseFormatter.success
               (VDict [("repositorios", VList repositorios);
                       ("total_encontrados", total);
                       ("query_utilizada", VStr query)])
               ("Se encontraron " +:+ pretty (length repositorios)
                +:+ " repositorios")) w = (inl e, w1)) as (e & w1 & Hbody).
  { rewrite (run_search_request query sort order per_page resp (VDict j) w _
               Hans).
    destruct Hans as (_ & _ & Hjson).
    rewrite run_bind, run_lift, Hjson. cbv iota beta.
    rewrite run_bind, run_lift. cbn [py_get]. cbv iota beta.
    rewrite run_bind, run_lift.
    destruct (py_iter _) as [e | repos]; [eauto |]. cbv iota beta.
    rewrite run_bind, run_lift.
    destruct (mapM repo_entry repos) as [e | repositorios]; [eauto |].
    cbv iota beta. rewrite run_bind, run_lift. cbn [py_item]. rewrite Htotal.
    eauto. }
  eexists _, _. split.
  - erewrite run_try_raise by exact Hbody. apply run_on_exception.
  - apply failure_of_is_Failure.
Qed.

Lemma search_without_total_fails_witness :
  ∃ r w',
    @buscar_repositorios_github DemoWeb.sin_total
      "rocq" "stars" "desc" 10 Demo.world
    = (inr r, w')
    ∧ is_Failure r.
Proof.
  apply (@search_without_total_fails DemoWeb.sin_total
           "rocq" "stars" "desc" 10
           (mkResponse None "" "" (λ _, None) (inr (VDict [("items", VList [])])))
           [("items", VList [])] Demo.world).
  - repeat split; reflexivity.
  - reflexivity.
Defined.

(** X26: one malformed item fails the whole search: when some item of
    the answer is a JSON object lacking one of the keys read with
    [repo[...]] (full_name, html_url, stargazers_count, forks_count,
    updated_at), the handler answers with a Failure and lists no
    repository at all, however many well-formed items there are. *)
Theorem malformed_item_fails_search `{Env}
    (query sort order : string) (per_page : Z)
    (resp : Response) (j : Dict) (items : list PyVal) (d : Dict) (k : string)
    (w : World) :
  search_answers query sort order per_page resp (VDict j) →
  dict_get "items" j = Some (VList items) →
  VDict d ∈ items → k ∈ required_repo_keys → dict_get k d = None →
  ∃ r w',
    buscar_repositorios_github query sort order per_page w = (inr r, w')
    ∧ is_Failure r.
Proof.
  intros Hans Hitems Hin Hk Hnone.
  destruct (repo_entry_needs_key d k Hk Hnone) as [e0 He0].
  destruct (mapM_result_raises repo_entry items (VDict d) e0 Hin He0)
    as [e Hmap].
  unfold buscar_repositorios_github. cbv zeta.
  eexists _, _. split.
  - erewrite run_try_raise; [apply run_on_exception |].
    rewrite (run_search_request query sort order per_page resp (VDict j) w _
               Hans).
    destruct Hans as (_ & _ & Hjson).
    rewrite run_bind, run_lift, Hjson. cbv iota beta.
    rewrite run_bind, run_lift. cbn [py_get]. rewrite Hitems.
    cbn [from_option]. unfold id. cbv iota beta.
    rewrite run_bind, run_lift. cbn [py_iter]. cbv iota beta.
    rewrite run_bind, run_lift, Hmap. reflexivity.
  - apply failure_of_is_Failure.
Qed.

Lemma malformed_item_fails_search_witness :
  ∃ r w',
    @buscar_repositorios_github DemoWeb.con_malformado
      "rocq" "stars" "desc" 10 Demo.world
    = (inr r, w')
    ∧ is_Failure r.
Proof.
  eapply (@malformed_item_fails_search DemoWeb.con_malformado
           "rocq" "stars" "desc" 10
           (mkResponse None "" "" (λ _, None) (inr (VDict _)))
           _ [DemoWeb.repo_completo; DemoWeb.repo_sin_url] DemoWeb.sin_url
           "html_url" Demo.world).
  - repeat split; reflexivity.
  - reflexivity.
  - constructor 2. constructor 1.
  - apply (bool_decide_unpack _). vm_compute. exact I.
  - reflexivity.
Defined.

(** ** Options and formats of the conversion *)

Section Options.
Context `{Env}.


(** The output path of a conversion, for an input with a file name. *)
Lemma with_suffix_of_format (repr : string → string) (p : Path) (formato : string) :
  path_name p ≠ "" →
  (PyStr.mem "/"%char formato || bool_decide (formato = "") = true
   ∧ with_suffix repr p ("." +:+ formato)
     = inl (mkExc ValueError ("Invalid suffix " +:+ repr ("." +:+ formato))))
  ∨ (PyStr.mem "/"%char formato || bool_decide (formato = "") = false
     ∧ ∃ salida, with_suffix repr p ("." +:+ formato) = inr salida).
Proof.
  intros Hname. unfold with_suffix.
  change ("." +:+ formato) with (String "."%char formato).
  cbn [PyStr.mem PyStr.startswith]. rewrite decide_False by discriminate.
  destruct (PyStr.mem "/"%char formato); [left; split; reflexivity |].
  rewrite (bool_decide_eq_true_2 ("."%char = "."%char)) by reflexivity.
  cbn [negb andb orb]. rewrite andb_false_r. cbn [orb].
  destruct (decide (formato = "")) as [-> | Hne].
  - left. split; reflexivity.
  - rewrite (bool_decide_eq_false_2 (formato = "")) by exact Hne.
    rewrite bool_decide_eq_false_2 by congruence.
    rewrite bool_decide_eq_false_2 by exact Hname.
    right. split; [reflexivity | eauto].
Qed.

End Options.



(** X28: the target format is checked after the input is read and the
    output path computed, so for a readable dataset and a format outside
    json, csv, xlsx and parquet the handler answers with a Failure and
    writes nothing, and its error is the one of [with_suffix] ("Invalid
    suffix ...") when the format is empty or holds a slash, and
    "Formato '<formato>' no soportado. Use: ..." otherwise. *)
Theorem unsupported_format_rejected `{Env}
    (entrada : Path) (formato : string) (opciones : option Dict)
    (w : World) df w1 :
  FileHandler.read_dataframe entrada w = (inr df, w1) →
  formato ∉ formatos_soportados →
  ∃ r w',
    convertir_formato_datos entrada formato opciones w = (inr r, w')
    ∧ is_Failure r
    ∧ fs w' = fs w
    ∧ dict_get "error" r
      = Some (VStr (if PyStr.mem "/"%char formato || bool_decide (formato = "")
                    then "Invalid suffix " +:+ repr_str ("." +:+ formato)
                    else "Formato '" +:+ formato +:+ "' no soportado. Use: "
                         +:+ py_repr (VList (VStr <$> formatos_soportados)))).
Proof.
  intros Hread Hfmt.
  pose proof (keeps_read_dataframe fs ltac:(reflexivity) entrada w) as Hk.
  rewrite Hread in Hk. cbn [snd] in Hk.
  pose proof (suffix_needs_name entrada
                (read_dataframe_has_suffix entrada w df w1 Hread)) as Hname.
  unfold convertir_formato_datos. cbv zeta.
  destruct (with_suffix_of_format repr_str entrada formato Hname)
    as [[Hbad Hout] | [Hgood [salida Hout]]].
  - eexists _, _. split.
    { erewrite run_try_raise; [apply run_on_exception |].
      erewrite run_bind_ok by exact Hread.
      rewrite run_bind, run_lift, Hout. reflexivity. }
    split; [apply failure_of_is_Failure |]. split; [exact Hk |].
    rewrite Hbad. reflexivity.
  - eexists _, _. split.
    { erewrite run_try_raise; [apply run_on_exception |].
      erewrite run_bind_ok by exact Hread.
      rewrite run_bind, run_lift, Hout. cbv iota beta.
      rewrite run_bind, convert_dispatch.
      rewrite bool_decide_eq_false_2 by exact Hfmt. reflexivity. }
    split; [apply failure_of_is_Failure |]. split; [exact Hk |].
    rewrite Hgood. reflexivity.
Qed.

Lemma unsupported_format_rejected_witness :
  ∃ r w',
    convertir_formato_datos Demo.datos_csv "" None Demo.world = (inr r, w')
    ∧ is_Failure r
    ∧ fs w' = fs Demo.world
    ∧ dict_get "error" r = Some (VStr ("Invalid suffix " +:+ repr_str ".")).
Proof.
  apply (unsupported_format_rejected Demo.datos_csv "" None Demo.world
           Demo.ventas
           (add_event (Call "pd.read_csv" "/datos/ventas.csv") Demo.world)).
  - vm_compute. reflexivity.
  - apply (bool_decide_unpack _). vm_compute. exact I.
Defined.

(** * The front end *)

Section Listing.

Lemma listdir_NoDup (w : World) :
  NoDup (filter (λ f, String.prefix "temp_" f = true) (App.os_listdir_cwd w)).
Proof.
  unfold App.os_listdir_cwd. apply NoDup_filter, NoDup_filter, NoDup_elements.
Qed.

Lemma elem_of_temp_entries (w : World) (k : string) :
  k ∈ filter (λ f, String.prefix "temp_" f = true) (App.os_listdir_cwd w)
  ↔ App.is_temp_entry w k.
Proof.
  unfold App.os_listdir_cwd, App.is_temp_entry.
  rewrite !list_elem_of_filter, elem_of_elements, elem_of_dom. tauto.
Qed.

End Listing.

Section Cleanup.
Context `{Env}.
Variable remove_fault : string → option Exception.

Lemma run_eliminar (archivo : string) (w : World) :
  App.eliminar remove_fault archivo w
  = (inr (App.aviso_de remove_fault w archivo),
     if App.removable remove_fault w archivo
     then set_fs (delete archivo (fs w)) w else w).
Proof.
  unfold App.eliminar, App.aviso_de, App.removable, App.os_remove, try_except.
  rewrite !run_bind. cbn [get_world].
  destruct (fs w !! archivo) as [[c |] |]; try reflexivity.
  destruct (remove_fault archivo); reflexivity.
Qed.

Lemma removable_after (w : World) (a k : string) :
  k ≠ a →
  App.removable remove_fault
    (if App.removable remove_fault w a then set_fs (delete a (fs w)) w else w) k
  = App.removable remove_fault w k.
Proof.
  intros Hne. unfold App.removable at 1 3.
  destruct (App.removable remove_fault w a); [| reflexivity].
  cbn [fs set_fs]. rewrite lookup_delete_ne by congruence. reflexivity.
Qed.

(** The loop over distinct names: one message per name, and exactly the
    removable names are deleted. *)
Lemma run_eliminar_todos (l : list string) (w : World) :
  NoDup l →
  ∃ w',
    App.eliminar_todos remove_fault l w
    = (inr (App.aviso_de remove_fault w <$> l), w')
    ∧ (∀ k, fs w' !! k
            = if bool_decide (k ∈ l) && App.removable remove_fault w k
              then None else fs w !! k)
    ∧ clock w' = clock w ∧ log w' = log w ∧ trace w' = trace w.
Proof.
  intros Hnd. revert w. induction Hnd as [| a l Hnotin Hnd IH]; intros w.
  - exists w. split; [reflexivity |]. split; [intros k; reflexivity | auto].
  - cbn [App.eliminar_todos]. rewrite run_bind, run_eliminar. cbv iota beta.
    set (w1 := if App.removable remove_fault w a
               then set_fs (delete a (fs w)) w else w).
    destruct (IH w1) as (w' & Hrun & Hfs & Hclock & Hlog & Htrace).
    exists w'. split; [| split].
    + rewrite run_bind, Hrun. cbv iota beta. cbn [fmap list_fmap].
      change ((mret ?x : M (list App.Aviso)) ?w0)
        with (@inr Exception (list App.Aviso) x, w0).
      f_equal. f_equal. f_equal.
      apply list_fmap_ext. intros i k Hk.
      unfold App.aviso_de. subst w1. rewrite removable_after; [reflexivity |].
      intros ->. apply Hnotin. eapply list_elem_of_lookup_2, Hk.
    + intros k. rewrite Hfs. destruct (decide (k = a)) as [-> | Hne].
      * rewrite (bool_decide_eq_false_2 _ Hnotin). cbn [andb].
        rewrite bool_decide_eq_true_2 by constructor. cbn [andb].
        subst w1. destruct (App.removable remove_fault w a); [| reflexivity].
        cbn [fs set_fs]. apply lookup_delete_eq.
      * subst w1. rewrite (removable_after w a k Hne).
        assert (bool_decide (k ∈ a :: l) = bool_decide (k ∈ l)) as ->.
        { apply bool_decide_ext. rewrite elem_of_cons. tauto. }
        destruct (bool_decide (k ∈ l) && App.removable remove_fault w k);
          [reflexivity |].
        destruct (App.removable remove_fault w a); [| reflexivity].
        cbn [fs set_fs]. apply lookup_delete_ne. congruence.
    + subst w1. destruct (App.removable remove_fault w a);
        cbn [clock log trace set_fs] in *; auto.
Qed.

Lemma run_limpiar_temporales (w : World) :
  ∃ w',
    App.limpiar_temporales remove_fault w
    = (inr (App.aviso_de remove_fault w
            <$> filter (λ f, String.prefix "temp_" f = true)
                  (App.os_listdir_cwd w)), w')
    ∧ (∀ k, fs w' !! k
            = if bool_decide (App.is_temp_entry w k)
                 && App.removable remove_fault w k
              then None else fs w !! k)
    ∧ clock w' = clock w ∧ log w' = log w ∧ trace w' = trace w.
Proof.
  unfold App.limpiar_temporales. rewrite run_bind. cbn [get_world].
  cbv iota beta zeta.
  destruct (run_eliminar_todos _ w (listdir_NoDup w))
    as (w' & Hrun & Hfs & Hrest).
  exists w'. split; [exact Hrun |]. split; [| exact Hrest].
  intros k. rewrite Hfs.
  rewrite (bool_decide_ext _ _ (elem_of_temp_entries w k)). reflexivity.
Qed.

End Cleanup.

Section Uploads.
Context `{Env}.

Lemma mem_app (c : ascii) (a b : string) :
  PyStr.mem c (a +:+ b) = PyStr.mem c a || PyStr.mem c b.
Proof.
  induction a as [| d a IH]; [reflexivity |].
  change (String d a +:+ b) with (String d (a +:+ b)). cbn [PyStr.mem].
  destruct (decide (c = d)); [reflexivity | exact IH].
Qed.

Lemma prefix_app (a b : string) : String.prefix a (a +:+ b) = true.
Proof.
  induction a as [| d a IH]; [destruct b; reflexivity |].
  change (String d a +:+ b) with (String d (a +:+ b)). cbn [String.prefix].
  destruct (Ascii.ascii_dec d d); [exact IH | congruence].
Qed.

Lemma run_guardar_subido (name buffer : string) (w : World) :
  os_fault OsWrite ("temp_" +:+ name) = None →
  fs w !! ("temp_" +:+ name) ≠ Some Dir →
  App.guardar_subido name buffer w
  = (inr (App.StSuccess ("Archivo guardado como: " +:+ "temp_" +:+ name)),
     set_fs (<["temp_" +:+ name := File buffer]> (fs w)) w).
Proof.
  intros Hok Hnodir. unfold App.guardar_subido. cbv zeta.
  erewrite run_bind_ok; [reflexivity |].
  apply (run_write_bytes (mkPath false ["temp_" +:+ name]) buffer w).
  split; [exact Hok |]. split; [reflexivity | exact Hnodir].
Qed.

End Uploads.

(** X29: the cleanup never aborts and deletes only removable temporary
    files: whatever the working directory holds and whichever removals
    fail, it ends normally and shows one message per entry of the working
    directory whose name starts with "temp_" ("Eliminado: <name>" when
    the entry is a file that [os.remove] can delete, "No se pudo
    eliminar: <name>" otherwise: a directory, a removal that fails);
    afterwards exactly the entries reported as deleted are gone, and
    every other entry of the file system is as before. *)
Theorem cleanup_removes_temp_files `{Env}
    (remove_fault : string → option Exception) (w : World) :
  ∃ archivos_temp w',
    App.limpiar_temporales remove_fault w
    = (inr (App.aviso_de remove_fault w <$> archivos_temp), w')
    ∧ NoDup archivos_temp
    ∧ (∀ name, name ∈ archivos_temp ↔ App.is_temp_entry w name)
    ∧ ∀ k, fs w' !! k
           = if bool_decide (k ∈ archivos_temp)
                && App.removable remove_fault w k
             then None else fs w !! k.
Proof.
  destruct (run_limpiar_temporales remove_fault w) as (w' & Hrun & Hfs & _).
  exists (filter (λ f, String.prefix "temp_" f = true)
            (App.os_listdir_cwd w)), w'.
  split; [exact Hrun |].
  split; [apply listdir_NoDup |].
  split; [intros name; apply elem_of_temp_entries |].
  intros k. rewrite Hfs.
  rewrite (bool_decide_ext _ _ (elem_of_temp_entries w k)). reflexivity.
Qed.

Example cleanup_of_carpeta :
  App.limpiar_temporales App.sin_fallos App.carpeta
  = (inr [App.StWarning "No se pudo eliminar: temp_cache";
          App.StSuccess "Eliminado: temp_datos.csv"],
     set_fs (<["temp_cache" := Dir]> (<["informe.txt" := File "texto"]> ∅))
       App.carpeta).
Proof. vm_compute. reflexivity. Qed.

(** X30: a file saved by the upload is removed by the next cleanup: for
    a bare file name, when the write of "temp_<name>" goes through and
    its removal does not fail, the upload leaves the buffer in
    "temp_<name>", and the cleanup that follows deletes that file and
    shows "Eliminado: temp_<name>". *)
Theorem uploaded_file_is_cleaned_up `{Env}
    (remove_fault : string → option Exception)
    (name buffer : string) (w : World) :
  PyStr.mem "/"%char name = false →
  os_fault OsWrite ("temp_" +:+ name) = None →
  fs w !! ("temp_" +:+ name) ≠ Some Dir →
  remove_fault ("temp_" +:+ name) = None →
  ∃ aviso w1 avisos w2,
    App.guardar_subido name buffer w = (inr aviso, w1)
    ∧ fs w1 !! ("temp_" +:+ name) = Some (File buffer)
    ∧ App.limpiar_temporales remove_fault w1 = (inr avisos, w2)
    ∧ fs w2 !! ("temp_" +:+ name) = None
    ∧ App.StSuccess ("Eliminado: " +:+ "temp_" +:+ name) ∈ avisos.
Proof.
  intros Hbare Hok Hnodir Hrm.
  pose proof (run_guardar_subido name buffer w Hok Hnodir) as Hup.
  set (w1 := set_fs (<["temp_" +:+ name := File buffer]> (fs w)) w) in *.
  assert (fs w1 !! ("temp_" +:+ name) = Some (File buffer)) as Hfile
    by (subst w1; cbn [fs set_fs]; apply lookup_insert_eq).
  assert (App.is_temp_entry w1 ("temp_" +:+ name)) as Htemp.
  { split; [rewrite Hfile; eauto |]. split; [| apply prefix_app].
    rewrite mem_app, Hbare. reflexivity. }
  assert (App.removable remove_fault w1 ("temp_" +:+ name) = true) as Hrem
    by (unfold App.removable; rewrite Hfile, Hrm; reflexivity).
  destruct (run_limpiar_temporales remove_fault w1) as (w2 & Hrun & Hfs & _).
  eexists _, w1, _, w2. split; [exact Hup |]. split; [exact Hfile |].
  split; [exact Hrun |]. split.
  - rewrite Hfs, Hrem, bool_decide_eq_true_2 by exact Htemp. reflexivity.
  - apply list_elem_of_fmap. exists ("temp_" +:+ name). split.
    + unfold App.aviso_de. rewrite Hrem. reflexivity.
    + apply elem_of_temp_entries, Htemp.
Qed.

Lemma uploaded_file_is_cleaned_up_witness :
  ∃ aviso w1 avisos w2,
    App.guardar_subido "ventas.csv" "a,b" App.carpeta = (inr aviso, w1)
    ∧ fs w1 !! ("temp_" +:+ "ventas.csv") = Some (File "a,b")
    ∧ App.limpiar_temporales App.sin_fallos w1 = (inr avisos, w2)
    ∧ fs w2 !! ("temp_" +:+ "ventas.csv") = None
    ∧ App.StSuccess ("Eliminado: " +:+ "temp_" +:+ "ventas.csv") ∈ avisos.
Proof.
  apply (uploaded_file_is_cleaned_up App.sin_fallos "ventas.csv" "a,b"
           App.carpeta).
  - reflexivity.
  - reflexivity.
  - vm_compute. discriminate.
  - reflexivity.
Defined.
